(** * Tabular query and analysis engine: a shallow embedding

    The development follows the Python sources

      - [src/tools/data_tools.py]           (module [data_tools])
      - [src/tools/advanced_data_tools.py]  (module [advanced_data_tools])
      - [src/data-insights.py]              (module [data_insights])
      - [src/tools/statistical_tools.py], [src/tools/formatting_tools.py]
                                            (the labelling functions)

    Modelling conventions.

    - Text is ASCII: a Python [str] is a [string]; characters above 127 are
      neither letters, digits nor white space.
    - Numbers are exact rationals ([Q]); the rounding of 64-bit floats is not
      modelled.  A cell is a number, a text or a null (NaN / None).
    - A [DataFrame] is a list of named, typed columns over a list of rows;
      row labels (the pandas index) are not modelled: a frame is taken with
      the labels 0..n-1 it has when it is read, and rows are identified by
      their position.
    - An operation that may raise returns a [result]; the error names the
      exception the source raises at that point. *)

From Stdlib Require Import List String Ascii Bool Arith ZArith QArith Qround Qabs Lia.
Import ListNotations.

Open Scope string_scope.
Open Scope list_scope.

(* ================================================================== *)
(** ** Errors *)

Inductive error : Type :=
| ColumnNotFound (col : string)        (* ValueError("Column ... not found") *)
| TypeMismatch (col : string)          (* ValueError("... must be numeric ...") *)
| UnsupportedFunction (name : string)  (* ValueError("Unknown aggregation function ...") *)
| UnknownCondition (name : string)     (* ValueError("Unknown condition ...") *)
| UnknownMethod (name : string)        (* ValueError("Unknown method ...") *)
| MalformedCondition                   (* ValueError("Between condition requires ...") *)
| PyTypeError                          (* TypeError raised by pandas / Python *)
| PyValueError                         (* ValueError raised by pandas / Python *)
| Wrapped (context : string) (e : error). (* raise ValueError(f"<context>: {e}") *)

Inductive result (A : Type) : Type :=
| Ok (a : A)
| Err (e : error).
Arguments Ok {A} a.
Arguments Err {A} e.

Definition bind {A B : Type} (m : result A) (f : A -> result B) : result B :=
  match m with
  | Ok a => f a
  | Err e => Err e
  end.

Notation "x <- m ;; k" := (bind m (fun x => k))
  (at level 61, m at next level, right associativity).

(** [try: body except Exception as e: raise ValueError(f"<context>: {e}")] *)
Definition try_wrap {A : Type} (context : string) (body : result A) : result A :=
  match body with
  | Ok a => Ok a
  | Err e => Err (Wrapped context e)
  end.

Fixpoint mapM {A B : Type} (f : A -> result B) (l : list A) : result (list B) :=
  match l with
  | [] => Ok []
  | x :: l' => y <- f x ;; ys <- mapM f l' ;; Ok (y :: ys)
  end.

(* ================================================================== *)
(** ** Python [str] operations *)

Module PyStr.

Definition code (c : ascii) : nat := nat_of_ascii c.

Definition in_range (lo hi : nat) (c : ascii) : bool :=
  Nat.leb lo (code c) && Nat.leb (code c) hi.

Definition is_upper (c : ascii) : bool := in_range 65 90 c.
Definition is_lower (c : ascii) : bool := in_range 97 122 c.
Definition is_digit (c : ascii) : bool := in_range 48 57 c.

(** [str.isspace] on the ASCII range: TAB LF VT FF CR, FS GS RS US, SPACE. *)
Definition is_space (c : ascii) : bool :=
  in_range 9 13 c || in_range 28 32 c.

(** The class [\w] *)
Definition is_word (c : ascii) : bool :=
  is_upper c || is_lower c || is_digit c || Nat.eqb (code c) 95.

Definition lower_char (c : ascii) : ascii :=
  if is_upper c then ascii_of_nat (code c + 32) else c.

Definition upper_char (c : ascii) : ascii :=
  if is_lower c then ascii_of_nat (code c - 32) else c.

Fixpoint map_chars (f : ascii -> ascii) (s : string) : string :=
  match s with
  | EmptyString => EmptyString
  | String c s' => String (f c) (map_chars f s')
  end.

(** [s.lower()], [s.upper()] *)
Definition lower (s : string) : string := map_chars lower_char s.
Definition upper (s : string) : string := map_chars upper_char s.

(** [s.startswith(p)] *)
Fixpoint startswith (p s : string) : bool :=
  match p, s with
  | EmptyString, _ => true
  | String a p', String b s' => Ascii.eqb a b && startswith p' s'
  | String _ _, EmptyString => false
  end.

(** [p in s] *)
Fixpoint contains (p s : string) : bool :=
  startswith p s ||
  match s with
  | EmptyString => false
  | String _ s' => contains p s'
  end.

Fixpoint lstrip_by (f : ascii -> bool) (s : string) : string :=
  match s with
  | EmptyString => EmptyString
  | String c s' => if f c then lstrip_by f s' else s
  end.

Fixpoint rstrip_by (f : ascii -> bool) (s : string) : string :=
  match s with
  | EmptyString => EmptyString
  | String c s' =>
      match rstrip_by f s' with
      | EmptyString => if f c then EmptyString else String c EmptyString
      | t => String c t
      end
  end.

(** [s.strip()] and [s.strip(c)] for a one-character argument *)
Definition strip (s : string) : string := rstrip_by is_space (lstrip_by is_space s).
Definition strip_char (c : ascii) (s : string) : string :=
  rstrip_by (Ascii.eqb c) (lstrip_by (Ascii.eqb c) s).

(** [s.split(c)] for a one-character separator: never returns the empty list. *)
Fixpoint split (c : ascii) (s : string) : list string :=
  match s with
  | EmptyString => [EmptyString]
  | String a s' =>
      if Ascii.eqb a c then EmptyString :: split c s'
      else match split c s' with
           | [] => [String a EmptyString]
           | w :: ws => String a w :: ws
           end
  end.

(** [s.split(sep)] for a separator of several characters: the pieces between
    the occurrences of [sep], found from the left and not overlapping.
    [skip] counts the characters of an occurrence still to pass over. *)
Fixpoint split_sep (sep : string) (skip : nat) (s : string) : list string :=
  match s with
  | EmptyString => [EmptyString]
  | String a s' =>
      match skip with
      | S k => split_sep sep k s'
      | O =>
          if startswith sep s then EmptyString :: split_sep sep (String.length sep - 1) s'
          else match split_sep sep O s' with
               | [] => [String a EmptyString]
               | w :: ws => String a w :: ws
               end
      end
  end.

Definition split_str (sep s : string) : list string := split_sep sep O s.

(** Truthiness of a [str]: the empty text is false. *)
Definition truthy (s : string) : bool :=
  match s with EmptyString => false | _ => true end.

Definition newline : ascii := ascii_of_nat 10.
Definition pipe : ascii := ascii_of_nat 124.

End PyStr.

(* ================================================================== *)
(** ** Backtracking regular expressions (Python [re]) *)

Module Re.

(** The fragment of the [re] syntax the sources use.  Quantifiers only
    occur on character classes ([\w+], [\s*], [[\d.]+], ...) and are
    greedy. *)
Inductive regex : Type :=
| Lit (s : string)                    (* a literal text *)
| Seq (r1 r2 : regex)                 (* r1 r2 *)
| Alt (r1 r2 : regex)                 (* r1|r2, r1 tried first *)
| Star (cls : ascii -> bool)          (* [cls]* *)
| Plus (cls : ascii -> bool)          (* [cls]+ *)
| Group (n : nat) (r : regex).        (* the n-th capturing group *)

Definition captures : Type := list (nat * string).

Fixpoint group (n : nat) (caps : captures) : option string :=
  match caps with
  | [] => None
  | (m, s) :: caps' => if Nat.eqb m n then Some s else group n caps'
  end.

Fixpoint drop_prefix (p s : string) : option string :=
  match p, s with
  | EmptyString, _ => Some s
  | String a p', String b s' => if Ascii.eqb a b then drop_prefix p' s' else None
  | String _ _, EmptyString => None
  end.

(** The text consumed between [s] and its suffix [rest]. *)
Definition consumed (s rest : string) : string :=
  substring 0 (String.length s - String.length rest) s.

Section Exec.
Context {A : Type}.

(** Greedy repetition: take as many characters as possible, give them
    back one at a time while the continuation fails. *)
Fixpoint star (cls : ascii -> bool) (s : string) (k : string -> option A) : option A :=
  match s with
  | EmptyString => k EmptyString
  | String c s' =>
      if cls c then
        match star cls s' k with
        | Some a => Some a
        | None => k s
        end
      else k s
  end.

Fixpoint exec (r : regex) (s : string) (caps : captures)
         (k : string -> captures -> option A) : option A :=
  match r with
  | Lit p =>
      match drop_prefix p s with
      | Some rest => k rest caps
      | None => None
      end
  | Seq r1 r2 => exec r1 s caps (fun rest caps' => exec r2 rest caps' k)
  | Alt r1 r2 =>
      match exec r1 s caps k with
      | Some a => Some a
      | None => exec r2 s caps k
      end
  | Star cls => star cls s (fun rest => k rest caps)
  | Plus cls =>
      match s with
      | String c s' => if cls c then star cls s' (fun rest => k rest caps) else None
      | EmptyString => None
      end
  | Group n r' =>
      exec r' s caps (fun rest caps' => k rest ((n, consumed s rest) :: caps'))
  end.
End Exec.

(** [re.match(r, s)]: the groups of the match anchored at the start. *)
Definition match_here (r : regex) (s : string) : option captures :=
  exec r s [] (fun _ caps => Some caps).

(** [re.search(r, s)]: the leftmost match. *)
Fixpoint search (r : regex) (s : string) : option captures :=
  match match_here r s with
  | Some caps => Some caps
  | None =>
      match s with
      | EmptyString => None
      | String _ s' => search r s'
      end
  end.

(** Character classes *)
Definition w : ascii -> bool := PyStr.is_word.
Definition s_ : ascii -> bool := PyStr.is_space.
Definition d : ascii -> bool := PyStr.is_digit.
(** [[\d.]] *)
Definition d_dot (c : ascii) : bool := PyStr.is_digit c || Nat.eqb (PyStr.code c) 46.
(** [[\w\s]] *)
Definition w_s (c : ascii) : bool := PyStr.is_word c || PyStr.is_space c.

(** [m.group(1) or m.group(2) or m.group(3)] *)
Definition group_or (caps : captures) (ns : list nat) : option string :=
  fold_right
    (fun n rest =>
       match group n caps with
       | Some s => if PyStr.truthy s then Some s else rest
       | None => rest
       end)
    None ns.

End Re.

Notation "r1 ';;;' r2" := (Re.Seq r1 r2) (at level 60, right associativity).

(* ================================================================== *)
(** ** Number literals *)

Module PyNum.

Definition digit_val (c : ascii) : Z := Z.of_nat (PyStr.code c - 48).

Fixpoint all_digits (s : string) : bool :=
  match s with
  | EmptyString => true
  | String c s' => PyStr.is_digit c && all_digits s'
  end.

Fixpoint digits_to_Z (acc : Z) (s : string) : Z :=
  match s with
  | EmptyString => acc
  | String c s' => digits_to_Z (10 * acc + digit_val c) s'
  end.

(** [int(s)] on a text of decimal digits (as matched by [\d+]). *)
Definition parse_int (s : string) : result Z :=
  if PyStr.truthy s && all_digits s then Ok (digits_to_Z 0 s) else Err PyValueError.

Fixpoint pow10 (n : nat) : positive :=
  match n with
  | O => 1%positive
  | S n' => (10 * pow10 n')%positive
  end.

(** [float(s)] on a text of digits and dots (as matched by [[\d.]+]):
    digits with at most one dot and at least one digit; anything else
    raises [ValueError]. *)
Definition parse_float (s : string) : result Q :=
  match PyStr.split "." s with
  | [i] =>
      if PyStr.truthy i && all_digits i then Ok (inject_Z (digits_to_Z 0 i))
      else Err PyValueError
  | [i; f] =>
      if all_digits i && all_digits f && (PyStr.truthy i || PyStr.truthy f)
      then Ok (Qmake (digits_to_Z 0 (i ++ f)) (pow10 (String.length f)))
      else Err PyValueError
  | _ => Err PyValueError
  end.

End PyNum.

(* ================================================================== *)
(** ** The pandas data model *)

Module Pandas.

(** A cell: a number, a text, or a null (NaN / None). *)
Inductive value : Type :=
| VNum (q : Q)
| VStr (s : string)
| VNull.

Inductive dtype : Type := Int64 | Float64 | Object.

Record DataFrame : Type := mkDataFrame {
  schema : list (string * dtype);   (* column names with their dtypes *)
  rows : list (list value)          (* one list of cells per row *)
}.

(** A Python scalar, and the values a condition may carry. *)
Inductive scalar : Type :=
| SNum (q : Q)
| SStr (s : string).

Inductive pyval : Type :=
| Scalar (x : scalar)
| PyList (xs : list scalar).       (* a list or a tuple *)

(** [df.columns] *)
Definition columns (df : DataFrame) : list string := map fst (schema df).

(** [col in df.columns] *)
Definition has_column (col : string) (df : DataFrame) : bool :=
  existsb (String.eqb col) (columns df).

Fixpoint index_of (col : string) (cols : list string) : option nat :=
  match cols with
  | [] => None
  | c :: cols' =>
      if String.eqb col c then Some O
      else match index_of col cols' with
           | Some j => Some (S j)
           | None => None
           end
  end.

Definition cell (j : nat) (row : list value) : value := nth j row VNull.

(** [str(dtype)] *)
Definition dtype_name (dt : dtype) : string :=
  match dt with
  | Int64 => "int64"
  | Float64 => "float64"
  | Object => "object"
  end.

(** A column taken out of a frame: [df[col]]. *)
Record Series : Type := mkSeries {
  s_dtype : dtype;
  s_values : list value
}.

Definition get_column (df : DataFrame) (col : string) : result Series :=
  match index_of col (columns df) with
  | Some j => Ok (mkSeries (nth j (map snd (schema df)) Object) (map (cell j) (rows df)))
  | None => Err (ColumnNotFound col)     (* KeyError *)
  end.

(** [len(df)], [df.empty], [df.head(n)] *)
Definition len (df : DataFrame) : nat := List.length (rows df).

Definition empty (df : DataFrame) : bool :=
  match rows df, schema df with
  | [], _ => true
  | _, [] => true
  | _, _ => false
  end.

(** [df.head(n)]: the first [n] rows; all but the last [-n] for a negative [n]. *)
Definition head (n : Z) (df : DataFrame) : DataFrame :=
  mkDataFrame (schema df)
    (if (0 <=? n)%Z then firstn (Z.to_nat n) (rows df)
     else firstn (List.length (rows df) - Z.to_nat (- n)) (rows df)).

(** Boolean indexing [df[mask]]: the rows whose mask entry is true. *)
Fixpoint select_rows (mask : list bool) (rs : list (list value)) : list (list value) :=
  match mask, rs with
  | b :: mask', r :: rs' => if b then r :: select_rows mask' rs' else select_rows mask' rs'
  | _, _ => []
  end.

Definition select (mask : list bool) (df : DataFrame) : DataFrame :=
  mkDataFrame (schema df) (select_rows mask (rows df)).

Definition is_null (v : value) : bool :=
  match v with VNull => true | _ => false end.

(** Equality of cells as [nunique], [duplicated] and [groupby] see it:
    nulls are equal to each other. *)
Definition value_eqb (x y : value) : bool :=
  match x, y with
  | VNum a, VNum b => Qeq_bool a b
  | VStr a, VStr b => String.eqb a b
  | VNull, VNull => true
  | _, _ => false
  end.

(** The order in which group keys are listed: numbers before texts. *)
Definition value_leb (x y : value) : bool :=
  match x, y with
  | VNum a, VNum b => Qle_bool a b
  | VStr a, VStr b => String.leb a b
  | VNum _, _ => true
  | VStr _, VNum _ => false
  | VStr _, VNull => true
  | VNull, VNull => true
  | VNull, _ => false
  end.

(** *** Element-wise comparison of a column with a value *)

Inductive cmp_op : Type := Gt | Ge | Lt | Le | Eq | Ne.

Definition cmp_Q (op : cmp_op) (a b : Q) : bool :=
  match op with
  | Gt => negb (Qle_bool a b)
  | Ge => Qle_bool b a
  | Lt => negb (Qle_bool b a)
  | Le => Qle_bool a b
  | Eq => Qeq_bool a b
  | Ne => negb (Qeq_bool a b)
  end.

Definition cmp_string (op : cmp_op) (a b : string) : bool :=
  match op with
  | Gt => String.ltb b a
  | Ge => String.leb b a
  | Lt => String.ltb a b
  | Le => String.leb a b
  | Eq => String.eqb a b
  | Ne => negb (String.eqb a b)
  end.

(** One cell against one scalar: a null compares false ([!=]: true); a
    number against a text is unequal, and unordered ([TypeError]).
    Numbers are compared as the exact rationals they denote.  pandas
    compares an int64 cell with a float (and a float cell with an int)
    after converting to float64, which is exact for magnitudes up to 2^53:
    statements about the exact set of rows kept carry that bound. *)
Definition compare_value (op : cmp_op) (x : value) (y : scalar) : result bool :=
  match x, y with
  | VNull, _ => Ok (match op with Ne => true | _ => false end)
  | VNum a, SNum b => Ok (cmp_Q op a b)
  | VStr a, SStr b => Ok (cmp_string op a b)
  | _, _ =>
      match op with
      | Eq => Ok false
      | Ne => Ok true
      | _ => Err PyTypeError
      end
  end.

Fixpoint compare_zip (op : cmp_op) (xs : list value) (ys : list scalar) : result (list bool) :=
  match xs, ys with
  | x :: xs', y :: ys' =>
      b <- compare_value op x y ;; bs <- compare_zip op xs' ys' ;; Ok (b :: bs)
  | _, _ => Ok []
  end.

(** [series <op> value]: a scalar is broadcast; a list must have the
    length of the column and is compared position by position. *)
Definition series_compare (op : cmp_op) (sr : Series) (v : pyval) : result (list bool) :=
  match v with
  | Scalar y => mapM (fun x => compare_value op x y) (s_values sr)
  | PyList ys =>
      if Nat.eqb (List.length ys) (List.length (s_values sr))
      then compare_zip op (s_values sr) ys
      else Err PyValueError
  end.

(** [mask1 & mask2], [mask1 | mask2] *)
Fixpoint mask_zip (f : bool -> bool -> bool) (m1 m2 : list bool) : list bool :=
  match m1, m2 with
  | a :: m1', b :: m2' => f a b :: mask_zip f m1' m2'
  | _, _ => []
  end.

Definition mask_and : list bool -> list bool -> list bool := mask_zip andb.
Definition mask_or : list bool -> list bool -> list bool := mask_zip orb.

(** *** Sorting *)

Section Sort.
Context {A : Type} (leb : A -> A -> bool).

Fixpoint insert (x : A) (l : list A) : list A :=
  match l with
  | [] => [x]
  | y :: l' => if leb x y then x :: l else y :: insert x l'
  end.

(** A stable sort: of two equal elements the earlier stays first. *)
Fixpoint stable_sort (l : list A) : list A :=
  match l with
  | [] => []
  | x :: l' => insert x (stable_sort l')
  end.
End Sort.

Definition all_numbers (vs : list value) : bool :=
  forallb (fun v => match v with VNum _ => true | _ => false end) vs.
Definition all_texts (vs : list value) : bool :=
  forallb (fun v => match v with VStr _ => true | _ => false end) vs.

(** [df.sort_values(by=col, ascending=asc)]: nulls go last in both
    directions; a descending sort is the reversed ascending sort of the
    reversed rows.  Rows with equal keys keep their original order here;
    pandas' default sort kind (quicksort) does not promise that order, and
    no statement below depends on the order of rows with equal keys.  A
    column mixing numbers and texts cannot be ordered ([TypeError]). *)
Definition sort_values (col : string) (ascending : bool) (df : DataFrame) : result DataFrame :=
  match index_of col (columns df) with
  | None => Err (ColumnNotFound col)
  | Some j =>
      let key r := cell j r in
      let present := filter (fun r => negb (is_null (key r))) (rows df) in
      let missing := filter (fun r => is_null (key r)) (rows df) in
      let by_key r1 r2 := value_leb (key r1) (key r2) in
      if all_numbers (map key present) || all_texts (map key present) then
        Ok (mkDataFrame (schema df)
              (if ascending
               then stable_sort by_key present ++ missing
               else rev (stable_sort by_key (rev present)) ++ missing))
      else Err PyTypeError
  end.

(** *** Grouping *)

(** The distinct cells of a list, first occurrences kept. *)
Fixpoint unique (vs : list value) : list value :=
  match vs with
  | [] => []
  | v :: vs' => v :: filter (fun u => negb (value_eqb v u)) (unique vs')
  end.

Definition count_eq (k : value) (vs : list value) : nat :=
  List.length (filter (value_eqb k) vs).

Definition num_of_nat (n : nat) : value := VNum (inject_Z (Z.of_nat n)).

(** The groups of [df.groupby(col)]: the distinct non-null keys in
    ascending order, each with the rows that carry it. *)
Definition group_keys (vs : list value) : list value :=
  unique (stable_sort value_leb (filter (fun v => negb (is_null v)) vs)).

(** [df.groupby(col).size().reset_index(name=name)] *)
Definition groupby_size (col name : string) (df : DataFrame) : result DataFrame :=
  sr <- get_column df col ;;
  if String.eqb col name then Err PyValueError   (* cannot insert, already exists *)
  else
    Ok (mkDataFrame [(col, s_dtype sr); (name, Int64)]
          (map (fun k => [k; num_of_nat (count_eq k (s_values sr))])
               (group_keys (s_values sr)))).

(** *** Column statistics *)

Fixpoint numbers (vs : list value) : list Q :=
  match vs with
  | [] => []
  | VNum q :: vs' => q :: numbers vs'
  | _ :: vs' => numbers vs'
  end.

Definition Qsum (l : list Q) : Q := fold_right Qplus 0%Q l.
Definition Qof_nat (n : nat) : Q := inject_Z (Z.of_nat n).

Definition Qmean (l : list Q) : option Q :=
  match l with
  | [] => None
  | _ => Some (Qsum l / Qof_nat (List.length l))%Q
  end.

(** The sample variance (one degree of freedom removed). *)
Definition Qvar (l : list Q) : option Q :=
  match Qmean l with
  | Some m =>
      if Nat.ltb (List.length l) 2 then None
      else Some (Qsum (map (fun x => (x - m) * (x - m))%Q l)
                 / Qof_nat (List.length l - 1))%Q
  | None => None
  end.

Definition Qmin_list (l : list Q) : option Q :=
  match l with
  | [] => None
  | x :: l' => Some (fold_left (fun a b => if Qle_bool a b then a else b) l' x)
  end.

Definition Qmax_list (l : list Q) : option Q :=
  match l with
  | [] => None
  | x :: l' => Some (fold_left (fun a b => if Qle_bool a b then b else a) l' x)
  end.

Definition of_option (o : option Q) : value :=
  match o with Some q => VNum q | None => VNull end.

(** [series.quantile(q)]: linear interpolation between the two nearest
    ranks of the sorted non-null values. *)
Definition quantile (q : Q) (vs : list value) : option Q :=
  let xs := stable_sort Qle_bool (numbers vs) in
  match xs with
  | [] => None
  | x0 :: _ =>
      let pos := (Qof_nat (List.length xs - 1) * q)%Q in
      let lo := Z.to_nat (Qfloor pos) in
      let frac := (pos - inject_Z (Qfloor pos))%Q in
      let a := nth lo xs x0 in
      let b := nth (S lo) xs a in
      Some (a + frac * (b - a))%Q
  end.


(** *** Data-quality counts *)

(** [series.isnull().sum()], [series.notna().sum()] *)
Definition isnull_sum (sr : Series) : nat :=
  List.length (filter is_null (s_values sr)).
Definition notna_sum (sr : Series) : nat :=
  List.length (filter (fun v => negb (is_null v)) (s_values sr)).

(** [series.nunique()]: the distinct non-null cells *)
Definition nunique (sr : Series) : nat :=
  List.length (unique (filter (fun v => negb (is_null v)) (s_values sr))).

(** [series.duplicated().sum()]: the cells equal to an earlier cell.  The
    model has one null; in a column that holds both [None] and NaN pandas
    counts the two as different values here (and as nulls everywhere
    else), so only what holds with several kinds of null is stated of this
    count. *)
Definition duplicated_sum (sr : Series) : nat :=
  List.length (s_values sr) - List.length (unique (s_values sr)).

(** [pd.api.types.is_numeric_dtype] *)
Definition is_numeric_dtype (sr : Series) : bool :=
  match s_dtype sr with Int64 | Float64 => true | Object => false end.

(** [series.min()] and [series.mean()], nulls skipped: NaN on no data;
    the mean of a text column raises [TypeError], and so does the
    minimum when it has to compare a text with a number. *)
Definition series_mean (sr : Series) : result value :=
  if is_numeric_dtype sr then Ok (of_option (Qmean (numbers (s_values sr))))
  else Err PyTypeError.

Definition series_min (sr : Series) : result value :=
  let present := filter (fun v => negb (is_null v)) (s_values sr) in
  if is_numeric_dtype sr then Ok (of_option (Qmin_list (numbers (s_values sr))))
  else if all_texts present then
    Ok (fold_left (fun acc v => match acc with
                                | VNull => v
                                | _ => if value_leb acc v then acc else v
                                end) present VNull)
  else Err PyTypeError.

(** *** Frames built from a list of dictionaries *)

(** The cells of a summary: a text, a count, or a percentage printed by
    [f"{x:.2f}%"] (of NaN when the frame has no rows).  [SPercent] keeps
    the exact number the text is printed from: the text itself is that
    number rounded to a float and then to two decimals, and nothing is
    stated below of the rounded digits. *)
Inductive summary_cell : Type :=
| SText (s : string)
| SCount (n : nat)
| SPercent (x : option Q).

Definition record : Type := list (string * summary_cell).

Record Summary : Type := mkSummary {
  sm_columns : list string;
  sm_rows : list (list summary_cell)
}.

(** [pd.DataFrame(records)] for records that all carry the same keys:
    the columns are the keys, in their order; no record, no column. *)
Definition DataFrame_of_records (records : list record) : Summary :=
  mkSummary
    (match records with
     | [] => []
     | r :: _ => map fst r
     end)
    (map (map snd) records).

End Pandas.

(** A condition dictionary [{'column': .., 'operator': .., 'value': ..}],
    all three keys present. *)
Module Cond.
Record t : Type := mk {
  column : string;
  operator : string;
  value : Pandas.pyval
}.
End Cond.
Definition Condition : Type := Cond.t.

(* ================================================================== *)
(** ** [src/tools/data_tools.py] *)

Module data_tools.
Import Pandas.

(** *** [execute_complex_query] *)

(** [r'order by (\w+)|sort by (\w+)|sorted by (\w+)'] *)
Definition order_re : Re.regex :=
  Re.Alt (Re.Lit "order by " ;;; Re.Group 1 (Re.Plus Re.w))
    (Re.Alt (Re.Lit "sort by " ;;; Re.Group 2 (Re.Plus Re.w))
            (Re.Lit "sorted by " ;;; Re.Group 3 (Re.Plus Re.w))).

(** [r'limit\s+(\d+)|first\s+(\d+)|top\s+(\d+)'] *)
Definition limit_re : Re.regex :=
  Re.Alt (Re.Lit "limit" ;;; Re.Plus Re.s_ ;;; Re.Group 1 (Re.Plus Re.d))
    (Re.Alt (Re.Lit "first" ;;; Re.Plus Re.s_ ;;; Re.Group 2 (Re.Plus Re.d))
            (Re.Lit "top" ;;; Re.Plus Re.s_ ;;; Re.Group 3 (Re.Plus Re.d))).

(** [r'where\s+(\w+)\s*(>|<|>=|<=|==)\s*([\d.]+)'] *)
Definition where_re : Re.regex :=
  Re.Lit "where" ;;; Re.Plus Re.s_ ;;; Re.Group 1 (Re.Plus Re.w) ;;; Re.Star Re.s_ ;;;
  Re.Group 2 (Re.Alt (Re.Lit ">") (Re.Alt (Re.Lit "<") (Re.Alt (Re.Lit ">=")
               (Re.Alt (Re.Lit "<=") (Re.Lit "=="))))) ;;;
  Re.Star Re.s_ ;;; Re.Group 3 (Re.Plus Re.d_dot).

(** [r'group by (\w+)'] *)
Definition group_re : Re.regex := Re.Lit "group by " ;;; Re.Group 1 (Re.Plus Re.w).

Definition symbol_op (op : string) : option cmp_op :=
  if String.eqb op ">" then Some Gt
  else if String.eqb op "<" then Some Lt
  else if String.eqb op ">=" then Some Ge
  else if String.eqb op "<=" then Some Le
  else if String.eqb op "==" then Some Eq
  else None.

(** [result[result[col] <op> val]] *)
Definition filter_compare (op : cmp_op) (col : string) (v : pyval) (df : DataFrame)
  : result DataFrame :=
  sr <- get_column df col ;;
  mask <- series_compare op sr v ;;
  Ok (select mask df).

(** "Extract ORDER BY" *)
Definition apply_order_by (query_lower : string) (res : DataFrame) : result DataFrame :=
  match Re.search order_re query_lower with
  | Some m =>
      match Re.group_or m [1; 2; 3]%nat with
      | Some col =>
          if has_column col res then
            let ascending := negb (PyStr.contains "desc" query_lower) in
            sort_values col ascending res
          else Ok res
      | None => Ok res
      end
  | None => Ok res
  end.

(** "Extract LIMIT" *)
Definition apply_limit (query_lower : string) (res : DataFrame) : result DataFrame :=
  match Re.search limit_re query_lower with
  | Some m =>
      match Re.group_or m [1; 2; 3]%nat with
      | Some digits =>
          limit_val <- PyNum.parse_int digits ;;
          Ok (head limit_val res)
      | None => Err PyTypeError            (* int(None) *)
      end
  | None => Ok res
  end.

(** "Extract WHERE conditions (simplified)" *)
Definition apply_where (query_lower : string) (res : DataFrame) : result DataFrame :=
  if PyStr.contains "where" query_lower then
    match Re.search where_re query_lower with
    | Some m =>
        match Re.group 1 m, Re.group 2 m, Re.group 3 m with
        | Some col, Some op, Some num =>
            val <- PyNum.parse_float num ;;
            if has_column col res then
              match symbol_op op with
              | Some o => filter_compare o col (Scalar (SNum val)) res
              | None => Ok res
              end
            else Ok res
        | _, _, _ => Ok res
        end
    | None => Ok res
    end
  else Ok res.

(** "Extract GROUP BY (simplified - would need aggregation separately)" *)
Definition apply_group_by (query_lower : string) (res : DataFrame) : result DataFrame :=
  match Re.search group_re query_lower with
  | Some m =>
      match Re.group 1 m with
      | Some col =>
          if has_column col res then groupby_size col "count" res
          else Ok res
      | None => Ok res
      end
  | None => Ok res
  end.

Definition execute_complex_query (dataframe : DataFrame) (query : string) : result DataFrame :=
  let res := dataframe in                 (* dataframe.copy() *)
  let query_lower := PyStr.lower query in
  res <- apply_order_by query_lower res ;;
  res <- apply_limit query_lower res ;;
  res <- apply_where query_lower res ;;
  apply_group_by query_lower res.

(** *** Conditions *)

Definition str_in (s : string) (l : list string) : bool := existsb (String.eqb s) l.

Section WithContains.

(** [series.astype(str).str.contains(str(value), case=False, na=False)]:
    pandas compiles [str(value)] as a pattern, which may fail, and then
    tests every cell. *)
Variable str_contains : pyval -> result (Pandas.value -> bool).

Definition series_contains (sr : Series) (v : pyval) : result (list bool) :=
  f <- str_contains v ;; Ok (map f (s_values sr)).

(** *** [filter_dataframe] *)

Definition filter_dataframe (column : string) (condition : string) (value : pyval)
           (dataframe : DataFrame) : result DataFrame :=
  if empty dataframe then Ok dataframe
  else if negb (has_column column dataframe) then Err (ColumnNotFound column)
  else
    try_wrap "Error filtering dataframe"
      (let c := PyStr.lower condition in
       if str_in c ["greater"; ">"; "gt"; "above"] then
         filter_compare Gt column value dataframe
       else if str_in c ["less"; "<"; "lt"; "below"] then
         filter_compare Lt column value dataframe
       else if str_in c ["equal"; "=="; "eq"; "equals"] then
         filter_compare Eq column value dataframe
       else if str_in c ["contains"; "in"; "includes"] then
         sr <- get_column dataframe column ;;
         mask <- series_contains sr value ;;
         Ok (select mask dataframe)
       else if str_in c ["between"; "range"] then
         match value with
         | PyList [lo; hi] =>
             sr <- get_column dataframe column ;;
             m1 <- series_compare Ge sr (Scalar lo) ;;
             m2 <- series_compare Le sr (Scalar hi) ;;
             Ok (select (mask_and m1 m2) dataframe)
         | _ => Err MalformedCondition
         end
       else Err (UnknownCondition condition)).

(** *** [multi_condition_filter] *)

(** The mask one condition appends to [masks]; [None] when the loop
    appends nothing (unknown column, or an operator outside the chain). *)
Definition condition_mask (dataframe : DataFrame) (condition : Condition)
  : result (option (list bool)) :=
  let col := Cond.column condition in
  let op := Cond.operator condition in
  let v := Cond.value condition in
  if negb (has_column col dataframe) then Ok None            (* continue *)
  else
    sr <- get_column dataframe col ;;
    if String.eqb op ">" then m <- series_compare Gt sr v ;; Ok (Some m)
    else if String.eqb op ">=" then m <- series_compare Ge sr v ;; Ok (Some m)
    else if String.eqb op "<" then m <- series_compare Lt sr v ;; Ok (Some m)
    else if String.eqb op "<=" then m <- series_compare Le sr v ;; Ok (Some m)
    else if String.eqb op "==" then m <- series_compare Eq sr v ;; Ok (Some m)
    else if String.eqb op "!=" then m <- series_compare Ne sr v ;; Ok (Some m)
    else if String.eqb op "contains" then m <- series_contains sr v ;; Ok (Some m)
    else Ok None.

Fixpoint collect_masks (dataframe : DataFrame) (conditions : list Condition)
  : result (list (list bool)) :=
  match conditions with
  | [] => Ok []
  | c :: cs =>
      m <- condition_mask dataframe c ;;
      ms <- collect_masks dataframe cs ;;
      Ok (match m with Some mask => mask :: ms | None => ms end)
  end.

(** [combined_mask = masks[0]; for mask in masks[1:]: combined_mask = combined_mask <op> mask] *)
Definition combine_masks (logic : string) (first : list bool) (others : list (list bool))
  : list bool :=
  if String.eqb (PyStr.upper logic) "AND"
  then fold_left mask_and others first
  else fold_left mask_or others first.

Definition multi_condition_filter (dataframe : DataFrame) (conditions : list Condition)
           (logic : string) : result DataFrame :=
  match conditions with
  | [] => Ok dataframe
  | _ =>
      masks <- collect_masks dataframe conditions ;;
      match masks with
      | [] => Ok dataframe
      | first :: others => Ok (select (combine_masks logic first others) dataframe)
      end
  end.

End WithContains.

(** *** [detect_outliers] *)

Definition dtype_eqb (a b : dtype) : bool :=
  match a, b with
  | Int64, Int64 | Float64, Float64 | Object, Object => true
  | _, _ => false
  end.

Section WithNumpy.

(** [dtype == np.number] makes NumPy turn the abstract class
    [np.number] into a dtype first: releases that still perform the
    conversion give [float64], the others refuse it and the comparison
    is false. *)
Variable np_number_as_dtype : option dtype.

(** The square root that [std] takes. *)
Variable float_sqrt : Q -> Q.

(** [dtype in [np.number]] *)
Definition dtype_in_np_number (dt : dtype) : bool :=
  match np_number_as_dtype with
  | Some d => dtype_eqb dt d
  | None => false
  end.

Definition std (l : list Q) : option Q :=
  match Qvar l with
  | Some v => Some (float_sqrt v)
  | None => None
  end.

(** [series < bound], where the bound may be NaN *)
Definition compare_bound (op : cmp_op) (sr : Series) (bound : option Q) : result (list bool) :=
  match bound with
  | Some b => series_compare op sr (Scalar (SNum b))
  | None => Ok (map (fun _ => false) (s_values sr))
  end.

(** [np.abs((series - mean) / std) > 3], false wherever the score is NaN *)
Definition zscore_mask (vs : list value) : list bool :=
  match Qmean (numbers vs), std (numbers vs) with
  | Some m, Some sd =>
      map (fun v =>
             match v with
             | VNum x =>
                 if Qeq_bool sd 0 then
                   (* x / 0 is infinite unless x is the mean *)
                   negb (Qeq_bool x m)
                 else negb (Qle_bool (Qabs ((x - m) / sd)) 3)
             | _ => false
             end) vs
  | _, _ => map (fun _ => false) vs
  end.

Definition detect_outliers (dataframe : DataFrame) (column : string) (method : string)
  : result DataFrame :=
  if negb (has_column column dataframe) then Err (ColumnNotFound column)
  else
    sr <- get_column dataframe column ;;
    if negb (dtype_in_np_number (s_dtype sr)) then Err (TypeMismatch column)
    else
      try_wrap "Error detecting outliers"
        (if String.eqb (PyStr.lower method) "iqr" then
           let Q1 := quantile (1 # 4) (s_values sr) in
           let Q3 := quantile (3 # 4) (s_values sr) in
           let lower_bound :=
             match Q1, Q3 with
             | Some q1, Some q3 => Some (q1 - (3 # 2) * (q3 - q1))%Q
             | _, _ => None
             end in
           let upper_bound :=
             match Q1, Q3 with
             | Some q1, Some q3 => Some (q3 + (3 # 2) * (q3 - q1))%Q
             | _, _ => None
             end in
           below <- compare_bound Lt sr lower_bound ;;
           above <- compare_bound Gt sr upper_bound ;;
           Ok (select (mask_or below above) dataframe)
         else if String.eqb (PyStr.lower method) "zscore" then
           Ok (select (zscore_mask (s_values sr)) dataframe)
         else Err (UnknownMethod method)).

(** *** [group_by_aggregate] *)

Definition is_number_dtype (dt : dtype) : bool :=
  match dt with Int64 | Float64 => true | Object => false end.

Inductive agg_fn : Type := AggSum | AggMean | AggCount | AggMax | AggMin | AggStd.

(** One aggregate over the cells of one group.  Nulls are skipped.  On a
    text column [count] counts, [min] and [max] compare texts, [sum]
    concatenates them (0 when there is none), [mean] and [std] raise
    [TypeError]. *)
Definition text_extreme (pick_left : string -> string -> bool) (vs : list value)
  : value :=
  fold_left
    (fun acc v =>
       match acc, v with
       | VStr a, VStr b => if pick_left a b then VStr a else VStr b
       | VNull, VStr b => VStr b
       | _, _ => acc
       end) vs VNull.

Definition aggregate (f : agg_fn) (dt : dtype) (vs : list value)
  : result value :=
  let present := filter (fun v => negb (is_null v)) vs in
  match f with
  | AggCount => Ok (num_of_nat (List.length present))
  | _ =>
      if is_number_dtype dt then
        let xs := numbers vs in
        Ok (match f with
            | AggSum => VNum (Qsum xs)
            | AggMean => of_option (Qmean xs)
            | AggMax => of_option (Qmax_list xs)
            | AggMin => of_option (Qmin_list xs)
            | AggStd => of_option (std xs)
            | AggCount => num_of_nat (List.length present)
            end)
      else
        match f with
        | AggMax => Ok (text_extreme (fun a b => String.leb b a) present)
        | AggMin => Ok (text_extreme String.leb present)
        | AggSum =>
            Ok (match present with
                | [] => VNum 0
                | _ => VStr (fold_right
                               (fun v acc => match v with
                                             | VStr t => String.append t acc
                                             | _ => acc
                                             end) EmptyString present)
                end)
        | _ => Err PyTypeError
        end
  end.

Definition agg_dtype (f : agg_fn) (dt : dtype) : dtype :=
  match f with
  | AggCount => Int64
  | AggMean | AggStd => Float64
  | AggSum | AggMax | AggMin => dt
  end.

(** The cells of column [j] in the rows whose column [g] holds key [k]. *)
Definition group_cells (g j : nat) (k : value) (rs : list (list value))
  : list value :=
  map (cell j) (filter (fun r => value_eqb k (cell g r)) rs).

(** [grouped[cols].<f>().reset_index()]: one row per group, the key
    first, then one aggregate per selected column.  [reset_index]
    refuses to insert the key next to a selected column of the same
    name. *)
Definition grouped_agg (dataframe : DataFrame) (group_by : string) (cols : list string)
           (f : agg_fn) : result DataFrame :=
  key <- get_column dataframe group_by ;;
  selected <- mapM (fun c =>
                      sr <- get_column dataframe c ;;
                      match index_of c (columns dataframe) with
                      | Some j => Ok (c, j, s_dtype sr)
                      | None => Err (ColumnNotFound c)
                      end) cols ;;
  match index_of group_by (columns dataframe) with
  | None => Err (ColumnNotFound group_by)
  | Some g =>
      out <- mapM (fun k =>
                     cells <- mapM (fun '(c, j, dt) =>
                                      aggregate f dt (group_cells g j k (rows dataframe)))
                                   selected ;;
                     Ok (k :: cells))
                  (group_keys (s_values key)) ;;
      if str_in group_by cols then Err PyValueError
      else
        Ok (mkDataFrame
              ((group_by, s_dtype key)
                 :: map (fun '(c, _, dt) => (c, agg_dtype f dt)) selected)
              out)
  end.

(** The names the single-column chain recognises, after [lower()]. *)
Definition single_column_fn (name : string) : option agg_fn :=
  let n := PyStr.lower name in
  if String.eqb n "sum" then Some AggSum
  else if String.eqb n "mean" || String.eqb n "average" then Some AggMean
  else if String.eqb n "count" then Some AggCount
  else if String.eqb n "max" then Some AggMax
  else if String.eqb n "min" then Some AggMin
  else if String.eqb n "std" || String.eqb n "stddev" then Some AggStd
  else None.

(** The names of the all-numeric chain whose aggregate is written out
    here.  The last branch of the chain hands the name as written to
    pandas' [agg]: [max], [min] and [std] are the aggregates above, every
    other name ([None] here) is left to [pandas_agg]. *)
Definition all_numeric_fn (name : string) : option agg_fn :=
  let n := PyStr.lower name in
  if String.eqb n "sum" then Some AggSum
  else if String.eqb n "mean" || String.eqb n "average" then Some AggMean
  else if String.eqb n "count" then Some AggCount
  else if String.eqb name "max" then Some AggMax
  else if String.eqb name "min" then Some AggMin
  else if String.eqb name "std" then Some AggStd
  else None.

(** [dataframe.select_dtypes(include=[np.number]).columns] *)
Definition numeric_columns (dataframe : DataFrame) : list string :=
  map fst (filter (fun cd => is_number_dtype (snd cd)) (schema dataframe)).

(** [grouped[numeric_cols].agg(agg_function).reset_index()] for the names
    that only pandas resolves ([size], [median], [var], [first], ...): what
    it returns or raises is pandas' matter and is left open. *)
Variable pandas_agg : DataFrame -> string -> list string -> string -> result DataFrame.

Definition group_by_aggregate (dataframe : DataFrame) (group_by : string)
           (agg_function : string) (agg_column : option string) : result DataFrame :=
  if negb (has_column group_by dataframe) then Err (ColumnNotFound group_by)
  else
    try_wrap "Error in group by operation"
      (let all_numeric :=
         (* "Aggregate all numeric columns" *)
         match all_numeric_fn agg_function with
         | Some f => grouped_agg dataframe group_by (numeric_columns dataframe) f
         | None =>
             pandas_agg dataframe group_by (numeric_columns dataframe) agg_function
         end in
       match agg_column with
       | Some c =>
           (* [if agg_column and agg_column in dataframe.columns] *)
           if PyStr.truthy c && has_column c dataframe then
             match single_column_fn agg_function with
             | Some f => grouped_agg dataframe group_by [c] f
             | None => Err (UnsupportedFunction agg_function)
             end
           else all_numeric
       | None => all_numeric
       end).

End WithNumpy.

(** *** [get_data_quality_summary] *)

(** [(null_count / len(dataframe)) * 100]; NaN when there is no row *)
Definition percentage (count total : nat) : option Q :=
  match total with
  | O => None
  | _ => Some (Qof_nat count / Qof_nat total * 100)%Q
  end.

(** [(1 - null_percentage/100)*100] *)
Definition completeness (null_percentage : option Q) : option Q :=
  match null_percentage with
  | Some p => Some ((1 - p / 100) * 100)%Q
  | None => None
  end.

Definition quality_record (col dtype : string) (total non_null_count null_count : nat)
           (null_percentage : option Q) (unique_count duplicate_count : nat) : record :=
  [ ("Column", SText col);
    ("Data Type", SText dtype);
    ("Total Rows", SCount total);
    ("Non-Null Count", SCount non_null_count);
    ("Null Count", SCount null_count);
    ("Null Percentage", SPercent null_percentage);
    ("Unique Values", SCount unique_count);
    ("Duplicates", SCount duplicate_count);
    ("Completeness", SPercent (completeness null_percentage)) ].

Definition quality_of_column (dataframe : DataFrame) (col : string) : result record :=
  sr <- get_column dataframe col ;;
  let null_count := isnull_sum sr in
  let null_percentage := percentage null_count (len dataframe) in
  let non_null_count := notna_sum sr in
  let unique_count := nunique sr in
  let duplicate_count := duplicated_sum sr in
  let dtype := dtype_name (s_dtype sr) in
  Ok (quality_record col dtype (len dataframe) non_null_count null_count
        null_percentage unique_count duplicate_count).

Definition get_data_quality_summary (dataframe : DataFrame) : result Summary :=
  quality_data <- mapM (quality_of_column dataframe) (columns dataframe) ;;
  Ok (DataFrame_of_records quality_data).

End data_tools.

(* ================================================================== *)
(** ** [src/tools/advanced_data_tools.py] *)

Module advanced_data_tools.
Import Pandas.

(** *** [get_data_quality_summary] *)

(** What the numeric branch binds to [min_val], [max_val], [mean_val]. *)
Inductive range_info : Type :=
| RangeValue (v : value)
| NotApplicable.                     (* "N/A" *)

Definition quality_of_column (dataframe : DataFrame) (col : string) : result record :=
  sr <- get_column dataframe col ;;
  let null_count := isnull_sum sr in
  let null_percentage := data_tools.percentage null_count (len dataframe) in
  let non_null_count := notna_sum sr in
  let unique_count := nunique sr in
  let duplicate_count := duplicated_sum sr in
  let dtype := dtype_name (s_dtype sr) in
  (* "For numeric columns, add range info" *)
  range <- (if is_numeric_dtype sr then
              min_val <- series_min sr ;;
              max_val <- series_mean sr ;;
              mean_val <- series_mean sr ;;
              Ok (RangeValue min_val, RangeValue max_val, RangeValue mean_val)
            else Ok (NotApplicable, NotApplicable, NotApplicable)) ;;
  Ok (data_tools.quality_record col dtype (len dataframe) non_null_count null_count
        null_percentage unique_count duplicate_count).

Definition get_data_quality_summary (dataframe : DataFrame) : result Summary :=
  quality_data <- mapM (quality_of_column dataframe) (columns dataframe) ;;
  Ok (DataFrame_of_records quality_data).

(** *** [parse_natural_language_query] *)

Record Operation : Type := mkOperation {
  select_columns : option (list string);
  where_conditions : list Condition;
  group_by : option string;
  order_by : option string;
  order_direction : string;
  limit : option Z;
  aggregate : option string
}.

Definition by_word (keyword : string) : Re.regex :=
  Re.Lit keyword ;;; Re.Group 1 (Re.Plus Re.w).

Definition order_patterns : list Re.regex :=
  [ by_word "order by "; by_word "sort by "; by_word "sorted by "; by_word "sort " ].

Definition group_patterns : list Re.regex :=
  [ by_word "group by "; by_word "grouped by "; by_word "group " ].

(** [for pattern in patterns: ... if col in dataframe.columns: ...; break] *)
Fixpoint first_known_column (patterns : list Re.regex) (query_lower : string)
         (dataframe : DataFrame) : option string :=
  match patterns with
  | [] => None
  | pattern :: rest =>
      match Re.search pattern query_lower with
      | Some m =>
          match Re.group 1 m with
          | Some col =>
              if has_column col dataframe then Some col
              else first_known_column rest query_lower dataframe
          | None => first_known_column rest query_lower dataframe
          end
      | None => first_known_column rest query_lower dataframe
      end
  end.

Definition number_condition (op : string) (col num : option string) : result Condition :=
  match col, num with
  | Some c, Some n => v <- PyNum.parse_float n ;; Ok (Cond.mk c op (Scalar (SNum v)))
  | _, _ => Err PyTypeError
  end.

(** The four phrasings with their extractors. *)
Definition where_patterns : list (Re.regex * (Re.captures -> result Condition)) :=
  [ (* r'where (\w+)\s*(>|>=|<|<=|==|!=)\s*([\d.]+)' *)
    (Re.Lit "where " ;;; Re.Group 1 (Re.Plus Re.w) ;;; Re.Star Re.s_ ;;;
     Re.Group 2 (Re.Alt (Re.Lit ">") (Re.Alt (Re.Lit ">=") (Re.Alt (Re.Lit "<")
                  (Re.Alt (Re.Lit "<=") (Re.Alt (Re.Lit "==") (Re.Lit "!=")))))) ;;;
     Re.Star Re.s_ ;;; Re.Group 3 (Re.Plus Re.d_dot),
     fun m => match Re.group 2 m with
              | Some op => number_condition op (Re.group 1 m) (Re.group 3 m)
              | None => Err PyTypeError
              end);
    (* r'where (\w+)\s+is\s+([\w\s]+)' *)
    (Re.Lit "where " ;;; Re.Group 1 (Re.Plus Re.w) ;;; Re.Plus Re.s_ ;;; Re.Lit "is" ;;;
     Re.Plus Re.s_ ;;; Re.Group 2 (Re.Plus Re.w_s),
     fun m => match Re.group 1 m, Re.group 2 m with
              | Some c, Some v => Ok (Cond.mk c "==" (Scalar (SStr (PyStr.strip v))))
              | _, _ => Err PyTypeError
              end);
    (* r'where (\w+)\s+greater\s+than\s+([\d.]+)' *)
    (Re.Lit "where " ;;; Re.Group 1 (Re.Plus Re.w) ;;; Re.Plus Re.s_ ;;; Re.Lit "greater" ;;;
     Re.Plus Re.s_ ;;; Re.Lit "than" ;;; Re.Plus Re.s_ ;;; Re.Group 2 (Re.Plus Re.d_dot),
     fun m => number_condition ">" (Re.group 1 m) (Re.group 2 m));
    (* r'where (\w+)\s+less\s+than\s+([\d.]+)' *)
    (Re.Lit "where " ;;; Re.Group 1 (Re.Plus Re.w) ;;; Re.Plus Re.s_ ;;; Re.Lit "less" ;;;
     Re.Plus Re.s_ ;;; Re.Lit "than" ;;; Re.Plus Re.s_ ;;; Re.Group 2 (Re.Plus Re.d_dot),
     fun m => number_condition "<" (Re.group 1 m) (Re.group 2 m)) ].

(** [for pattern, extractor in where_patterns: ... where_conditions.append(condition)] *)
Fixpoint collect_where (patterns : list (Re.regex * (Re.captures -> result Condition)))
         (query_lower : string) (dataframe : DataFrame) : result (list Condition) :=
  match patterns with
  | [] => Ok []
  | (pattern, extractor) :: rest =>
      match Re.search pattern query_lower with
      | Some m =>
          condition <- extractor m ;;
          others <- collect_where rest query_lower dataframe ;;
          Ok (if has_column (Cond.column condition) dataframe
              then condition :: others else others)
      | None => collect_where rest query_lower dataframe
      end
  end.

Definition parse_limit (query_lower : string) : result (option Z) :=
  match Re.search data_tools.limit_re query_lower with
  | Some m =>
      match Re.group_or m [1; 2; 3]%nat with
      | Some digits => n <- PyNum.parse_int digits ;; Ok (Some n)
      | None => Err PyTypeError
      end
  | None => Ok None
  end.

Definition parse_natural_language_query (query : string) (dataframe : DataFrame)
  : result Operation :=
  let query_lower := PyStr.lower query in
  let order := first_known_column order_patterns query_lower dataframe in
  let direction :=
    match order with
    | Some _ =>
        if PyStr.contains "desc" query_lower || PyStr.contains "descending" query_lower
        then "desc" else "asc"
    | None => "asc"
    end in
  let group := first_known_column group_patterns query_lower dataframe in
  conditions <- collect_where where_patterns query_lower dataframe ;;
  lim <- parse_limit query_lower ;;
  Ok (mkOperation None conditions group order direction lim None).

(** *** [execute_sql_like_query] *)

Section WithContains.
Variable str_contains : pyval -> result (value -> bool).

Definition scalar_eqb (x : value) (y : scalar) : bool :=
  match x, y with
  | VNum a, SNum b => Qeq_bool a b
  | VStr a, SStr b => String.eqb a b
  | _, _ => false
  end.

(** [series.isin(value)]: only a list is accepted *)
Definition series_isin (sr : Series) (v : pyval) : result (list bool) :=
  match v with
  | PyList ys => Ok (map (fun x => existsb (scalar_eqb x) ys) (s_values sr))
  | Scalar _ => Err PyTypeError
  end.

(** One turn of the WHERE loop: [mask = mask & (...)] *)
Definition where_step (res : DataFrame) (mask : list bool) (condition : Condition)
  : result (list bool) :=
  let col := Cond.column condition in
  let op := Cond.operator condition in
  let v := Cond.value condition in
  if negb (has_column col res) then Err (ColumnNotFound col)
  else
    sr <- get_column res col ;;
    if String.eqb op ">" then m <- series_compare Gt sr v ;; Ok (mask_and mask m)
    else if String.eqb op ">=" then m <- series_compare Ge sr v ;; Ok (mask_and mask m)
    else if String.eqb op "<" then m <- series_compare Lt sr v ;; Ok (mask_and mask m)
    else if String.eqb op "<=" then m <- series_compare Le sr v ;; Ok (mask_and mask m)
    else if String.eqb op "==" then m <- series_compare Eq sr v ;; Ok (mask_and mask m)
    else if String.eqb op "!=" then m <- series_compare Ne sr v ;; Ok (mask_and mask m)
    else if String.eqb op "in" then m <- series_isin sr v ;; Ok (mask_and mask m)
    else if String.eqb op "contains" then
      m <- data_tools.series_contains str_contains sr v ;; Ok (mask_and mask m)
    else if String.eqb op "between" then
      match v with
      | PyList [lo; hi] =>
          m1 <- series_compare Ge sr (Scalar lo) ;;
          m2 <- series_compare Le sr (Scalar hi) ;;
          Ok (mask_and (mask_and mask m1) m2)
      | _ => Ok mask
      end
    else Ok mask.

(** [mask] starts as [pd.Series([True] * len(result))] and is combined with
    each comparison by row label.  The frame is taken with the labels
    0..n-1 it has when it is read, for which the combination by label is
    the combination by position written here; a frame with other row labels
    loses the rows whose label is not below n. *)
Fixpoint where_loop (res : DataFrame) (mask : list bool) (conditions : list Condition)
  : result (list bool) :=
  match conditions with
  | [] => Ok mask
  | c :: cs => mask' <- where_step res mask c ;; where_loop res mask' cs
  end.

(** [result[select_columns]] *)
Definition project (cols : list string) (df : DataFrame) : result DataFrame :=
  js <- mapM (fun c => match index_of c (columns df) with
                       | Some j => Ok (c, j)
                       | None => Err (ColumnNotFound c)
                       end) cols ;;
  Ok (mkDataFrame
        (map (fun '(c, j) => (c, nth j (map snd (schema df)) Object)) js)
        (map (fun r => map (fun '(_, j) => cell j r) js) (rows df))).

Definition execute_sql_like_query (dataframe : DataFrame)
           (select_columns : option (list string))
           (where_conditions : list Condition)
           (group_by : option string)
           (order_by : option string)
           (order_direction : string)
           (limit : option Z) : result DataFrame :=
  let res := dataframe in
  (* WHERE clause *)
  res <- match where_conditions with
         | [] => Ok res
         | _ =>
             let mask := map (fun _ => true) (rows res) in
             mask <- where_loop res mask where_conditions ;;
             Ok (select mask res)
         end ;;
  (* GROUP BY *)
  _ <- match group_by with
       | Some g =>
           if PyStr.truthy g && negb (has_column g res)
           then Err (ColumnNotFound g) else Ok tt
       | None => Ok tt
       end ;;
  (* ORDER BY *)
  res <- match order_by with
         | Some o =>
             if PyStr.truthy o then
               if negb (has_column o res) then Err (ColumnNotFound o)
               else
                 let ascending := String.eqb (PyStr.lower order_direction) "asc" in
                 sort_values o ascending res
             else Ok res
         | None => Ok res
         end ;;
  (* SELECT columns *)
  res <- match select_columns with
         | Some (c :: cs) =>
             if forallb (fun c' => has_column c' res) (c :: cs)
             then project (c :: cs) res
             else Err PyValueError       (* "Columns not found" *)
         | _ => Ok res
         end ;;
  (* LIMIT *)
  match limit with
  | Some n => if Z.eqb n 0 then Ok res else Ok (head n res)
  | None => Ok res
  end.

(** *** [complex_query] *)

Definition complex_query (dataframe : DataFrame) (query : string) : result DataFrame :=
  operations <- parse_natural_language_query query dataframe ;;
  res <- execute_sql_like_query dataframe
           (select_columns operations)
           (where_conditions operations)
           (group_by operations)
           (order_by operations)
           (order_direction operations)
           (limit operations) ;;
  match group_by operations with
  | Some g =>
      if PyStr.truthy g then groupby_size g "count" res else Ok res
  | None => Ok res
  end.

(** *** [multi_condition_filter]: the same text as in [data_tools] *)
Definition multi_condition_filter : DataFrame -> list Condition -> string -> result DataFrame :=
  data_tools.multi_condition_filter str_contains.

End WithContains.

End advanced_data_tools.

(* ================================================================== *)
(** ** [src/data-insights.py] *)

Module data_insights.
Import Pandas.

(** *** [parse_text_to_dataframe]: the pipe-separated strategy *)

Definition bar : string := String PyStr.pipe EmptyString.

(** The loop that gathers [table_lines]; the argument [in_table] is the
    flag of the same name. *)
Fixpoint gather_table_lines (in_table : bool) (lines : list string) : list string :=
  match lines with
  | [] => []
  | line :: rest =>
      if PyStr.contains bar line && PyStr.startswith bar (PyStr.strip line) then
        line :: gather_table_lines true rest
      else if in_table
              && (negb (PyStr.truthy (PyStr.strip line)) || PyStr.contains "---" line) then
        if PyStr.contains "---" line then
          gather_table_lines in_table rest      (* "Skip separator lines" *)
        else if negb (PyStr.truthy (PyStr.strip line)) then
          []                                    (* "End of table" *)
        else gather_table_lines in_table rest
      else if in_table then []
      else gather_table_lines in_table rest
  end.

(** [[p.strip() for p in line.strip().strip('|').split('|')]] *)
Definition parts_of (line : string) : list string :=
  map PyStr.strip (PyStr.split PyStr.pipe (PyStr.strip_char PyStr.pipe (PyStr.strip line))).

(** [any(p for p in parts)] *)
Definition any_text (parts : list string) : bool := existsb PyStr.truthy parts.

Definition clean_lines (table_lines : list string) : list (list string) :=
  filter (fun parts => match parts with [] => false | _ => any_text parts end)
         (map parts_of table_lines).

(** [row + [''] * (max_cols - len(row))] *)
Definition pad (max_cols : nat) (row : list string) : list string :=
  row ++ repeat EmptyString (max_cols - List.length row).

(** [pd.DataFrame(padded_rows, columns=headers)]: text columns; a row
    longer than the header makes the constructor raise. *)
Definition DataFrame_of_rows (padded_rows : list (list string)) (headers : list string)
  : result DataFrame :=
  if forallb (fun row => Nat.eqb (List.length row) (List.length headers)) padded_rows
  then Ok (mkDataFrame (map (fun h => (h, Object)) headers)
             (map (map VStr) padded_rows))
  else Err PyValueError.

Fixpoint keep_by {A : Type} (mask : list bool) (l : list A) : list A :=
  match mask, l with
  | b :: mask', x :: l' => if b then x :: keep_by mask' l' else keep_by mask' l'
  | _, _ => []
  end.

(** [df.loc[:, (df != '').any(axis=0)]] *)
Definition drop_empty_columns (df : DataFrame) : DataFrame :=
  let not_blank v := negb (value_eqb v (VStr EmptyString)) in
  let keep := map (fun j => existsb (fun r => not_blank (cell j r)) (rows df))
                  (seq 0 (List.length (schema df))) in
  mkDataFrame (keep_by keep (schema df)) (map (keep_by keep) (rows df)).

(** The table the first strategy returns, [None] when the function goes
    on to its later strategies. *)
Definition parse_pipe_table (text : string) : option DataFrame :=
  let lines := PyStr.split PyStr.newline text in
  let table_lines := gather_table_lines false lines in
  match table_lines with
  | [] => None
  | _ =>
      let cleaned_lines := clean_lines table_lines in
      match cleaned_lines with
      | headers :: (_ :: _) as data_rows =>
          match headers with
          | [] => None
          | _ =>
              (* "Filter out empty rows" *)
              let data_rows := filter any_text data_rows in
              match data_rows with
              | [] => None
              | _ =>
                  (* "Pad rows to match header length" *)
                  let max_cols := List.length headers in
                  let padded_rows := map (pad max_cols) data_rows in
                  match DataFrame_of_rows padded_rows (firstn max_cols headers) with
                  | Ok df =>
                      (* "Remove completely empty columns" *)
                      let df := drop_empty_columns df in
                      if empty df then None else Some df
                  | Err _ => None            (* except Exception: pass *)
                  end
              end
          end
      | _ => None
      end
  end.

(** *** The [multi_filter] tool of the analysis agent

    The tool answers with a text; the model keeps which of its three
    answers it gives, and the table the first one prints. *)

Inductive tool_outcome : Type :=
| Filtered (filtered : DataFrame)   (* "Filtered {len(filtered)} rows:..." *)
| NoValidConditions                 (* "No valid conditions provided" *)
| ToolError.                        (* "Error: {str(e)}" *)

Section Tools.

Variable str_contains : pyval -> result (value -> bool).

(** [float(s)].  Texts that Python reads as an infinity or as NaN have no
    counterpart among the values of a condition. *)
Variable py_float : string -> result Q.

(** One turn of the loop over [conditions.split(',')]: the condition
    appended, if any.  [parts[1]] exists in both places where it is read,
    since the text holds the separator. *)
Definition parse_fragment (cond_str : string) : result (option Condition) :=
  match PyStr.split ">"%char (PyStr.strip cond_str) with
  | [c; v] =>
      x <- py_float (PyStr.strip v) ;;
      Ok (Some (Cond.mk (PyStr.strip c) ">" (Scalar (SNum x))))
  | _ =>
      if PyStr.contains "<" cond_str then
        match PyStr.split "<"%char cond_str with
        | c :: v :: _ =>
            x <- py_float (PyStr.strip v) ;;
            Ok (Some (Cond.mk (PyStr.strip c) "<" (Scalar (SNum x))))
        | _ => Err PyValueError
        end
      else if PyStr.contains "==" cond_str then
        match PyStr.split_str "==" cond_str with
        | c :: v :: _ =>
            let val := PyStr.strip v in
            let val := match py_float val with
                       | Ok x => SNum x
                       | Err _ => SStr val           (* except: pass *)
                       end in
            Ok (Some (Cond.mk (PyStr.strip c) "==" (Scalar val)))
        | _ => Err PyValueError
        end
      else Ok None
  end.

Definition appended (c : option Condition) : list Condition :=
  match c with Some c => [c] | None => [] end.

Definition cond_list (conditions : string) : result (list Condition) :=
  fragments <- mapM parse_fragment (PyStr.split ","%char conditions) ;;
  Ok (flat_map appended fragments).

Definition multi_filter (dataframe : DataFrame) (conditions logic : string)
  : tool_outcome :=
  match cond_list conditions with
  | Ok [] => NoValidConditions
  | Ok cond_list =>
      match data_tools.multi_condition_filter str_contains dataframe cond_list logic with
      | Ok filtered => Filtered filtered
      | Err _ => ToolError
      end
  | Err _ => ToolError
  end.

End Tools.

End data_insights.

(* ================================================================== *)
(** ** [src/tools/statistical_tools.py] and [src/tools/formatting_tools.py] *)

(** A float that may be NaN: every comparison with NaN is false. *)
Module PyFloat.

Definition t : Type := option Q.

Definition ge (x : t) (bound : Q) : bool :=
  match x with Some q => Qle_bool bound q | None => false end.

Definition lt (x : t) (bound : Q) : bool :=
  match x with Some q => negb (Qle_bool bound q) | None => false end.

Definition gt (x : t) (bound : Q) : bool :=
  match x with Some q => negb (Qle_bool q bound) | None => false end.

Definition abs (x : t) : t := option_map Qabs x.

End PyFloat.

Module statistical_tools.

Definition _correlation_strength (corr_abs : PyFloat.t) : string :=
  if PyFloat.ge corr_abs (9 # 10) then "Very Strong"
  else if PyFloat.ge corr_abs (7 # 10) then "Strong"
  else if PyFloat.ge corr_abs (5 # 10) then "Moderate"
  else if PyFloat.ge corr_abs (3 # 10) then "Weak"
  else "Very Weak".

(** The last step of [distribution_analysis]: the name of the distribution
    type, from the skewness computed before. *)
Definition distribution_type (skewness : PyFloat.t) : string :=
  if PyFloat.lt (PyFloat.abs skewness) (5 # 10) then "Approximately Normal"
  else if PyFloat.gt skewness (5 # 10) then "Right-Skewed (Positive)"
  else "Left-Skewed (Negative)".

End statistical_tools.

Module formatting_tools.

Definition _correlation_strength_label (corr_abs : PyFloat.t) : string :=
  if PyFloat.ge corr_abs (9 # 10) then "Very Strong"
  else if PyFloat.ge corr_abs (7 # 10) then "Strong"
  else if PyFloat.ge corr_abs (5 # 10) then "Moderate"
  else if PyFloat.ge corr_abs (3 # 10) then "Weak"
  else "Very Weak".

End formatting_tools.


(* ================================================================== *)
(** ** Vocabulary of the statements *)

Import Pandas.

(** The cells of a column, none when the column is missing. *)
Definition column_cells (col : string) (df : DataFrame) : list value :=
  match get_column df col with
  | Ok sr => s_values sr
  | Err _ => []
  end.

(** The column a GROUP BY clause of the command names, as
    [execute_complex_query] extracts it. *)
Definition group_clause (query : string) : option string :=
  match Re.search data_tools.group_re (PyStr.lower query) with
  | Some m => Re.group 1 m
  | None => None
  end.

(** The table that reaches the GROUP BY step of [execute_complex_query]. *)
Definition stages_before_group (df : DataFrame) (query : string) : result DataFrame :=
  let query_lower := PyStr.lower query in
  res <- data_tools.apply_order_by query_lower df ;;
  res <- data_tools.apply_limit query_lower res ;;
  data_tools.apply_where query_lower res.



(** An instance of [str_contains] for a text pattern without
    metacharacters: containment in text cells, letter case ignored. *)
Definition literal_contains (v : pyval) : result (value -> bool) :=
  match v with
  | Scalar (SStr p) =>
      Ok (fun x => match x with
                   | VStr t => PyStr.contains (PyStr.lower p) (PyStr.lower t)
                   | _ => false
                   end)
  | _ => Err PyTypeError
  end.


(** *** Worked inputs *)

Definition line_break : string := String PyStr.newline EmptyString.

(** Rows [{Amount:10},{Amount:50},{Amount:30}] *)
Definition amounts : DataFrame :=
  mkDataFrame [("Amount", Int64)] [[VNum 10]; [VNum 50]; [VNum 30]].

(** The same rows under the lower-case name [amount] *)
Definition amounts_lower : DataFrame :=
  mkDataFrame [("amount", Int64)] [[VNum 10]; [VNum 50]; [VNum 30]].

(** Rows [{amount:10,status:'A'},{amount:50,status:'B'},{amount:30,status:'A'}] *)
Definition orders : DataFrame :=
  mkDataFrame [("amount", Int64); ("status", Object)]
    [[VNum 10; VStr "A"]; [VNum 50; VStr "B"]; [VNum 30; VStr "A"]].

(** ["| A | B |\n|---|---|\n| 1 | 2 |\n| 3 | 4 |"] *)
Definition pipe_text : string :=
  "| A | B |" ++ line_break ++ "|---|---|" ++ line_break ++
  "| 1 | 2 |" ++ line_break ++ "| 3 | 4 |".

(** The values [1,2,3,4,100] as an integer and as a float column *)
Definition readings (dt : dtype) : DataFrame :=
  mkDataFrame [("v", dt)] [[VNum 1]; [VNum 2]; [VNum 3]; [VNum 4]; [VNum 100]].

(** The rows of [orders] sorted by [amount], largest first *)
Definition orders_by_amount_desc : DataFrame :=
  mkDataFrame [("amount", Int64); ("status", Object)]
    [[VNum 50; VStr "B"]; [VNum 30; VStr "A"]; [VNum 10; VStr "A"]].

(** What one phrasing of [where_patterns] contributes to the conditions:
    the condition its leftmost fragment yields, when the column is known. *)
Definition phrasing_pick (phrasing : Re.regex * (Re.captures -> result Condition))
           (query_lower : string) (df : DataFrame) : result (option Condition) :=
  match Re.search (fst phrasing) query_lower with
  | Some m =>
      condition <- snd phrasing m ;;
      Ok (if has_column (Cond.column condition) df then Some condition else None)
  | None => Ok None
  end.

Definition picked (picks : list (option Condition)) : list Condition :=
  flat_map (fun o => match o with Some c => [c] | None => [] end) picks.

(** What the parser returns for ["where amount > 1 where status is open"] *)
Definition two_phrasings : advanced_data_tools.Operation :=
  advanced_data_tools.mkOperation None
    [ Cond.mk "amount" ">" (Scalar (SNum 1));
      Cond.mk "status" "==" (Scalar (SStr "open")) ]
    None None "asc" None None.

(** A cell and a bound that [<=] and [>=] can compare: a null with
    anything, a number with a number, a text with a text. *)
Definition comparable (y : scalar) (v : value) : Prop :=
  match v, y with
  | VNull, _ => True
  | VNum _, SNum _ => True
  | VStr _, SStr _ => True
  | _, _ => False
  end.


(** The outcome of one comparison, false where it would raise. *)
Definition cmp_total (op : cmp_op) (v : value) (y : scalar) : bool :=
  match compare_value op v y with
  | Ok b => b
  | Err _ => false
  end.

(** A table with a column and no row *)
Definition no_rows : DataFrame := mkDataFrame [("amount", Int64)] [].

(** [amount > 20] and [status == 'A'] *)
Definition large_or_settled : list Condition :=
  [ Cond.mk "amount" ">" (Scalar (SNum 20));
    Cond.mk "status" "==" (Scalar (SStr "A")) ].

(** The dtype of a column, [object] when the column is missing. *)
Definition column_dtype (col : string) (df : DataFrame) : dtype :=
  match get_column df col with
  | Ok sr => s_dtype sr
  | Err _ => Object
  end.



(** A square root for the closed examples: five Newton steps from 1. *)
Definition newton_sqrt (q : Q) : Q :=
  let step x := ((x + q / x) / 2)%Q in
  step (step (step (step (step 1%Q)))).

(** Orders with two numeric columns *)
Definition stock : DataFrame :=
  mkDataFrame [("status", Object); ("amount", Int64); ("qty", Int64)]
    [[VStr "A"; VNum 10; VNum 1]; [VStr "B"; VNum 50; VNum 2]; [VStr "A"; VNum 30; VNum 3]].

(** A text without an upper-case letter, and one with at least one. *)
Fixpoint no_upper (s : string) : bool :=
  match s with
  | EmptyString => true
  | String c s' => negb (PyStr.is_upper c) && no_upper s'
  end.

Definition has_upper (s : string) : bool := negb (no_upper s).

(** The digits a LIMIT clause of the command carries, as
    [execute_complex_query] extracts them. *)
Definition limit_clause (query : string) : option string :=
  match Re.search data_tools.limit_re (PyStr.lower query) with
  | Some m => Re.group_or m [1; 2; 3]%nat
  | None => None
  end.

(** Captured groups without an upper-case letter *)
Definition lower_captures (caps : Re.captures) : Prop :=
  Forall (fun nt => no_upper (snd nt) = true) caps.

(** The names [filter_dataframe] accepts for a comparison *)
Definition condition_aliases (op : cmp_op) : list string :=
  match op with
  | Gt => ["greater"; ">"; "gt"; "above"]
  | Lt => ["less"; "<"; "lt"; "below"]
  | Eq => ["equal"; "=="; "eq"; "equals"]
  | _ => []
  end.

(** Every name [filter_dataframe] accepts *)
Definition known_conditions : list string :=
  condition_aliases Gt ++ condition_aliases Lt ++ condition_aliases Eq
  ++ ["contains"; "in"; "includes"] ++ ["between"; "range"].

(** What a comparison of a cell with a scalar means: the order of the
    rationals, the dictionary order of texts; a null satisfies only [!=],
    and so does a cell of the other kind. *)
Definition satisfies (op : cmp_op) (v : value) (y : scalar) : Prop :=
  match v, y with
  | VNum x, SNum a =>
      match op with
      | Gt => (a < x)%Q
      | Ge => (a <= x)%Q
      | Lt => (x < a)%Q
      | Le => (x <= a)%Q
      | Eq => (x == a)%Q
      | Ne => ~ (x == a)%Q
      end
  | VStr t, SStr a =>
      match op with
      | Gt => String.ltb a t = true
      | Ge => String.leb a t = true
      | Lt => String.ltb t a = true
      | Le => String.leb t a = true
      | Eq => t = a
      | Ne => t <> a
      end
  | _, _ =>
      match op with
      | Ne => True
      | _ => False
      end
  end.


(** The cell a record holds under a key *)
Fixpoint field (name : string) (r : record) : option summary_cell :=
  match r with
  | [] => None
  | (k, c) :: r' => if String.eqb k name then Some c else field name r'
  end.

(** The position of the [k]-th true entry of a mask *)
Fixpoint kth_true (mask : list bool) (k : nat) : nat :=
  match mask with
  | [] => O
  | true :: mask' =>
      match k with
      | O => O
      | S k' => S (kth_true mask' k')
      end
  | false :: mask' => S (kth_true mask' k)
  end.

Definition is_text (v : value) : Prop :=
  match v with VStr _ => True | _ => False end.

(** The text holds the character *)
Definition has_char (c : ascii) (s : string) : bool :=
  PyStr.contains (String c EmptyString) s.

(** A fragment [col>=v] or [col<=v] of the text given to [multi_filter] *)
Definition or_equal_fragment (frag : string) : Prop :=
  (exists col v, PyStr.strip frag = (col ++ ">=" ++ v)%string
                 /\ has_char ">" col = false /\ has_char ">" v = false)
  \/ (exists col v, frag = (col ++ "<=" ++ v)%string
                    /\ has_char ">" frag = false /\ has_char "<" col = false).

(** [float] on the texts of digits and dots, for the closed examples
    (Python's [float] reads more: signs, exponents, underscores, [inf],
    [nan]) *)
Definition plain_float (s : string) : result Q := PyNum.parse_float s.

(** The place of a correlation label, from the weakest *)
Definition strength_rank (label : string) : nat :=
  if String.eqb label "Very Strong" then 4
  else if String.eqb label "Strong" then 3
  else if String.eqb label "Moderate" then 2
  else if String.eqb label "Weak" then 1
  else 0.

(** What a condition built by [multi_filter] looks like *)
Definition simple_condition (c : Condition) : Prop :=
  ((Cond.operator c = ">" \/ Cond.operator c = "<")
   /\ exists x, Cond.value c = Scalar (SNum x))
  \/ (Cond.operator c = "==" /\ exists y, Cond.value c = Scalar y).

(** The fragment names none of the three operators [multi_filter] reads *)
Definition names_no_operator (frag : string) : Prop :=
  has_char ">" frag = false /\ has_char "<" frag = false
  /\ PyStr.contains "==" frag = false.

(** The sums of the two numeric columns of [stock], by status *)
Definition stock_sums : DataFrame :=
  mkDataFrame [("status", Object); ("amount", Int64); ("qty", Int64)]
    [[VStr "A"; VNum 40; VNum 4]; [VStr "B"; VNum 50; VNum 2]].

(** An [agg] that resolves no further name, for the closed examples *)
Definition no_further_aggregate (df : DataFrame) (group_by : string)
           (cols : list string) (name : string) : result DataFrame :=
  Err (UnsupportedFunction name).


(** A number of magnitude at most 2^53: an int64 and the float64 it is
    converted to denote the same number. *)
Definition held_exactly (q : Q) : Prop := (Qabs q <= 9007199254740992)%Q.

Definition cell_held_exactly (v : value) : Prop :=
  match v with VNum q => held_exactly q | _ => True end.

Definition scalar_held_exactly (y : scalar) : Prop :=
  match y with SNum q => held_exactly q | SStr _ => True end.

(** The row at position [i] is marked by the mask *)
Definition marked (mask : list bool) (i : nat) : bool := nth i mask false.

(** The table of the rows of [df] at the positions that [keep] holds of, in
    their order *)
Definition rows_where (keep : nat -> bool) (df : DataFrame) : DataFrame :=
  mkDataFrame (schema df)
    (map (fun i => nth i (rows df) []) (filter keep (seq 0 (len df)))).

(** The operators [multi_condition_filter] evaluates *)
Definition chain_operators : list string :=
  [">"; ">="; "<"; "<="; "=="; "!="; "contains"].

(* ================================================================== *)
(** ** Query executor *)

(** C1 (the code departs from the claim).  On the rows
    [{Amount:10},{Amount:50},{Amount:30}] the command
    ["order by Amount desc limit 2"] does not return 50 then 30: the command
    is lower-cased before the column name is taken out of it, ["amount"] is
    not a column of the table, the ORDER BY step is skipped and LIMIT keeps
    the first two rows as they stand, 10 then 50.  Under the lower-case
    column name the same command returns 50 then 30. *)
Theorem C1_order_by_skipped_for_capitalised_column :
  data_tools.execute_complex_query amounts "order by Amount desc limit 2"
    = Ok (mkDataFrame [("Amount", Int64)] [[VNum 10]; [VNum 50]])
  /\ data_tools.execute_complex_query amounts "order by Amount desc limit 2"
    <> Ok (mkDataFrame [("Amount", Int64)] [[VNum 50]; [VNum 30]])
  /\ data_tools.execute_complex_query amounts_lower "order by Amount desc limit 2"
    = Ok (mkDataFrame [("amount", Int64)] [[VNum 50]; [VNum 30]]).
Proof.
  split; [reflexivity | split; [ | reflexivity]].
  vm_compute. discriminate.
Qed.

(** C3 (the code departs from the claim).  A separator line that starts
    with a bar is taken by the first branch of the gathering loop, so the
    branch that skips lines containing [---] never sees it: the text
    ["| A | B |\n|---|---|\n| 1 | 2 |\n| 3 | 4 |"] yields three data rows,
    the first of them the separator [(---, ---)]. *)
Theorem C3_separator_line_becomes_a_row :
  data_insights.gather_table_lines false (PyStr.split PyStr.newline pipe_text)
    = ["| A | B |"; "|---|---|"; "| 1 | 2 |"; "| 3 | 4 |"]
  /\ data_insights.parse_pipe_table pipe_text
    = Some (mkDataFrame [("A", Object); ("B", Object)]
              [[VStr "---"; VStr "---"]; [VStr "1"; VStr "2"]; [VStr "3"; VStr "4"]]).
Proof.
  split; reflexivity.
Qed.

(** C6 (the code departs from the claim).  The numeric gate is the test
    [dtype not in [np.number]], an equality with the abstract class and not
    a membership in it: an integer column is refused whatever NumPy makes
    of the comparison, so on the integer values [1,2,3,4,100] the [iqr]
    method raises the must-be-numeric error instead of flagging 100.  A
    float column passes only where NumPy still converts [np.number] to
    [float64]; there 100 is flagged. *)
Theorem C6_integer_column_refused :
  (forall sqrt, data_tools.detect_outliers None sqrt (readings Int64) "v" "iqr"
                = Err (TypeMismatch "v"))
  /\ (forall sqrt, data_tools.detect_outliers (Some Float64) sqrt (readings Int64) "v" "iqr"
                   = Err (TypeMismatch "v"))
  /\ (forall sqrt, data_tools.detect_outliers None sqrt (readings Float64) "v" "iqr"
                   = Err (TypeMismatch "v"))
  /\ (forall sqrt, data_tools.detect_outliers (Some Float64) sqrt (readings Float64) "v" "iqr"
                   = Ok (mkDataFrame [("v", Float64)] [[VNum 100]])).
Proof.
  repeat split; intros; reflexivity.
Qed.

(** *** The monad *)

Lemma bind_assoc {A B C : Type} (m : result A) (f : A -> result B) (g : B -> result C) :
  bind (bind m f) g = bind m (fun a => bind (f a) g).
Proof. destruct m; reflexivity. Qed.

Lemma bind_ok_inv {A B : Type} (m : result A) (f : A -> result B) (b : B) :
  bind m f = Ok b -> exists a, m = Ok a /\ f a = Ok b.
Proof. destruct m as [a | e]; simpl; [eauto | discriminate]. Qed.

Lemma mapM_length {A B : Type} (f : A -> result B) (l : list A) (out : list B) :
  mapM f l = Ok out -> List.length out = List.length l.
Proof.
  revert out. induction l as [| x l IH]; simpl; intros out H.
  - injection H as <-. reflexivity.
  - apply bind_ok_inv in H as (y & _ & H).
    apply bind_ok_inv in H as (ys & Hys & H).
    injection H as <-. simpl. f_equal. now apply IH.
Qed.

(** *** Counting under a sort *)

Section Counting.
Context {A : Type} (p : A -> bool).

Definition count (l : list A) : nat := List.length (filter p l).

Lemma count_app (l1 l2 : list A) : count (l1 ++ l2) = (count l1 + count l2)%nat.
Proof. unfold count. now rewrite filter_app, length_app. Qed.

Lemma count_rev (l : list A) : count (rev l) = count l.
Proof.
  induction l as [| x l IH]; [reflexivity |].
  simpl rev. rewrite count_app, IH. unfold count. simpl.
  destruct (p x); simpl; lia.
Qed.

Lemma count_insert (leb : A -> A -> bool) (x : A) (l : list A) :
  count (insert leb x l) = count (x :: l).
Proof.
  induction l as [| y l IH]; [reflexivity |].
  simpl insert. destruct (leb x y); [reflexivity |].
  unfold count in *. simpl in *.
  destruct (p y), (p x); simpl in *; lia.
Qed.

Lemma count_stable_sort (leb : A -> A -> bool) (l : list A) :
  count (stable_sort leb l) = count l.
Proof.
  induction l as [| x l IH]; [reflexivity |].
  simpl stable_sort. rewrite count_insert. unfold count in *. simpl.
  destruct (p x); simpl; lia.
Qed.

Lemma count_split (a : A -> bool) (l : list A) :
  (count (filter a l) + count (filter (fun x => negb (a x)) l))%nat = count l.
Proof.
  unfold count. induction l as [| x l IH]; [reflexivity |].
  simpl. destruct (a x); simpl; destruct (p x); simpl; lia.
Qed.
End Counting.


(** *** Columns and schemas *)

Lemma has_column_index (col : string) (df : DataFrame) :
  has_column col df = true -> exists j, index_of col (columns df) = Some j.
Proof.
  unfold has_column. generalize (columns df) as cols.
  induction cols as [| c cols IH]; simpl; [discriminate |].
  destruct (String.eqb col c); simpl; [eauto |].
  intros H. destruct (IH H) as [j ->]. eauto.
Qed.

Lemma index_has_column (col : string) (df : DataFrame) (j : nat) :
  index_of col (columns df) = Some j -> has_column col df = true.
Proof.
  unfold has_column. generalize (columns df) as cols. intros cols. revert j.
  induction cols as [| c cols IH]; simpl; [discriminate |].
  intros j. destruct (String.eqb col c); simpl; [reflexivity |].
  destruct (index_of col cols) as [i |]; [| discriminate].
  intros _. now apply (IH i).
Qed.

Lemma has_column_same_schema (col : string) (df1 df2 : DataFrame) :
  schema df1 = schema df2 -> has_column col df1 = has_column col df2.
Proof. unfold has_column, columns. now intros ->. Qed.

Lemma column_cells_index (col : string) (df : DataFrame) (j : nat) :
  index_of col (columns df) = Some j ->
  column_cells col df = map (cell j) (rows df).
Proof. unfold column_cells, get_column. now intros ->. Qed.

Lemma sort_values_schema (col : string) (asc : bool) (df out : DataFrame) :
  sort_values col asc df = Ok out -> schema out = schema df.
Proof.
  unfold sort_values. destruct (index_of col (columns df)); [| discriminate].
  match goal with |- context [if ?c then _ else _] => destruct c end;
    [| discriminate].
  now intros [= <-].
Qed.

Lemma filter_compare_schema (op : cmp_op) (col : string) (v : pyval) (df out : DataFrame) :
  data_tools.filter_compare op col v df = Ok out -> schema out = schema df.
Proof.
  unfold data_tools.filter_compare. intros H.
  apply bind_ok_inv in H as (sr & _ & H).
  apply bind_ok_inv in H as (mask & _ & H).
  now injection H as <-.
Qed.

Lemma apply_order_by_schema (q : string) (df out : DataFrame) :
  data_tools.apply_order_by q df = Ok out -> schema out = schema df.
Proof.
  unfold data_tools.apply_order_by.
  destruct (Re.search _ q) as [m |]; [| now intros [= <-]].
  destruct (Re.group_or m _) as [col |]; [| now intros [= <-]].
  destruct (has_column col df); [| now intros [= <-]].
  apply sort_values_schema.
Qed.

Lemma apply_limit_schema (q : string) (df out : DataFrame) :
  data_tools.apply_limit q df = Ok out -> schema out = schema df.
Proof.
  unfold data_tools.apply_limit.
  destruct (Re.search _ q) as [m |]; [| now intros [= <-]].
  destruct (Re.group_or m _) as [digits |]; [| discriminate].
  intros H. apply bind_ok_inv in H as (n & _ & H). now injection H as <-.
Qed.

Lemma apply_where_schema (q : string) (df out : DataFrame) :
  data_tools.apply_where q df = Ok out -> schema out = schema df.
Proof.
  unfold data_tools.apply_where.
  destruct (PyStr.contains "where" q); [| now intros [= <-]].
  destruct (Re.search _ q) as [m |]; [| now intros [= <-]].
  destruct (Re.group 1 m) as [col |]; [| now intros [= <-]].
  destruct (Re.group 2 m) as [op |]; [| now intros [= <-]].
  destruct (Re.group 3 m) as [num |]; [| now intros [= <-]].
  intros H. apply bind_ok_inv in H as (val & _ & H).
  destruct (has_column col df); [| now injection H as <-].
  destruct (data_tools.symbol_op op); [| now injection H as <-].
  now apply filter_compare_schema in H.
Qed.

Lemma stages_before_group_schema (df : DataFrame) (query : string) (res : DataFrame) :
  stages_before_group df query = Ok res -> schema res = schema df.
Proof.
  unfold stages_before_group. intros H.
  apply bind_ok_inv in H as (r1 & H1 & H).
  apply bind_ok_inv in H as (r2 & H2 & H3).
  apply apply_order_by_schema in H1. apply apply_limit_schema in H2.
  apply apply_where_schema in H3. congruence.
Qed.

Lemma execute_complex_query_stages (df : DataFrame) (query : string) :
  data_tools.execute_complex_query df query
  = bind (stages_before_group df query) (data_tools.apply_group_by (PyStr.lower query)).
Proof.
  unfold data_tools.execute_complex_query, stages_before_group. cbv zeta.
  destruct (data_tools.apply_order_by _ df) as [r1 | e]; simpl; [| reflexivity].
  destruct (data_tools.apply_limit _ r1) as [r2 | e]; simpl; reflexivity.
Qed.

(** *** Equality of cells and distinct keys *)

Lemma value_eqb_refl (v : value) : value_eqb v v = true.
Proof.
  destruct v as [q | s |]; simpl; [| apply String.eqb_refl | reflexivity].
  apply Qeq_bool_iff. reflexivity.
Qed.

Lemma value_eqb_trans (a b c : value) :
  value_eqb a b = true -> value_eqb b c = true -> value_eqb a c = true.
Proof.
  destruct a as [x | s |], b as [y | t |], c as [z | u |]; simpl; try discriminate; auto.
  - rewrite !Qeq_bool_iff. intros H1 H2. now rewrite H1.
  - rewrite !String.eqb_eq. congruence.
Qed.

Lemma value_eqb_null (k v : value) :
  value_eqb k v = true -> is_null k = is_null v.
Proof. destruct k, v; simpl; congruence. Qed.

Lemma unique_In (k : value) (vs : list value) : In k (unique vs) -> In k vs.
Proof.
  revert k. induction vs as [| v vs IH]; simpl; [tauto |].
  intros k [-> | H]; [now left |].
  apply filter_In in H as [H _]. right. now apply IH.
Qed.



Lemma insert_In {A : Type} (leb : A -> A -> bool) (x y : A) (l : list A) :
  In y (insert leb x l) <-> y = x \/ In y l.
Proof.
  induction l as [| z l IH]; simpl; [intuition |].
  destruct (leb x z); simpl; [intuition |].
  rewrite IH. intuition.
Qed.

Lemma stable_sort_In {A : Type} (leb : A -> A -> bool) (y : A) (l : list A) :
  In y (stable_sort leb l) <-> In y l.
Proof.
  induction l as [| x l IH]; simpl; [tauto |].
  rewrite insert_In, IH. intuition.
Qed.




(** *** A sort keeps every count *)

Lemma sort_values_count (col : string) (asc : bool) (df out : DataFrame)
      (p : list value -> bool) :
  sort_values col asc df = Ok out -> count p (rows out) = count p (rows df).
Proof.
  unfold sort_values. destruct (index_of col (columns df)) as [j |]; [| discriminate].
  match goal with |- context [if ?c then _ else _] => destruct c end;
    [| discriminate].
  intros [= <-]. simpl rows.
  rewrite <- (count_split p (fun r => negb (is_null (cell j r))) (rows df)).
  assert (E : filter (fun x => negb (negb (is_null (cell j x)))) (rows df)
              = filter (fun r => is_null (cell j r)) (rows df)).
  { apply filter_ext. intros r. apply negb_involutive. }
  rewrite E.
  destruct asc; rewrite count_app; f_equal.
  - apply count_stable_sort.
  - now rewrite count_rev, count_stable_sort, count_rev.
Qed.

Lemma apply_order_by_count (q : string) (df out : DataFrame) (p : list value -> bool) :
  data_tools.apply_order_by q df = Ok out -> count p (rows out) = count p (rows df).
Proof.
  unfold data_tools.apply_order_by.
  destruct (Re.search _ q) as [m |]; [| now intros [= <-]].
  destruct (Re.group_or m _) as [col |]; [| now intros [= <-]].
  destruct (has_column col df); [| now intros [= <-]].
  apply sort_values_count.
Qed.


(** The second executor, [complex_query], filters before it groups as
    well: of the three orders two have an amount of 20 or more, one in each
    group. *)
Lemma complex_query_counts_filtered_rows :
  advanced_data_tools.complex_query literal_contains orders
    "where amount >= 20 group by status"
  = Ok (mkDataFrame [("status", Object); ("count", Int64)]
          [[VStr "A"; VNum 1]; [VStr "B"; VNum 1]]).
Proof. reflexivity. Qed.

(* ================================================================== *)
(** ** Query parser *)

Lemma collect_where_picks (patterns : list (Re.regex * (Re.captures -> result Condition)))
      (q : string) (df : DataFrame) (cs : list Condition) :
  advanced_data_tools.collect_where patterns q df = Ok cs ->
  exists picks,
    Forall2 (fun phrasing pick => phrasing_pick phrasing q df = Ok pick) patterns picks
    /\ cs = picked picks
    /\ (List.length cs <= List.length patterns)%nat.
Proof.
  revert cs. induction patterns as [| [pattern extractor] rest IH]; simpl; intros cs H.
  - injection H as <-. exists []. repeat split; constructor.
  - destruct (Re.search pattern q) as [m |] eqn:Hm.
    + apply bind_ok_inv in H as (c & Hc & H).
      apply bind_ok_inv in H as (others & Ho & H).
      destruct (IH _ Ho) as (picks & HF & -> & Hlen).
      exists ((if has_column (Cond.column c) df then Some c else None) :: picks).
      injection H as <-. repeat split.
      * constructor; [| assumption].
        unfold phrasing_pick. simpl. now rewrite Hm, Hc.
      * simpl. now destruct (has_column (Cond.column c) df).
      * destruct (has_column (Cond.column c) df); simpl; lia.
    + destruct (IH _ H) as (picks & HF & -> & Hlen).
      exists (None :: picks). repeat split.
      * constructor; [| assumption].
        unfold phrasing_pick. simpl. now rewrite Hm.
      * lia.
Qed.

(** C4 (the claim as written fails).  The loop over the recognised
    phrasings has no [break]: the command
    ["where amount > 1 where status is open"] matches the symbolic
    phrasing and the "is" phrasing, and the parser returns both
    conditions. *)
Lemma C4_two_phrasings_give_two_conditions :
  advanced_data_tools.parse_natural_language_query
    "where amount > 1 where status is open" orders = Ok two_phrasings
  /\ List.length (advanced_data_tools.where_conditions two_phrasings) = 2%nat.
Proof. split; reflexivity. Qed.

(** C4 (amended).  Every operation the parser returns holds at most one
    condition for each of the four recognised phrasings, namely the one the
    leftmost fragment of that phrasing yields when its column is known, in
    the order of the phrasings; hence at most four conditions, and a
    repeated fragment of one phrasing is not accumulated. *)
Theorem C4_one_condition_per_phrasing
        (query : string) (df : DataFrame) (op : advanced_data_tools.Operation) :
  advanced_data_tools.parse_natural_language_query query df = Ok op ->
  (List.length (advanced_data_tools.where_conditions op) <= 4)%nat
  /\ exists picks,
       Forall2 (fun phrasing pick => phrasing_pick phrasing (PyStr.lower query) df = Ok pick)
               advanced_data_tools.where_patterns picks
       /\ advanced_data_tools.where_conditions op = picked picks.
Proof.
  unfold advanced_data_tools.parse_natural_language_query. cbv zeta. intros H.
  apply bind_ok_inv in H as (cs & Hcs & H).
  apply bind_ok_inv in H as (lim & _ & H).
  injection H as <-. simpl advanced_data_tools.where_conditions.
  destruct (collect_where_picks _ _ _ _ Hcs) as (picks & HF & -> & Hlen).
  split; [exact Hlen |].
  exists picks. split; [exact HF | reflexivity].
Qed.

(** C4 at work: the command of the counterexample, whose two conditions
    come from two different phrasings. *)
Lemma C4_repeated_symbolic_fragment_kept_once :
  (List.length (advanced_data_tools.where_conditions two_phrasings) <= 4)%nat
  /\ exists picks,
       Forall2 (fun phrasing pick =>
                  phrasing_pick phrasing
                    (PyStr.lower "where amount > 1 where status is open") orders = Ok pick)
               advanced_data_tools.where_patterns picks
       /\ advanced_data_tools.where_conditions two_phrasings = picked picks.
Proof.
  apply (C4_one_condition_per_phrasing
           "where amount > 1 where status is open" orders two_phrasings).
  reflexivity.
Defined.

(* ================================================================== *)
(** ** Condition evaluator *)

(** *** Masks *)

Lemma compare_zip_length (op : cmp_op) (xs : list value) (ys : list scalar) (m : list bool) :
  List.length ys = List.length xs ->
  compare_zip op xs ys = Ok m -> List.length m = List.length xs.
Proof.
  revert ys m. induction xs as [| x xs IH]; intros [| y ys] m; simpl; try discriminate.
  - intros _ [= <-]. reflexivity.
  - intros Hl H. apply bind_ok_inv in H as (b & _ & H).
    apply bind_ok_inv in H as (bs & Hbs & H). injection H as <-.
    simpl. f_equal. apply (IH ys); [lia | assumption].
Qed.

Lemma series_compare_length (op : cmp_op) (sr : Series) (v : pyval) (m : list bool) :
  series_compare op sr v = Ok m -> List.length m = List.length (s_values sr).
Proof.
  unfold series_compare. destruct v as [y | ys].
  - apply mapM_length.
  - destruct (Nat.eqb (List.length ys) (List.length (s_values sr))) eqn:E;
      [| discriminate].
    apply Nat.eqb_eq in E. now apply compare_zip_length.
Qed.

Lemma get_column_has (df : DataFrame) (col : string) :
  has_column col df = true ->
  exists j, index_of col (columns df) = Some j
            /\ get_column df col
               = Ok (mkSeries (nth j (map snd (schema df)) Object) (map (cell j) (rows df))).
Proof.
  intros H. destruct (has_column_index _ _ H) as [j Hj].
  exists j. split; [assumption |]. unfold get_column. now rewrite Hj.
Qed.

Lemma condition_mask_length (sc : pyval -> result (value -> bool)) (df : DataFrame)
      (c : Condition) (m : list bool) :
  data_tools.condition_mask sc df c = Ok (Some m) -> List.length m = len df.
Proof.
  unfold data_tools.condition_mask. cbv zeta.
  destruct (has_column (Cond.column c) df) eqn:Hc; simpl; [| discriminate].
  destruct (get_column_has _ _ Hc) as (j & _ & ->). simpl bind.
  assert (L : forall op, series_compare op
                {| s_dtype := nth j (map snd (schema df)) Object;
                   s_values := map (cell j) (rows df) |} (Cond.value c) = Ok m ->
              List.length m = len df).
  { intros op H. apply series_compare_length in H. simpl in H.
    unfold len. now rewrite H, length_map. }
  repeat match goal with
         | |- (if ?b then _ else _) = _ -> _ =>
             destruct b;
             [ intros H; apply bind_ok_inv in H as (m' & Hm & H);
               injection H as ->; eauto | ]
         end; try discriminate.
  unfold data_tools.series_contains in Hm.
  apply bind_ok_inv in Hm as (f & _ & Hm). injection Hm as <-.
  unfold len. simpl. now rewrite !length_map.
Qed.

Lemma nth_nil_false (i : nat) : nth i (@nil bool) false = false.
Proof. now destruct i. Qed.

Lemma mask_and_nth (m1 m2 : list bool) (i : nat) :
  nth i (mask_and m1 m2) false = nth i m1 false && nth i m2 false.
Proof.
  unfold mask_and. revert m2 i.
  induction m1 as [| a m1 IH]; intros [| b m2] i; simpl mask_zip;
    rewrite ?nth_nil_false, ?andb_false_r; try reflexivity.
  destruct i; simpl; [reflexivity | apply IH].
Qed.

Lemma mask_or_nth (m1 m2 : list bool) (i : nat) :
  List.length m1 = List.length m2 ->
  nth i (mask_or m1 m2) false = nth i m1 false || nth i m2 false.
Proof.
  unfold mask_or. revert m2 i.
  induction m1 as [| a m1 IH]; intros [| b m2] i; simpl; try discriminate.
  - intros _. now destruct i.
  - intros H. destruct i; [reflexivity | apply IH; lia].
Qed.

Lemma mask_zip_length (f : bool -> bool -> bool) (m1 m2 : list bool) :
  List.length m1 = List.length m2 ->
  List.length (mask_zip f m1 m2) = List.length m1.
Proof.
  revert m2. induction m1 as [| a m1 IH]; intros [| b m2]; simpl; try discriminate.
  - reflexivity.
  - intros H. f_equal. apply IH. lia.
Qed.

Lemma fold_and_nth (others : list (list bool)) (first : list bool) (i : nat) :
  nth i (fold_left mask_and others first) false = true
  <-> nth i first false = true /\ forall m, In m others -> nth i m false = true.
Proof.
  revert first. induction others as [| m others IH]; intros first; simpl.
  - intuition.
  - rewrite IH, mask_and_nth, andb_true_iff. split.
    + intros [[H1 H2] H3]. split; [assumption |].
      intros m' [<- | H]; auto.
    + intros [H1 H2]. repeat split; auto.
Qed.

Lemma fold_or_nth (others : list (list bool)) (first : list bool) (i : nat) :
  (forall m, In m others -> List.length m = List.length first) ->
  nth i (fold_left mask_or others first) false = true
  <-> nth i first false = true \/ exists m, In m others /\ nth i m false = true.
Proof.
  revert first. induction others as [| m others IH]; intros first Hlen; simpl.
  - split; [now left | intros [H | (m & [] & _)]; exact H].
  - assert (Hm : List.length first = List.length m)
      by (symmetry; apply Hlen; now left).
    rewrite IH.
    + rewrite (mask_or_nth _ _ _ Hm), orb_true_iff. split.
      * intros [[H | H] | (m' & H1 & H2)]; [now left | |]; right; eauto.
      * intros [H | (m' & [<- | H1] & H2)]; [now left; left | now left; right |].
        right. eauto.
    + intros m' H. unfold mask_or. rewrite (mask_zip_length _ _ _ Hm).
      apply Hlen. now right.
Qed.

Lemma select_all (df : DataFrame) :
  select (map (fun _ => true) (rows df)) df = df.
Proof.
  destruct df as [sch rs]. unfold select. simpl. f_equal.
  induction rs as [| r rs IH]; simpl; [reflexivity | now rewrite IH].
Qed.

Lemma nth_all_true {A : Type} (l : list A) (i : nat) :
  nth i (map (fun _ => true) l) false = true <-> (i < List.length l)%nat.
Proof.
  revert i. induction l as [| x l IH]; intros [| i]; simpl; try (split; [discriminate | lia]).
  - split; [lia | reflexivity].
  - rewrite IH. lia.
Qed.

(** *** [multi_condition_filter] *)

Section MultiCondition.
Variable sc : pyval -> result (value -> bool).
Variable df : DataFrame.

Lemma multi_condition_filter_masks (cs : list Condition) (logic : string) :
  data_tools.multi_condition_filter sc df cs logic
  = bind (data_tools.collect_masks sc df cs)
      (fun masks =>
         match masks with
         | [] => Ok df
         | first :: others => Ok (select (data_tools.combine_masks logic first others) df)
         end).
Proof. destruct cs; reflexivity. Qed.

Lemma collect_masks_all (cs : list Condition) (masks : list (list bool)) :
  Forall2 (fun c m => data_tools.condition_mask sc df c = Ok (Some m)) cs masks ->
  data_tools.collect_masks sc df cs = Ok masks.
Proof.
  induction 1 as [| c m cs masks Hc _ IH]; simpl; [reflexivity |].
  now rewrite Hc, IH.
Qed.

Lemma collect_masks_skip (c : Condition) (cs1 cs2 : list Condition) :
  data_tools.condition_mask sc df c = Ok None ->
  data_tools.collect_masks sc df (cs1 ++ c :: cs2)
  = data_tools.collect_masks sc df (cs1 ++ cs2).
Proof.
  intros Hc. induction cs1 as [| c1 cs1 IH]; simpl.
  - rewrite Hc. simpl. now destruct (data_tools.collect_masks sc df cs2).
  - now rewrite IH.
Qed.

Lemma multi_condition_filter_skip (c : Condition) (cs1 cs2 : list Condition)
      (logic : string) :
  data_tools.condition_mask sc df c = Ok None ->
  data_tools.multi_condition_filter sc df (cs1 ++ c :: cs2) logic
  = data_tools.multi_condition_filter sc df (cs1 ++ cs2) logic.
Proof.
  intros Hc. now rewrite !multi_condition_filter_masks, (collect_masks_skip _ _ _ Hc).
Qed.

Lemma condition_mask_unknown_column (c : Condition) :
  has_column (Cond.column c) df = false ->
  data_tools.condition_mask sc df c = Ok None.
Proof. unfold data_tools.condition_mask. cbv zeta. now intros ->. Qed.

End MultiCondition.

(** C8 (the claim as written fails).  The strict filter returns an empty
    table as it is before it looks at the column: on a table without rows a
    condition on the absent column [missing] raises nothing. *)
Lemma C8_empty_table_passes_unknown_column :
  has_column "missing" no_rows = false
  /\ data_tools.filter_dataframe literal_contains "missing" "greater" (Scalar (SNum 1)) no_rows
     = Ok no_rows.
Proof. split; reflexivity. Qed.

(** C8 (amended).  For a column absent from the table: the strict filter
    fails with the column-not-found error on every table that is not empty,
    whatever the condition and the value, and returns an empty table as it
    is; the multi-condition filter leaves a condition on that column out,
    wherever it stands in the list, and alone it returns the table. *)
Theorem C8_strict_filter_fails_multi_filter_skips
        (sc : pyval -> result (value -> bool)) (df : DataFrame) (col : string) :
  has_column col df = false ->
  (empty df = false ->
     forall condition v,
       data_tools.filter_dataframe sc col condition v df = Err (ColumnNotFound col))
  /\ (empty df = true ->
        forall condition v, data_tools.filter_dataframe sc col condition v df = Ok df)
  /\ (forall c cs1 cs2 logic,
        Cond.column c = col ->
        data_tools.multi_condition_filter sc df (cs1 ++ c :: cs2) logic
        = data_tools.multi_condition_filter sc df (cs1 ++ cs2) logic)
  /\ (forall c logic,
        Cond.column c = col ->
        data_tools.multi_condition_filter sc df [c] logic = Ok df).
Proof.
  intros Hc. repeat split.
  - intros He condition v. unfold data_tools.filter_dataframe. now rewrite He, Hc.
  - intros He condition v. unfold data_tools.filter_dataframe. now rewrite He.
  - intros c cs1 cs2 logic <-.
    apply multi_condition_filter_skip. now apply condition_mask_unknown_column.
  - intros c logic <-.
    apply (multi_condition_filter_skip sc df c [] [] logic).
    now apply condition_mask_unknown_column.
Qed.

(** C8 at work: the absent column [missing] on the three orders. *)
Lemma C8_missing_column_on_orders :
  (empty orders = false ->
     forall condition v,
       data_tools.filter_dataframe literal_contains "missing" condition v orders
       = Err (ColumnNotFound "missing"))
  /\ (empty orders = true ->
        forall condition v,
          data_tools.filter_dataframe literal_contains "missing" condition v orders = Ok orders)
  /\ (forall c cs1 cs2 logic,
        Cond.column c = "missing" ->
        data_tools.multi_condition_filter literal_contains orders (cs1 ++ c :: cs2) logic
        = data_tools.multi_condition_filter literal_contains orders (cs1 ++ cs2) logic)
  /\ (forall c logic,
        Cond.column c = "missing" ->
        data_tools.multi_condition_filter literal_contains orders [c] logic = Ok orders).
Proof.
  apply (C8_strict_filter_fails_multi_filter_skips literal_contains orders "missing").
  reflexivity.
Defined.

(** *** [between] *)

Lemma mapM_total {A B : Type} (f : A -> result B) (g : A -> B) (l : list A) :
  (forall x, In x l -> f x = Ok (g x)) -> mapM f l = Ok (map g l).
Proof.
  induction l as [| x l IH]; simpl; intros H; [reflexivity |].
  rewrite (H x) by now left. simpl. rewrite IH by auto. reflexivity.
Qed.

Lemma compare_value_comparable (op : cmp_op) (v : value) (y : scalar) :
  comparable y v -> compare_value op v y = Ok (cmp_total op v y).
Proof.
  unfold cmp_total. destruct v, y; simpl; try contradiction; reflexivity.
Qed.






(** The WHERE step of [execute_sql_like_query] does evaluate [between],
    both ends included. *)
Lemma execute_sql_like_query_between :
  advanced_data_tools.execute_sql_like_query literal_contains amounts_lower None
    [Cond.mk "amount" "between" (PyList [SNum 30; SNum 50])] None None "asc" None
  = Ok (mkDataFrame [("amount", Int64)] [[VNum 50]; [VNum 30]]).
Proof. reflexivity. Qed.

(** The copy of [multi_condition_filter] in [advanced_data_tools] is the
    one of [data_tools]. *)
Lemma multi_condition_filter_copies_agree
      (sc : pyval -> result (value -> bool)) (df : DataFrame)
      (cs : list Condition) (logic : string) :
  advanced_data_tools.multi_condition_filter sc df cs logic
  = data_tools.multi_condition_filter sc df cs logic.
Proof. reflexivity. Qed.

(* ================================================================== *)
(** ** Aggregation engine *)


(* ================================================================== *)
(** ** Data-quality summary *)

Lemma quality_of_column_same (df : DataFrame) (col : string) :
  advanced_data_tools.quality_of_column df col = data_tools.quality_of_column df col.
Proof.
  unfold advanced_data_tools.quality_of_column, data_tools.quality_of_column.
  destruct (get_column df col) as [sr | e]; simpl; [| reflexivity].
  unfold series_min, series_mean.
  destruct (is_numeric_dtype sr); reflexivity.
Qed.






(* ================================================================== *)
(** ** Further properties of the query executor *)

(** *** What a pattern can capture from a lower-case text *)

Lemma lower_char_not_upper (c : ascii) : PyStr.is_upper (PyStr.lower_char c) = false.
Proof.
  destruct c as [[] [] [] [] [] [] [] []]; reflexivity.
Qed.

Lemma lower_no_upper (s : string) : no_upper (PyStr.lower s) = true.
Proof.
  unfold PyStr.lower. induction s as [| c s IH]; simpl; [reflexivity |].
  now rewrite lower_char_not_upper, IH.
Qed.

Lemma no_upper_tail (c : ascii) (s : string) : no_upper (String c s) = true -> no_upper s = true.
Proof. simpl. now intros [_ H]%andb_true_iff. Qed.

Lemma no_upper_substring (s : string) (n m : nat) :
  no_upper s = true -> no_upper (substring n m s) = true.
Proof.
  revert n m. induction s as [| c s IH]; intros n m H.
  - now destruct n, m.
  - simpl in H. apply andb_true_iff in H as [Hc Hs].
    destruct n, m; simpl; auto.
    now rewrite Hc, IH.
Qed.

Lemma drop_prefix_no_upper (p s rest : string) :
  Re.drop_prefix p s = Some rest -> no_upper s = true -> no_upper rest = true.
Proof.
  revert s. induction p as [| a p IH]; intros [| b s]; simpl; try discriminate.
  - now intros [= <-].
  - now intros [= <-].
  - destruct (Ascii.eqb a b); [| discriminate].
    intros H [_ Hs]%andb_true_iff. now apply (IH s).
Qed.

Lemma star_no_upper {A : Type} (cls : ascii -> bool) (s : string)
      (k : string -> option A) (res : A) :
  no_upper s = true -> Re.star cls s k = Some res ->
  exists rest, no_upper rest = true /\ k rest = Some res.
Proof.
  induction s as [| c s IH]; simpl; intros Hs H.
  - exists EmptyString. now split.
  - destruct (cls c).
    + destruct (Re.star cls s k) as [a |] eqn:E.
      * injection H as ->. apply IH; [| reflexivity].
        now apply andb_true_iff in Hs as [_ Hs].
      * exists (String c s). now split.
    + exists (String c s). now split.
Qed.

Lemma exec_no_upper {A : Type} (r : Re.regex) :
  forall (s : string) (caps : Re.captures) (k : string -> Re.captures -> option A) (res : A),
    no_upper s = true -> lower_captures caps ->
    Re.exec r s caps k = Some res ->
    exists rest caps',
      no_upper rest = true /\ lower_captures caps' /\ k rest caps' = Some res.
Proof.
  induction r as [p | r1 IH1 r2 IH2 | r1 IH1 r2 IH2 | cls | cls | n r IH];
    intros s caps k res Hs Hc H; simpl in H.
  - destruct (Re.drop_prefix p s) as [rest |] eqn:E; [| discriminate].
    exists rest, caps. repeat split; auto. now apply (drop_prefix_no_upper p s).
  - apply IH1 in H as (rest1 & caps1 & H1 & Hc1 & H); auto.
    now apply IH2 in H.
  - destruct (Re.exec r1 s caps k) as [a |] eqn:E.
    + injection H as ->. now apply IH1 in E.
    + now apply IH2 in H.
  - apply star_no_upper in H as (rest & Hr & H); auto.
    exists rest, caps. auto.
  - destruct s as [| c s]; [discriminate |].
    destruct (cls c); [| discriminate].
    apply star_no_upper in H as (rest & Hr & H); [| now apply no_upper_tail in Hs].
    exists rest, caps. auto.
  - apply IH in H as (rest & caps' & Hr & Hc' & H); auto.
    exists rest, ((n, Re.consumed s rest) :: caps'). repeat split; auto.
    constructor; [| assumption].
    simpl. unfold Re.consumed. now apply no_upper_substring.
Qed.

Lemma search_no_upper (r : Re.regex) (s : string) (caps : Re.captures) :
  no_upper s = true -> Re.search r s = Some caps -> lower_captures caps.
Proof.
  induction s as [| c s IH]; simpl; intros Hs H.
  - destruct (Re.match_here r EmptyString) as [caps' |] eqn:E; [| discriminate].
    injection H as ->. unfold Re.match_here in E.
    apply exec_no_upper in E as (_ & caps' & _ & Hc & [= <-]); auto. constructor.
  - destruct (Re.match_here r (String c s)) as [caps' |] eqn:E.
    + injection H as ->. unfold Re.match_here in E.
      apply exec_no_upper in E as (_ & caps' & _ & Hc & [= <-]); auto. constructor.
    + apply IH; [now apply no_upper_tail in Hs | assumption].
Qed.

Lemma group_no_upper (n : nat) (caps : Re.captures) (t : string) :
  lower_captures caps -> Re.group n caps = Some t -> no_upper t = true.
Proof.
  induction 1 as [| [m u] caps Hu _ IH]; simpl; [discriminate |].
  destruct (Nat.eqb m n); [now intros [= <-] | assumption].
Qed.

Lemma group_or_no_upper (ns : list nat) (caps : Re.captures) (t : string) :
  lower_captures caps -> Re.group_or caps ns = Some t -> no_upper t = true.
Proof.
  intros Hc. induction ns as [| n ns IH]; simpl; [discriminate |].
  destruct (Re.group n caps) as [u |] eqn:E; [| assumption].
  destruct (PyStr.truthy u); [| assumption].
  intros [= <-]. now apply (group_no_upper n caps).
Qed.

Lemma has_column_In (col : string) (df : DataFrame) :
  has_column col df = true -> In col (columns df).
Proof.
  unfold has_column. intros H. apply existsb_exists in H as (c & Hc & E).
  apply String.eqb_eq in E. now subst.
Qed.

Lemma capitalised_columns_unknown (df : DataFrame) (col : string) :
  (forall c, In c (columns df) -> has_upper c = true) ->
  no_upper col = true -> has_column col df = false.
Proof.
  intros Hall Hcol. destruct (has_column col df) eqn:E; [| reflexivity].
  apply has_column_In, Hall in E. unfold has_upper in E. now rewrite Hcol in E.
Qed.

Lemma columns_same_schema (df1 df2 : DataFrame) :
  schema df1 = schema df2 -> columns df1 = columns df2.
Proof. unfold columns. now intros ->. Qed.

Lemma apply_order_by_capitalised (q : string) (df : DataFrame) :
  (forall c, In c (columns df) -> has_upper c = true) ->
  data_tools.apply_order_by (PyStr.lower q) df = Ok df.
Proof.
  intros Hall. unfold data_tools.apply_order_by.
  destruct (Re.search _ _) as [m |] eqn:Hm; [| reflexivity].
  destruct (Re.group_or m _) as [col |] eqn:Hcol; [| reflexivity].
  rewrite (capitalised_columns_unknown df col Hall); [reflexivity |].
  eapply group_or_no_upper; [| exact Hcol].
  apply (search_no_upper _ _ _ (lower_no_upper q) Hm).
Qed.

Lemma apply_group_by_capitalised (q : string) (df : DataFrame) :
  (forall c, In c (columns df) -> has_upper c = true) ->
  data_tools.apply_group_by (PyStr.lower q) df = Ok df.
Proof.
  intros Hall. unfold data_tools.apply_group_by.
  destruct (Re.search _ _) as [m |] eqn:Hm; [| reflexivity].
  destruct (Re.group 1 m) as [col |] eqn:Hcol; [| reflexivity].
  rewrite (capitalised_columns_unknown df col Hall); [reflexivity |].
  apply (group_no_upper 1 m); [| exact Hcol].
  apply (search_no_upper _ _ _ (lower_no_upper q) Hm).
Qed.

Lemma apply_where_capitalised (q : string) (df out : DataFrame) :
  (forall c, In c (columns df) -> has_upper c = true) ->
  data_tools.apply_where (PyStr.lower q) df = Ok out -> out = df.
Proof.
  intros Hall. unfold data_tools.apply_where.
  destruct (PyStr.contains "where" _); [| now intros [= <-]].
  destruct (Re.search _ _) as [m |] eqn:Hm; [| now intros [= <-]].
  destruct (Re.group 1 m) as [col |] eqn:Hcol; [| now intros [= <-]].
  destruct (Re.group 2 m) as [op |]; [| now intros [= <-]].
  destruct (Re.group 3 m) as [num |]; [| now intros [= <-]].
  intros H. apply bind_ok_inv in H as (val & _ & H).
  rewrite (capitalised_columns_unknown df col Hall) in H; [now injection H as <- |].
  apply (group_no_upper 1 m); [| exact Hcol].
  apply (search_no_upper _ _ _ (lower_no_upper q) Hm).
Qed.

Lemma apply_limit_prefix (q : string) (df out : DataFrame) :
  data_tools.apply_limit q df = Ok out ->
  schema out = schema df /\ exists n, rows out = firstn n (rows df).
Proof.
  unfold data_tools.apply_limit.
  destruct (Re.search _ q) as [m |].
  - destruct (Re.group_or m _) as [digits |]; [| discriminate].
    intros H. apply bind_ok_inv in H as (n & _ & H). injection H as <-.
    split; [reflexivity |]. unfold head. simpl. destruct (0 <=? n)%Z; eauto.
  - intros [= <-]. split; [reflexivity |].
    exists (List.length (rows df)). now rewrite firstn_all.
Qed.

(** X1.  On a table whose column names all contain an upper-case letter no
    ORDER BY, WHERE or GROUP BY clause of a command ever takes effect (the
    names taken out of the lower-cased command cannot be columns): whenever
    [execute_complex_query] returns, the result has the schema of the input
    and its rows are the first rows of the input, in the input's order. *)
Theorem execute_complex_query_capitalised_columns
        (df : DataFrame) (query : string) (out : DataFrame) :
  (forall c, In c (columns df) -> has_upper c = true) ->
  data_tools.execute_complex_query df query = Ok out ->
  schema out = schema df /\ exists n, rows out = firstn n (rows df).
Proof.
  intros Hall H. unfold data_tools.execute_complex_query in H. cbv zeta in H.
  rewrite (apply_order_by_capitalised query df Hall) in H. simpl in H.
  apply bind_ok_inv in H as (r1 & H1 & H).
  apply bind_ok_inv in H as (r2 & H2 & H3).
  apply apply_limit_prefix in H1 as (Hs1 & n & Hn).
  assert (Hall1 : forall c, In c (columns r1) -> has_upper c = true)
    by now rewrite (columns_same_schema r1 df Hs1).
  apply (apply_where_capitalised query r1 r2 Hall1) in H2. subst r2.
  rewrite (apply_group_by_capitalised query r1 Hall1) in H3. injection H3 as <-.
  split; [assumption | eauto].
Qed.

(** X1 at work: the table with the column [Amount] and the command
    ["order by Amount desc limit 2"]. *)
Lemma execute_complex_query_capitalised_columns_on_amounts :
  schema (mkDataFrame [("Amount", Int64)] [[VNum 10]; [VNum 50]]) = schema amounts
  /\ exists n, rows (mkDataFrame [("Amount", Int64)] [[VNum 10]; [VNum 50]])
               = firstn n (rows amounts).
Proof.
  apply (execute_complex_query_capitalised_columns
           amounts "order by Amount desc limit 2").
  - intros c [<- | []]. reflexivity.
  - reflexivity.
Defined.

(** *** Rows are only removed *)

Lemma count_firstn_le {A : Type} (p : A -> bool) (n : nat) (l : list A) :
  (count p (firstn n l) <= count p l)%nat.
Proof.
  unfold count. revert n. induction l as [| x l IH]; intros [| n]; simpl; try lia.
  specialize (IH n). destruct (p x); simpl; lia.
Qed.

Lemma count_select_rows_le (p : list value -> bool) (mask : list bool)
      (rs : list (list value)) :
  (count p (select_rows mask rs) <= count p rs)%nat.
Proof.
  unfold count. revert mask. induction rs as [| r rs IH]; intros [| b mask]; simpl; try lia.
  specialize (IH mask). destruct b; simpl; destruct (p r); simpl; lia.
Qed.

Lemma count_all {A : Type} (l : list A) : count (fun _ => true) l = List.length l.
Proof.
  unfold count. induction l as [| x l IH]; simpl; [reflexivity | now rewrite IH].
Qed.

Lemma filter_compare_count (op : cmp_op) (col : string) (v : pyval) (df out : DataFrame)
      (p : list value -> bool) :
  data_tools.filter_compare op col v df = Ok out ->
  (count p (rows out) <= count p (rows df))%nat.
Proof.
  unfold data_tools.filter_compare. intros H.
  apply bind_ok_inv in H as (sr & _ & H).
  apply bind_ok_inv in H as (mask & _ & H).
  injection H as <-. apply count_select_rows_le.
Qed.

Lemma apply_limit_count (q : string) (df out : DataFrame) (p : list value -> bool) :
  data_tools.apply_limit q df = Ok out ->
  (count p (rows out) <= count p (rows df))%nat.
Proof.
  intros H. apply apply_limit_prefix in H as (_ & n & ->). apply count_firstn_le.
Qed.

Lemma apply_where_count (q : string) (df out : DataFrame) (p : list value -> bool) :
  data_tools.apply_where q df = Ok out ->
  (count p (rows out) <= count p (rows df))%nat.
Proof.
  unfold data_tools.apply_where.
  destruct (PyStr.contains "where" q); [| now intros [= <-]].
  destruct (Re.search _ q) as [m |]; [| now intros [= <-]].
  destruct (Re.group 1 m) as [col |]; [| now intros [= <-]].
  destruct (Re.group 2 m) as [op |]; [| now intros [= <-]].
  destruct (Re.group 3 m) as [num |]; [| now intros [= <-]].
  intros H. apply bind_ok_inv in H as (val & _ & H).
  destruct (has_column col df); [| now injection H as <-].
  destruct (data_tools.symbol_op op); [| now injection H as <-].
  now apply (filter_compare_count _ _ _ _ _ p) in H.
Qed.

Lemma apply_group_by_skipped (query : string) (df res : DataFrame) :
  schema res = schema df ->
  (forall col, group_clause query = Some col -> has_column col df = false) ->
  data_tools.apply_group_by (PyStr.lower query) res = Ok res.
Proof.
  intros Hs Hg. unfold data_tools.apply_group_by. unfold group_clause in Hg.
  destruct (Re.search _ _) as [m |]; [| reflexivity].
  destruct (Re.group 1 m) as [col |]; [| reflexivity].
  now rewrite (has_column_same_schema col res df Hs), (Hg col eq_refl).
Qed.

Lemma stages_before_group_count (df : DataFrame) (query : string) (res : DataFrame)
      (p : list value -> bool) :
  stages_before_group df query = Ok res ->
  (count p (rows res) <= count p (rows df))%nat.
Proof.
  unfold stages_before_group. cbv zeta. intros H.
  apply bind_ok_inv in H as (r1 & H1 & H).
  apply bind_ok_inv in H as (r2 & H2 & H3).
  apply (apply_order_by_count _ _ _ p) in H1.
  apply (apply_limit_count _ _ _ p) in H2.
  apply (apply_where_count _ _ _ p) in H3. lia.
Qed.

(** X2.  A command without an effective GROUP BY clause (none, or one
    naming an unknown column) only rearranges and removes rows: whenever
    [execute_complex_query] returns, the result has the schema of the input
    and, whatever the property of rows, no more rows with that property
    than the input has.  No row is invented, duplicated or altered. *)
Theorem execute_complex_query_only_removes_rows
        (df : DataFrame) (query : string) (out : DataFrame) :
  (forall col, group_clause query = Some col -> has_column col df = false) ->
  data_tools.execute_complex_query df query = Ok out ->
  schema out = schema df
  /\ forall p : list value -> bool, (count p (rows out) <= count p (rows df))%nat.
Proof.
  intros Hg H. rewrite execute_complex_query_stages in H.
  apply bind_ok_inv in H as (res & Hres & H).
  pose proof (stages_before_group_schema _ _ _ Hres) as Hs.
  rewrite (apply_group_by_skipped query df res Hs Hg) in H. injection H as <-.
  split; [assumption |].
  intros p. now apply (stages_before_group_count df query).
Qed.

(** X2 at work: sorting, truncating and filtering the three orders. *)
Lemma execute_complex_query_only_removes_rows_of_orders :
  schema (mkDataFrame [("amount", Int64); ("status", Object)] [[VNum 50; VStr "B"]])
  = schema orders
  /\ forall p : list value -> bool,
       (count p (rows (mkDataFrame [("amount", Int64); ("status", Object)]
                         [[VNum 50; VStr "B"]]))
        <= count p (rows orders))%nat.
Proof.
  apply (execute_complex_query_only_removes_rows
           orders "sort by amount desc top 2 where amount > 40").
  - intros col H. discriminate H.
  - reflexivity.
Defined.

(** *** LIMIT *)

Lemma digits_to_Z_nonneg (s : string) (acc : Z) :
  (0 <= acc)%Z -> (0 <= PyNum.digits_to_Z acc s)%Z.
Proof.
  revert acc. induction s as [| c s IH]; intros acc H; [assumption |].
  cbn [PyNum.digits_to_Z]. apply IH. unfold PyNum.digit_val.
  pose proof (Nat2Z.is_nonneg (PyStr.code c - 48)). lia.
Qed.

Lemma parse_int_nonneg (s : string) (n : Z) : PyNum.parse_int s = Ok n -> (0 <= n)%Z.
Proof.
  unfold PyNum.parse_int. destruct (_ && _); [| discriminate].
  intros [= <-]. now apply digits_to_Z_nonneg.
Qed.

(** X3.  LIMIT caps the result: when the command carries the number [n] in
    a [limit], [first] or [top] clause and has no effective GROUP BY
    clause, every result of [execute_complex_query] has at most [n] rows,
    whatever the other clauses do. *)
Theorem execute_complex_query_limit_bound
        (df : DataFrame) (query digits : string) (n : Z) (out : DataFrame) :
  limit_clause query = Some digits ->
  PyNum.parse_int digits = Ok n ->
  (forall col, group_clause query = Some col -> has_column col df = false) ->
  data_tools.execute_complex_query df query = Ok out ->
  (List.length (rows out) <= Z.to_nat n)%nat.
Proof.
  intros Hl Hn Hg H. rewrite execute_complex_query_stages in H.
  apply bind_ok_inv in H as (res & Hres & H).
  pose proof (stages_before_group_schema _ _ _ Hres) as Hs.
  rewrite (apply_group_by_skipped query df res Hs Hg) in H. injection H as <-.
  unfold stages_before_group in Hres. cbv zeta in Hres.
  apply bind_ok_inv in Hres as (r1 & H1 & Hres).
  apply bind_ok_inv in Hres as (r2 & H2 & H3).
  apply (apply_where_count _ _ _ (fun _ => true)) in H3. rewrite !count_all in H3.
  unfold data_tools.apply_limit in H2. unfold limit_clause in Hl.
  destruct (Re.search data_tools.limit_re (PyStr.lower query)) as [m |];
    [| discriminate].
  rewrite Hl, Hn in H2. simpl in H2. injection H2 as <-.
  unfold head in H3. simpl in H3.
  pose proof (parse_int_nonneg _ _ Hn) as Hpos.
  apply Z.leb_le in Hpos. rewrite Hpos in H3.
  pose proof (firstn_le_length (Z.to_nat n) (rows r1)). lia.
Qed.

(** X3 at work: [top 2] on the three orders. *)
Lemma execute_complex_query_limit_bound_on_orders :
  (List.length (rows (mkDataFrame [("amount", Int64); ("status", Object)]
                        [[VNum 50; VStr "B"]; [VNum 30; VStr "A"]]))
   <= Z.to_nat 2)%nat.
Proof.
  apply (execute_complex_query_limit_bound
           orders "order by amount desc top 2" "2" 2); try reflexivity.
  intros col H. discriminate H.
Defined.

(** *** The errors of the executor *)

Lemma bind_err_inv {A B : Type} (m : result A) (f : A -> result B) (e : error) :
  bind m f = Err e -> m = Err e \/ exists a, m = Ok a /\ f a = Err e.
Proof. destruct m as [a | e']; simpl; [eauto | intros [= ->]; now left]. Qed.

Lemma mapM_err {A B : Type} (f : A -> result B) (l : list A) (e : error) :
  mapM f l = Err e -> exists x, In x l /\ f x = Err e.
Proof.
  induction l as [| x l IH]; simpl; [discriminate |].
  intros H. apply bind_err_inv in H as [H | (y & Hy & H)]; [exists x; auto |].
  apply bind_err_inv in H as [H | (ys & _ & H)]; [| discriminate].
  destruct (IH H) as (x' & Hin & Hx'). exists x'. auto.
Qed.

Lemma compare_value_err (op : cmp_op) (x : value) (y : scalar) (e : error) :
  compare_value op x y = Err e -> e = PyTypeError.
Proof. destruct x, y, op; simpl; congruence. Qed.

Lemma compare_zip_err (op : cmp_op) (xs : list value) (ys : list scalar) (e : error) :
  compare_zip op xs ys = Err e -> e = PyTypeError.
Proof.
  revert ys. induction xs as [| x xs IH]; intros [| y ys]; simpl; try discriminate.
  intros H. apply bind_err_inv in H as [H | (b & _ & H)];
    [now apply compare_value_err in H |].
  apply bind_err_inv in H as [H | (bs & _ & H)]; [now apply IH in H | discriminate].
Qed.

Lemma series_compare_err (op : cmp_op) (sr : Series) (v : pyval) (e : error) :
  series_compare op sr v = Err e -> e = PyTypeError \/ e = PyValueError.
Proof.
  unfold series_compare. destruct v as [y | ys].
  - intros H. apply mapM_err in H as (x & _ & H). left. now apply compare_value_err in H.
  - destruct (Nat.eqb _ _); [| intros [= <-]; now right].
    intros H. left. now apply compare_zip_err in H.
Qed.

Lemma sort_values_err (col : string) (asc : bool) (df : DataFrame) (e : error) :
  has_column col df = true -> sort_values col asc df = Err e -> e = PyTypeError.
Proof.
  intros Hc. destruct (has_column_index _ _ Hc) as [j Hj].
  unfold sort_values. rewrite Hj.
  match goal with |- context [if ?c then _ else _] => destruct c end;
    [discriminate | congruence].
Qed.

Lemma parse_int_err (s : string) (e : error) : PyNum.parse_int s = Err e -> e = PyValueError.
Proof. unfold PyNum.parse_int. destruct (_ && _); congruence. Qed.

Lemma parse_float_err (s : string) (e : error) :
  PyNum.parse_float s = Err e -> e = PyValueError.
Proof.
  unfold PyNum.parse_float.
  destruct (PyStr.split "." s) as [| i [| f [| x l]]]; try congruence.
  - destruct (_ && _); congruence.
  - destruct (_ && _); congruence.
Qed.

Lemma filter_compare_err (op : cmp_op) (col : string) (v : pyval) (df : DataFrame)
      (e : error) :
  has_column col df = true ->
  data_tools.filter_compare op col v df = Err e -> e = PyTypeError \/ e = PyValueError.
Proof.
  intros Hc. destruct (get_column_has _ _ Hc) as (j & _ & Hcol).
  unfold data_tools.filter_compare. rewrite Hcol. simpl bind. intros H.
  apply bind_err_inv in H as [H | (mask & _ & H)]; [| discriminate].
  now apply series_compare_err in H.
Qed.

Lemma groupby_size_err (col name : string) (df : DataFrame) (e : error) :
  has_column col df = true -> groupby_size col name df = Err e -> e = PyValueError.
Proof.
  intros Hc. destruct (get_column_has _ _ Hc) as (j & _ & Hcol).
  unfold groupby_size. rewrite Hcol. simpl bind.
  destruct (String.eqb col name); congruence.
Qed.

(** X4.  [execute_complex_query] never fails because of an unknown column:
    every clause is guarded by a look-up of its column.  Its only failures
    are a [TypeError] (cells that cannot be ordered, or compared with the
    number of the WHERE clause) and a [ValueError] (a number that [float]
    refuses, or a group column itself named [count]). *)
Theorem execute_complex_query_errors (df : DataFrame) (query : string) (e : error) :
  data_tools.execute_complex_query df query = Err e ->
  e = PyTypeError \/ e = PyValueError.
Proof.
  unfold data_tools.execute_complex_query. cbv zeta. intros H.
  apply bind_err_inv in H as [H | (r1 & _ & H)].
  { unfold data_tools.apply_order_by in H.
    destruct (Re.search _ _) as [m |]; [| discriminate].
    destruct (Re.group_or m _) as [col |]; [| discriminate].
    destruct (has_column col df) eqn:Hc; [| discriminate].
    left. now apply sort_values_err in H. }
  apply bind_err_inv in H as [H | (r2 & _ & H)].
  { unfold data_tools.apply_limit in H.
    destruct (Re.search _ _) as [m |]; [| discriminate].
    destruct (Re.group_or m _) as [digits |]; [| injection H as <-; now left].
    apply bind_err_inv in H as [H | (n & _ & H)]; [| discriminate].
    right. now apply parse_int_err in H. }
  apply bind_err_inv in H as [H | (r3 & _ & H)].
  { unfold data_tools.apply_where in H.
    destruct (PyStr.contains "where" _); [| discriminate].
    destruct (Re.search _ _) as [m |]; [| discriminate].
    destruct (Re.group 1 m) as [col |]; [| discriminate].
    destruct (Re.group 2 m) as [op |]; [| discriminate].
    destruct (Re.group 3 m) as [num |]; [| discriminate].
    apply bind_err_inv in H as [H | (val & _ & H)];
      [right; now apply parse_float_err in H |].
    destruct (has_column col r2) eqn:Hc; [| discriminate].
    destruct (data_tools.symbol_op op); [| discriminate].
    now apply filter_compare_err in H. }
  unfold data_tools.apply_group_by in H.
  destruct (Re.search _ _) as [m |]; [| discriminate].
  destruct (Re.group 1 m) as [col |]; [| discriminate].
  destruct (has_column col r3) eqn:Hc; [| discriminate].
  right. now apply groupby_size_err in H.
Qed.

(** X4 at work: ordering the texts of [status] against a number. *)
Lemma execute_complex_query_errors_on_orders :
  PyTypeError = PyTypeError \/ PyTypeError = PyValueError.
Proof.
  apply (execute_complex_query_errors orders "where status > 5").
  reflexivity.
Defined.

(** *** Group counts add up *)

Lemma value_eqb_sym (a b : value) : value_eqb a b = value_eqb b a.
Proof.
  destruct a as [x | s |], b as [y | t |]; simpl; try reflexivity.
  - destruct (Qeq_bool x y) eqn:E1, (Qeq_bool y x) eqn:E2; try reflexivity.
    + apply Qeq_bool_iff in E1. symmetry in E1. apply Qeq_bool_iff in E1. congruence.
    + apply Qeq_bool_iff in E2. symmetry in E2. apply Qeq_bool_iff in E2. congruence.
  - apply String.eqb_sym.
Qed.

Lemma count_eq_filter_same (k : value) (q : value -> bool) (vs : list value) :
  (forall v, In v vs -> value_eqb k v = true -> q v = true) ->
  count_eq k (filter q vs) = count_eq k vs.
Proof.
  unfold count_eq. induction vs as [| v vs IH]; simpl; intros H; [reflexivity |].
  destruct (value_eqb k v) eqn:E.
  - rewrite (H v) by auto. simpl. rewrite E. simpl. f_equal. apply IH. auto.
  - destruct (q v); simpl; rewrite ?E; apply IH; auto.
Qed.

Lemma count_eq_filter_none (k : value) (q : value -> bool) (vs : list value) :
  (forall v, In v vs -> value_eqb k v = true -> q v = false) ->
  count_eq k (filter q vs) = 0%nat.
Proof.
  unfold count_eq. induction vs as [| v vs IH]; simpl; intros H; [reflexivity |].
  destruct (q v) eqn:Eq.
  - simpl. destruct (value_eqb k v) eqn:E.
    + rewrite (H v) in Eq by auto. discriminate.
    + apply IH. auto.
  - apply IH. auto.
Qed.

Lemma sum_counts_without (x : value) (keys vs : list value) :
  list_sum (map (fun k => count_eq k vs)
                (filter (fun u => negb (value_eqb x u)) keys))
  = list_sum (map (fun k => count_eq k (filter (fun v => negb (value_eqb x v)) vs)) keys).
Proof.
  induction keys as [| k keys IH]; simpl; [reflexivity |].
  destruct (value_eqb x k) eqn:E; simpl.
  - rewrite count_eq_filter_none; [exact IH |].
    intros v _ Hkv. apply negb_false_iff. now apply value_eqb_trans with k.
  - rewrite count_eq_filter_same; [now rewrite IH |].
    intros v _ Hkv. apply negb_true_iff.
    destruct (value_eqb x v) eqn:Exv; [| reflexivity].
    rewrite value_eqb_sym in Hkv.
    now rewrite (value_eqb_trans x v k Exv Hkv) in E.
Qed.

Lemma counts_partition (keys vs : list value) :
  (forall v, In v vs -> exists k, In k keys /\ value_eqb k v = true) ->
  list_sum (map (fun k => count_eq k vs) (unique keys)) = List.length vs.
Proof.
  revert vs. induction keys as [| x keys IH]; intros vs Hcover.
  - destruct vs as [| v vs]; [reflexivity |].
    destruct (Hcover v) as (k & [] & _). now left.
  - simpl. rewrite sum_counts_without, IH.
    + unfold count_eq.
      pose proof (count_split (fun _ : value => true) (value_eqb x) vs) as H.
      rewrite !count_all in H. lia.
    + intros v Hv. apply filter_In in Hv as [Hv Hx].
      destruct (Hcover v Hv) as (k & [<- | Hk] & Hkv); [| eauto].
      rewrite Hkv in Hx. discriminate.
Qed.

Lemma group_counts_add_up (vs : list value) :
  list_sum (map (fun k => count_eq k vs) (group_keys vs))
  = List.length (filter (fun v => negb (is_null v)) vs).
Proof.
  unfold group_keys.
  set (present := filter (fun v => negb (is_null v)) vs).
  rewrite <- (counts_partition (stable_sort value_leb present) present).
  - f_equal. apply map_ext_in. intros k Hk.
    apply unique_In, stable_sort_In in Hk.
    symmetry. apply count_eq_filter_same.
    intros v _ Hkv. apply filter_In in Hk as [_ Hk].
    now rewrite <- (value_eqb_null k v Hkv).
  - intros v Hv. exists v. split; [now apply stable_sort_In | apply value_eqb_refl].
Qed.

Lemma Qsum_of_counts (ns : list nat) :
  (Qsum (map (fun n => inject_Z (Z.of_nat n)) ns) == Qof_nat (list_sum ns))%Q.
Proof.
  unfold Qof_nat. induction ns as [| n ns IH]; simpl; [reflexivity |].
  rewrite IH, Nat2Z.inj_add, inject_Z_plus. reflexivity.
Qed.

Lemma execute_complex_query_grouped
      (df : DataFrame) (query col : string) (res : DataFrame) :
  group_clause query = Some col ->
  has_column col df = true ->
  col <> "count" ->
  stages_before_group df query = Ok res ->
  exists dt,
    data_tools.execute_complex_query df query
    = Ok (mkDataFrame [(col, dt); ("count", Int64)]
            (map (fun k => [k; num_of_nat (count_eq k (column_cells col res))])
                 (group_keys (column_cells col res)))).
Proof.
  intros Hg Hc Hn Hs.
  pose proof (stages_before_group_schema _ _ _ Hs) as Hschema.
  assert (Hres : has_column col res = true)
    by now rewrite (has_column_same_schema col res df Hschema).
  destruct (has_column_index _ _ Hres) as [j Hj].
  rewrite execute_complex_query_stages, Hs. simpl bind.
  unfold data_tools.apply_group_by. unfold group_clause in Hg.
  destruct (Re.search data_tools.group_re (PyStr.lower query)) as [m |];
    [| discriminate].
  rewrite Hg, Hres. unfold groupby_size, get_column. rewrite Hj. simpl bind.
  apply String.eqb_neq in Hn. rewrite Hn.
  eexists. f_equal. f_equal. simpl s_values.
  now rewrite (column_cells_index _ _ _ Hj).
Qed.

(** X5.  The counts of a grouped result add up: when the command has a
    GROUP BY clause naming a column of the table, the [count] column of the
    result of [execute_complex_query] sums to the number of rows with a
    non-null key in the table that the earlier steps leave.  Rows without a
    key are counted in no group, every other row in exactly one. *)
Theorem execute_complex_query_counts_add_up
        (df : DataFrame) (query col : string) (res : DataFrame) :
  group_clause query = Some col ->
  has_column col df = true ->
  col <> "count" ->
  stages_before_group df query = Ok res ->
  exists out,
    data_tools.execute_complex_query df query = Ok out
    /\ (Qsum (numbers (column_cells "count" out))
        == Qof_nat (List.length (filter (fun v => negb (is_null v))
                                        (column_cells col res))))%Q.
Proof.
  intros Hg Hc Hn Hs.
  destruct (execute_complex_query_grouped _ _ _ _ Hg Hc Hn Hs) as [dt Hout].
  eexists. split; [exact Hout |].
  unfold column_cells at 1, get_column. unfold columns. simpl map.
  unfold index_of.
  assert (E : String.eqb "count" col = false)
    by (apply String.eqb_neq; congruence).
  rewrite E. simpl String.eqb. cbv iota. simpl rows. simpl s_values.
  rewrite <- group_counts_add_up, <- Qsum_of_counts.
  rewrite !map_map. simpl.
  generalize (group_keys (column_cells col res)) as keys.
  induction keys as [| k keys IH]; simpl; [reflexivity |].
  now rewrite IH.
Qed.

(** X5 at work: the three orders grouped by [status] after a sort. *)
Lemma execute_complex_query_counts_add_up_on_orders :
  exists out,
    data_tools.execute_complex_query orders "order by amount desc group by status" = Ok out
    /\ (Qsum (numbers (column_cells "count" out))
        == Qof_nat (List.length (filter (fun v => negb (is_null v))
                                        (column_cells "status" orders_by_amount_desc))))%Q.
Proof.
  apply (execute_complex_query_counts_add_up
           orders "order by amount desc group by status" "status" orders_by_amount_desc);
    try reflexivity.
  discriminate.
Defined.

(* ================================================================== *)
(** ** Further properties of the filters *)

Lemma cmp_total_satisfies (op : cmp_op) (v : value) (y : scalar) :
  cmp_total op v y = true <-> satisfies op v y.
Proof.
  unfold cmp_total, satisfies.
  destruct v as [x | t |], y as [a | a]; simpl.
  - destruct op; simpl; rewrite ?negb_true_iff, ?Qle_bool_iff, ?Qeq_bool_iff.
    + rewrite <- not_true_iff_false, Qle_bool_iff. split; [apply Qnot_le_lt | apply Qlt_not_le].
    + reflexivity.
    + rewrite <- not_true_iff_false, Qle_bool_iff. split; [apply Qnot_le_lt | apply Qlt_not_le].
    + reflexivity.
    + reflexivity.
    + rewrite <- not_true_iff_false, Qeq_bool_iff. reflexivity.
  - destruct op; simpl; intuition discriminate.
  - destruct op; simpl; intuition discriminate.
  - destruct op; simpl; rewrite ?negb_true_iff, ?String.eqb_eq, ?String.eqb_neq;
      reflexivity.
  - destruct op; simpl; intuition discriminate.
  - destruct op; simpl; intuition discriminate.
Qed.

Lemma compare_value_equality (v : value) (y : scalar) :
  compare_value Eq v y = Ok (cmp_total Eq v y).
Proof. unfold cmp_total. now destruct v, y. Qed.

Lemma select_rows_test (g : value -> bool) (j : nat) (rs : list (list value)) :
  select_rows (map g (map (cell j) rs)) rs = filter (fun r => g (cell j r)) rs.
Proof.
  induction rs as [| r rs IH]; simpl; [reflexivity |]. now rewrite IH.
Qed.

Lemma filter_compare_exact (op : cmp_op) (col : string) (y : scalar) (df : DataFrame)
      (j : nat) :
  index_of col (columns df) = Some j ->
  (forall r, In r (rows df) ->
             compare_value op (cell j r) y = Ok (cmp_total op (cell j r) y)) ->
  data_tools.filter_compare op col (Scalar y) df
  = Ok (mkDataFrame (schema df) (filter (fun r => cmp_total op (cell j r) y) (rows df))).
Proof.
  intros Hj Hcmp. unfold data_tools.filter_compare, get_column. rewrite Hj. simpl bind.
  unfold series_compare. simpl s_values.
  rewrite (mapM_total _ (fun x => cmp_total op x y)).
  - simpl bind. unfold select. now rewrite select_rows_test.
  - intros x Hx. apply in_map_iff in Hx as (r & <- & Hr). now apply Hcmp.
Qed.

Lemma empty_with_column (df : DataFrame) (col : string) (j : nat) :
  index_of col (columns df) = Some j -> empty df = true -> rows df = [].
Proof.
  destruct df as [sch rs]. unfold empty, columns. simpl.
  destruct rs as [| r rs]; [reflexivity |].
  destruct sch; simpl; discriminate.
Qed.

Lemma str_in_cases (c : string) (l : list string) :
  data_tools.str_in c l = true -> In c l.
Proof.
  unfold data_tools.str_in. intros H. apply existsb_exists in H as (x & Hx & E).
  apply String.eqb_eq in E. now subst.
Qed.

(** X6.  In [filter_dataframe] the conditions [greater], [less] and [equal]
    (under any of their aliases, in any letter case) keep exactly the rows
    whose cell is greater than, less than, or equal to the value, in their
    order and under the schema of the input; nulls are never kept.  For the
    two orderings the cells of the column must be comparable with the
    value; and the numbers of the column and of the value must be of
    magnitude at most 2^53, beyond which the conversion to float64 that
    pandas compares through is not exact. *)
Theorem filter_dataframe_comparison
        (sc : pyval -> result (value -> bool)) (df : DataFrame)
        (col name : string) (op : cmp_op) (y : scalar) (j : nat) :
  index_of col (columns df) = Some j ->
  data_tools.str_in (PyStr.lower name) (condition_aliases op) = true ->
  (op <> Eq -> forall r, In r (rows df) -> comparable y (cell j r)) ->
  (forall r, In r (rows df) -> cell_held_exactly (cell j r)) ->
  scalar_held_exactly y ->
  exists keep,
    data_tools.filter_dataframe sc col name (Scalar y) df
    = Ok (mkDataFrame (schema df) (filter keep (rows df)))
    /\ forall r, keep r = true <-> satisfies op (cell j r) y.
Proof.
  intros Hj Hname Hcmp _ _.
  exists (fun r => cmp_total op (cell j r) y).
  split; [| intros r; apply cmp_total_satisfies].
  unfold data_tools.filter_dataframe.
  destruct (empty df) eqn:He.
  - rewrite (empty_with_column df col j Hj He). simpl.
    destruct df as [sch rs]. simpl. f_equal. f_equal.
    now apply (empty_with_column _ col j Hj) in He.
  - rewrite (index_has_column _ _ _ Hj). simpl negb. cbv beta zeta iota.
    assert (Hbody : data_tools.filter_compare op col (Scalar y) df
                    = Ok (mkDataFrame (schema df)
                            (filter (fun r => cmp_total op (cell j r) y) (rows df)))).
    { apply filter_compare_exact; [assumption |].
      intros r Hr. destruct op; try (apply compare_value_comparable, Hcmp;
                                     [discriminate | assumption]).
      apply compare_value_equality. }
    apply str_in_cases in Hname.
    destruct op; simpl in Hname; try contradiction;
      rewrite Hbody;
      repeat (destruct Hname as [<- | Hname]; [reflexivity |]); contradiction.
Qed.

(** X6 at work: [ABOVE 20] on the amounts 10, 50, 30. *)
Lemma filter_dataframe_comparison_on_amounts :
  exists keep,
    data_tools.filter_dataframe literal_contains "amount" "ABOVE" (Scalar (SNum 20))
      amounts_lower
    = Ok (mkDataFrame (schema amounts_lower) (filter keep (rows amounts_lower)))
    /\ forall r, keep r = true <-> satisfies Gt (cell 0 r) (SNum 20).
Proof.
  apply (filter_dataframe_comparison literal_contains amounts_lower
           "amount" "ABOVE" Gt (SNum 20) 0).
  - reflexivity.
  - reflexivity.
  - intros _ r [<- | [<- | [<- | []]]]; exact I.
  - intros r [<- | [<- | [<- | []]]]; unfold cell_held_exactly, held_exactly, Qle;
      simpl; lia.
  - unfold scalar_held_exactly, held_exactly, Qle; simpl; lia.
Defined.

Lemma str_in_app (c : string) (l1 l2 : list string) :
  data_tools.str_in c (l1 ++ l2) = data_tools.str_in c l1 || data_tools.str_in c l2.
Proof. unfold data_tools.str_in. apply existsb_app. Qed.

(** X7.  On a table that is not empty and for a column it has,
    [filter_dataframe] refuses a condition name outside its five groups of
    aliases with the unknown-condition error, and a [between] (or [range])
    whose value is not a list of two elements with the between-requires
    error; both arrive inside the error of the filter. *)
Theorem filter_dataframe_rejects
        (sc : pyval -> result (value -> bool)) (df : DataFrame)
        (col name : string) (v : pyval) :
  empty df = false ->
  has_column col df = true ->
  (data_tools.str_in (PyStr.lower name) known_conditions = false ->
     data_tools.filter_dataframe sc col name v df
     = Err (Wrapped "Error filtering dataframe" (UnknownCondition name)))
  /\ (data_tools.str_in (PyStr.lower name) ["between"; "range"] = true ->
      (forall lo hi, v <> PyList [lo; hi]) ->
        data_tools.filter_dataframe sc col name v df
        = Err (Wrapped "Error filtering dataframe" MalformedCondition)).
Proof.
  intros He Hc. unfold data_tools.filter_dataframe. rewrite He, Hc. simpl negb.
  cbv beta zeta iota. split.
  - unfold known_conditions. rewrite !str_in_app, !orb_false_iff.
    simpl condition_aliases. intros (H1 & H2 & H3 & H4 & H5).
    now rewrite H1, H2, H3, H4, H5.
  - intros Hname Hv. apply str_in_cases in Hname.
    destruct v as [x | [| a [| b [| c l]]]];
      try (now destruct (Hv a b));
      destruct Hname as [<- | [<- | []]]; reflexivity.
Qed.

(** X7 at work: the name [like], and [between] with a single bound. *)
Lemma filter_dataframe_rejects_on_orders :
  data_tools.filter_dataframe literal_contains "amount" "like" (Scalar (SNum 1)) orders
  = Err (Wrapped "Error filtering dataframe" (UnknownCondition "like"))
  /\ data_tools.filter_dataframe literal_contains "amount" "between" (PyList [SNum 1]) orders
     = Err (Wrapped "Error filtering dataframe" MalformedCondition).
Proof.
  split.
  - apply (proj1 (filter_dataframe_rejects literal_contains orders "amount" "like"
                    (Scalar (SNum 1)) eq_refl eq_refl)).
    reflexivity.
  - apply (proj2 (filter_dataframe_rejects literal_contains orders "amount" "between"
                    (PyList [SNum 1]) eq_refl eq_refl)).
    + reflexivity.
    + intros lo hi H. discriminate H.
Defined.

Lemma select_only_removes (mask : list bool) (df : DataFrame) :
  schema (select mask df) = schema df
  /\ forall p : list value -> bool,
       (count p (rows (select mask df)) <= count p (rows df))%nat.
Proof. split; [reflexivity | intros p; apply count_select_rows_le]. Qed.

Lemma same_only_removes (df : DataFrame) :
  schema df = schema df
  /\ forall p : list value -> bool, (count p (rows df) <= count p (rows df))%nat.
Proof. split; [reflexivity | intros p; lia]. Qed.

Lemma filter_compare_only_removes (op : cmp_op) (col : string) (v : pyval)
      (df out : DataFrame) :
  data_tools.filter_compare op col v df = Ok out ->
  schema out = schema df
  /\ forall p : list value -> bool, (count p (rows out) <= count p (rows df))%nat.
Proof.
  unfold data_tools.filter_compare. intros H.
  apply bind_ok_inv in H as (sr & _ & H).
  apply bind_ok_inv in H as (mask & _ & H).
  injection H as <-. apply select_only_removes.
Qed.

Lemma try_wrap_ok {A : Type} (context : string) (body : result A) (a : A) :
  try_wrap context body = Ok a -> body = Ok a.
Proof. destruct body; simpl; congruence. Qed.

(** X8.  The two filters only remove rows: whenever [filter_dataframe] or
    [multi_condition_filter] returns, the result has the schema of the
    input and, whatever the property of rows, no more rows with that
    property than the input has. *)
Theorem filters_only_remove_rows
        (sc : pyval -> result (value -> bool)) (df out : DataFrame) :
  (exists col name v, data_tools.filter_dataframe sc col name v df = Ok out)
  \/ (exists cs logic, data_tools.multi_condition_filter sc df cs logic = Ok out) ->
  schema out = schema df
  /\ forall p : list value -> bool, (count p (rows out) <= count p (rows df))%nat.
Proof.
  intros [(col & name & v & H) | (cs & logic & H)].
  - unfold data_tools.filter_dataframe in H.
    destruct (empty df); [injection H as <-; apply same_only_removes |].
    destruct (negb (has_column col df)); [discriminate |].
    apply try_wrap_ok in H. cbv zeta in H.
    repeat match type of H with
           | (if ?b then _ else _) = _ => destruct b
           end;
      try (now apply filter_compare_only_removes in H); try discriminate.
    + apply bind_ok_inv in H as (sr & _ & H).
      apply bind_ok_inv in H as (mask & _ & H).
      injection H as <-. apply select_only_removes.
    + destruct v as [x | [| lo [| hi [| c l]]]]; try discriminate.
      apply bind_ok_inv in H as (sr & _ & H).
      apply bind_ok_inv in H as (m1 & _ & H).
      apply bind_ok_inv in H as (m2 & _ & H).
      injection H as <-. apply select_only_removes.
  - rewrite multi_condition_filter_masks in H.
    apply bind_ok_inv in H as (masks & _ & H).
    destruct masks as [| first others]; injection H as <-;
      [apply same_only_removes | apply select_only_removes].
Qed.

(** X8 at work: the strict filter [amount equal 50] on the three orders. *)
Lemma filters_only_remove_rows_of_orders :
  schema (mkDataFrame [("amount", Int64); ("status", Object)] [[VNum 50; VStr "B"]])
  = schema orders
  /\ forall p : list value -> bool,
       (count p (rows (mkDataFrame [("amount", Int64); ("status", Object)]
                         [[VNum 50; VStr "B"]]))
        <= count p (rows orders))%nat.
Proof.
  apply (filters_only_remove_rows literal_contains orders).
  left. exists "amount", "equal", (Scalar (SNum 50)). reflexivity.
Defined.

(** *** The order of the conditions *)

From Stdlib Require Import Permutation.

Lemma collect_masks_perm (sc : pyval -> result (value -> bool)) (df : DataFrame)
      (cs cs' : list Condition) :
  Permutation cs cs' ->
  forall ms, data_tools.collect_masks sc df cs = Ok ms ->
             exists ms', data_tools.collect_masks sc df cs' = Ok ms' /\ Permutation ms ms'.
Proof.
  induction 1 as [| x l l' _ IH | x y l | l l' l'' _ IH1 _ IH2]; intros ms H.
  - exists ms. split; [assumption | apply Permutation_refl].
  - simpl in H. apply bind_ok_inv in H as (m & Hm & H).
    apply bind_ok_inv in H as (ml & Hl & H). injection H as <-.
    destruct (IH _ Hl) as (ml' & Hl' & Hp).
    simpl. rewrite Hm, Hl'. simpl. eexists. split; [reflexivity |].
    destruct m; [now apply perm_skip | assumption].
  - simpl in H. apply bind_ok_inv in H as (my & Hy & H).
    apply bind_ok_inv in H as (mr & H & Hms).
    apply bind_ok_inv in H as (mx & Hx & H).
    apply bind_ok_inv in H as (ml & Hl & H). injection H as <-. injection Hms as <-.
    simpl. rewrite Hx, Hy, Hl. simpl. eexists. split; [reflexivity |].
    destruct mx, my; try apply Permutation_refl. apply perm_swap.
  - destruct (IH1 _ H) as (ms1 & H1 & P1).
    destruct (IH2 _ H1) as (ms2 & H2 & P2).
    exists ms2. split; [assumption | now apply Permutation_trans with ms1].
Qed.

Lemma collect_masks_lengths (sc : pyval -> result (value -> bool)) (df : DataFrame)
      (cs : list Condition) :
  forall ms, data_tools.collect_masks sc df cs = Ok ms ->
             forall m, In m ms -> List.length m = len df.
Proof.
  induction cs as [| c cs IH]; simpl; intros ms H.
  - injection H as <-. intros m [].
  - apply bind_ok_inv in H as (mc & Hc & H).
    apply bind_ok_inv in H as (ml & Hl & H). injection H as <-.
    destruct mc as [mask |]; [| now apply IH].
    intros m [<- | Hm]; [now apply condition_mask_length in Hc | now apply (IH ml)].
Qed.

Lemma fold_mask_length (f : bool -> bool -> bool) (others : list (list bool))
      (first : list bool) :
  (forall m, In m others -> List.length m = List.length first) ->
  List.length (fold_left (mask_zip f) others first) = List.length first.
Proof.
  revert first. induction others as [| m others IH]; intros first H; simpl;
    [reflexivity |].
  assert (Hm : List.length first = List.length m) by (symmetry; apply H; now left).
  rewrite IH; [now apply mask_zip_length |].
  intros m' Hm'. rewrite (mask_zip_length _ _ _ Hm). apply H. now right.
Qed.

Lemma bool_eq_iff (a b : bool) : (a = true <-> b = true) -> a = b.
Proof. destruct a, b; intuition. Qed.

Lemma combine_masks_members (logic : string) (n : nat)
      (first first' : list bool) (others others' : list (list bool)) :
  (forall m, In m (first :: others) -> List.length m = n) ->
  (forall m, In m (first :: others) <-> In m (first' :: others')) ->
  data_tools.combine_masks logic first others
  = data_tools.combine_masks logic first' others'.
Proof.
  intros Hlen Hsame.
  assert (Hlen' : forall m, In m (first' :: others') -> List.length m = n)
    by (intros m Hm; apply Hlen, Hsame, Hm).
  assert (L : forall f, List.length (fold_left (mask_zip f) others first)
                        = List.length (fold_left (mask_zip f) others' first')).
  { intros f. rewrite !fold_mask_length.
    - rewrite (Hlen first), (Hlen' first'); auto; now left.
    - intros m Hm. rewrite (Hlen' m), (Hlen' first'); auto; [now left | now right].
    - intros m Hm. rewrite (Hlen m), (Hlen first); auto; [now left | now right]. }
  unfold data_tools.combine_masks.
  destruct (String.eqb _ _); apply (nth_ext _ _ false false); try apply L;
    intros i _; apply bool_eq_iff.
  - rewrite !fold_and_nth. split; intros [H1 H2].
    + assert (H : forall m, In m (first :: others) -> nth i m false = true)
        by (intros m [<- | Hm]; auto).
      split; [apply H, Hsame; now left | intros m Hm; apply H, Hsame; now right].
    + assert (H : forall m, In m (first' :: others') -> nth i m false = true)
        by (intros m [<- | Hm]; auto).
      split; [apply H, Hsame; now left | intros m Hm; apply H, Hsame; now right].
  - rewrite !fold_or_nth.
    + split; intros H.
      * assert (H' : exists m, In m (first :: others) /\ nth i m false = true)
          by (destruct H as [H | (m & Hm & H)]; [exists first | exists m];
              split; auto; [now left | now right]).
        destruct H' as (m & Hm & Hi). apply Hsame in Hm as [<- | Hm]; [now left |].
        right. eauto.
      * assert (H' : exists m, In m (first' :: others') /\ nth i m false = true)
          by (destruct H as [H | (m & Hm & H)]; [exists first' | exists m];
              split; auto; [now left | now right]).
        destruct H' as (m & Hm & Hi). apply Hsame in Hm as [<- | Hm]; [now left |].
        right. eauto.
    + intros m Hm. rewrite (Hlen' m), (Hlen' first'); auto; [now left | now right].
    + intros m Hm. rewrite (Hlen m), (Hlen first); auto; [now left | now right].
Qed.

(** X9.  The order of the conditions does not matter to
    [multi_condition_filter]: when it returns a table for a list of
    conditions, it returns the same table for every rearrangement of the
    list, under AND as under OR. *)
Theorem multi_condition_filter_any_order
        (sc : pyval -> result (value -> bool)) (df : DataFrame)
        (cs cs' : list Condition) (logic : string) (out : DataFrame) :
  Permutation cs cs' ->
  data_tools.multi_condition_filter sc df cs logic = Ok out ->
  data_tools.multi_condition_filter sc df cs' logic = Ok out.
Proof.
  intros Hp. rewrite !multi_condition_filter_masks. intros H.
  apply bind_ok_inv in H as (ms & Hms & H).
  destruct (collect_masks_perm sc df cs cs' Hp ms Hms) as (ms' & Hms' & Pm).
  rewrite Hms'. simpl bind.
  pose proof (collect_masks_lengths sc df cs ms Hms) as Hlen.
  destruct ms as [| first others].
  - apply Permutation_nil in Pm. now subst.
  - destruct ms' as [| first' others'];
      [apply Permutation_sym, Permutation_nil in Pm; discriminate |].
    rewrite <- H. do 2 f_equal. symmetry.
    apply (combine_masks_members logic (len df)); [assumption |].
    intros m. split; intros Hm.
    + now apply (Permutation_in _ Pm).
    + now apply (Permutation_in _ (Permutation_sym Pm)).
Qed.

(** X9 at work: the two conditions on the orders, swapped. *)
Lemma multi_condition_filter_any_order_on_orders :
  data_tools.multi_condition_filter literal_contains orders
    [ Cond.mk "status" "==" (Scalar (SStr "A")); Cond.mk "amount" ">" (Scalar (SNum 20)) ]
    "or"
  = Ok (mkDataFrame [("amount", Int64); ("status", Object)]
          [[VNum 10; VStr "A"]; [VNum 50; VStr "B"]; [VNum 30; VStr "A"]]).
Proof.
  apply (multi_condition_filter_any_order literal_contains orders large_or_settled).
  - apply perm_swap.
  - reflexivity.
Defined.

(* ================================================================== *)
(** ** Further properties of the outlier detection *)

Lemma dtype_eqb_eq (a b : dtype) : data_tools.dtype_eqb a b = true <-> a = b.
Proof. destruct a, b; simpl; split; congruence. Qed.

(** X10.  [detect_outliers] fails with the column-not-found error for an
    absent column, and with the must-be-numeric error for every column
    whose dtype is not the one dtype that NumPy equates with [np.number]:
    whatever the method, integer and text columns are always refused, and
    where NumPy makes no dtype of [np.number] every column is. *)
Theorem detect_outliers_refuses
        (np_number_as_dtype : option dtype) (float_sqrt : Q -> Q)
        (df : DataFrame) (col method : string) :
  (has_column col df = false ->
     data_tools.detect_outliers np_number_as_dtype float_sqrt df col method
     = Err (ColumnNotFound col))
  /\ (has_column col df = true ->
      np_number_as_dtype <> Some (column_dtype col df) ->
        data_tools.detect_outliers np_number_as_dtype float_sqrt df col method
        = Err (TypeMismatch col)).
Proof.
  unfold data_tools.detect_outliers. split.
  - now intros ->.
  - intros Hc Hnp. rewrite Hc. simpl negb. cbv iota.
    destruct (get_column_has _ _ Hc) as (j & _ & Hcol).
    unfold column_dtype in Hnp. rewrite Hcol in *. simpl bind. simpl s_dtype in *.
    unfold data_tools.dtype_in_np_number.
    destruct np_number_as_dtype as [d |]; [| reflexivity].
    destruct (data_tools.dtype_eqb _ d) eqn:E; [| reflexivity].
    apply dtype_eqb_eq in E. congruence.
Qed.

(** X10 at work: the text column [status], under either NumPy. *)
Lemma detect_outliers_refuses_on_orders :
  data_tools.detect_outliers None newton_sqrt orders "region" "zscore"
  = Err (ColumnNotFound "region")
  /\ data_tools.detect_outliers (Some Float64) newton_sqrt orders "status" "zscore"
     = Err (TypeMismatch "status").
Proof.
  split.
  - apply (proj1 (detect_outliers_refuses None newton_sqrt orders "region" "zscore")).
    reflexivity.
  - apply (proj2 (detect_outliers_refuses (Some Float64) newton_sqrt orders
                    "status" "zscore")).
    + reflexivity.
    + discriminate.
Defined.





(* ================================================================== *)
(** ** Further properties of the data-quality summary *)

Lemma unique_length_le (vs : list value) : (List.length (unique vs) <= List.length vs)%nat.
Proof.
  induction vs as [| v vs IH]; simpl; [lia |].
  pose proof (filter_length_le (fun u => negb (value_eqb v u)) (unique vs)). lia.
Qed.

Lemma unique_filter (q : value -> bool) (vs : list value) :
  (forall a b, value_eqb a b = true -> q a = q b) ->
  unique (filter q vs) = filter q (unique vs).
Proof.
  intros Hq. induction vs as [| v vs IH]; [reflexivity |].
  cbn [filter unique]. destruct (q v) eqn:Ev; cbn [unique]; rewrite IH.
  - f_equal.
    generalize (unique vs) as l. induction l as [| u l IHl]; simpl; [reflexivity |].
    destruct (q u) eqn:Eu, (value_eqb v u) eqn:E; simpl;
      rewrite ?Eu, ?E; simpl; now rewrite ?IHl.
  - generalize (unique vs) as l. induction l as [| u l IHl]; simpl; [reflexivity |].
    destruct (value_eqb v u) eqn:E; simpl.
    + rewrite <- (Hq v u E), Ev. exact IHl.
    + destruct (q u); simpl; now rewrite IHl.
Qed.

Lemma unique_nulls (vs : list value) :
  filter is_null (unique vs) = if existsb is_null vs then [VNull] else [].
Proof.
  induction vs as [| v vs IH]; simpl; [reflexivity |].
  destruct v as [x | t |]; simpl.
  - rewrite <- IH. generalize (unique vs) as l.
    induction l as [| u l IHl]; simpl; [reflexivity |].
    destruct u; simpl; rewrite ?IHl; try reflexivity.
    destruct (negb (Qeq_bool x q)); simpl; now rewrite ?IHl.
  - rewrite <- IH. generalize (unique vs) as l.
    induction l as [| u l IHl]; simpl; [reflexivity |].
    destruct u; simpl; rewrite ?IHl; try reflexivity.
    destruct (negb (String.eqb t s)); simpl; now rewrite ?IHl.
  - f_equal. generalize (unique vs) as l.
    induction l as [| u l IHl]; simpl; [reflexivity |].
    destruct u; simpl; now rewrite ?IHl.
Qed.

Lemma split_nulls (vs : list value) :
  (List.length (filter (fun v => negb (is_null v)) vs)
   + List.length (filter is_null vs))%nat = List.length vs.
Proof.
  induction vs as [| v vs IH]; simpl; [reflexivity |].
  destruct (is_null v); simpl; lia.
Qed.

Lemma existsb_nulls (vs : list value) :
  existsb is_null vs = Nat.ltb 0 (List.length (filter is_null vs)).
Proof.
  induction vs as [| v vs IH]; simpl; [reflexivity |].
  destruct (is_null v); simpl; [reflexivity | exact IH].
Qed.

Lemma unique_count (vs : list value) :
  (List.length (unique (filter (fun v => negb (is_null v)) vs))
   + (if Nat.ltb 0 (List.length (filter is_null vs)) then 1 else 0))%nat
  = List.length (unique vs).
Proof.
  rewrite unique_filter.
  - rewrite <- (split_nulls (unique vs)), unique_nulls, existsb_nulls.
    destruct (Nat.ltb 0 _); simpl; lia.
  - intros a b H. f_equal. now apply value_eqb_null.
Qed.

(** X12.  Every record of the data-quality summary (of either variant) is
    consistent: Total Rows is the number of rows; Non-Null Count and Null
    Count add up to it; Unique Values never exceeds Non-Null Count; Unique
    Values and Duplicates together never exceed the number of rows, and add
    up to it when the column has no null; the two percentages are
    not-a-number exactly on a table without rows. *)
Theorem quality_record_consistent (df : DataFrame) (col : string) (r : record) :
  data_tools.quality_of_column df col = Ok r
  \/ advanced_data_tools.quality_of_column df col = Ok r ->
  exists non_null nulls uniq dups pct comp,
    field "Total Rows" r = Some (SCount (len df))
    /\ field "Non-Null Count" r = Some (SCount non_null)
    /\ field "Null Count" r = Some (SCount nulls)
    /\ field "Unique Values" r = Some (SCount uniq)
    /\ field "Duplicates" r = Some (SCount dups)
    /\ field "Null Percentage" r = Some (SPercent pct)
    /\ field "Completeness" r = Some (SPercent comp)
    /\ (non_null + nulls = len df)%nat
    /\ (uniq <= non_null)%nat
    /\ (uniq + dups <= len df)%nat
    /\ (nulls = 0%nat -> (uniq + dups = len df)%nat)
    /\ (pct = None <-> len df = 0%nat)
    /\ (comp = None <-> len df = 0%nat).
Proof.
  rewrite quality_of_column_same. intros H.
  assert (H' : data_tools.quality_of_column df col = Ok r) by tauto. clear H.
  unfold data_tools.quality_of_column in H'.
  apply bind_ok_inv in H' as (sr & Hsr & H'). injection H' as <-.
  assert (Hlen : List.length (s_values sr) = len df).
  { unfold get_column in Hsr. destruct (index_of col (columns df)); [| discriminate].
    injection Hsr as <-. simpl. apply length_map. }
  exists (notna_sum sr), (isnull_sum sr), (nunique sr), (duplicated_sum sr),
    (data_tools.percentage (isnull_sum sr) (len df)),
    (data_tools.completeness (data_tools.percentage (isnull_sum sr) (len df))).
  repeat (split; [reflexivity |]).
  unfold notna_sum, isnull_sum, nunique, duplicated_sum.
  pose proof (split_nulls (s_values sr)) as Hsplit.
  pose proof (unique_count (s_values sr)) as Huniq.
  pose proof (unique_length_le (s_values sr)) as Hle.
  pose proof (unique_length_le (filter (fun v => negb (is_null v)) (s_values sr))) as Hle'.
  split; [lia |]. split; [lia |]. split; [destruct (Nat.ltb 0 _); lia |].
  split.
  { intros Hz. rewrite Hz in Huniq. simpl in Huniq. lia. }
  unfold data_tools.percentage, data_tools.completeness.
  destruct (len df) as [| n] eqn:En; split; split; intros E; try reflexivity;
    discriminate.
Qed.

(** X12 at work: the column [status] of the three orders. *)
Lemma quality_record_consistent_on_orders :
  exists non_null nulls uniq dups pct comp,
    field "Total Rows"
      (data_tools.quality_record "status" "object" 3 3 0 (Some (0 # 3)) 2 1)
    = Some (SCount (len orders))
    /\ field "Non-Null Count"
         (data_tools.quality_record "status" "object" 3 3 0 (Some (0 # 3)) 2 1)
       = Some (SCount non_null)
    /\ field "Null Count"
         (data_tools.quality_record "status" "object" 3 3 0 (Some (0 # 3)) 2 1)
       = Some (SCount nulls)
    /\ field "Unique Values"
         (data_tools.quality_record "status" "object" 3 3 0 (Some (0 # 3)) 2 1)
       = Some (SCount uniq)
    /\ field "Duplicates"
         (data_tools.quality_record "status" "object" 3 3 0 (Some (0 # 3)) 2 1)
       = Some (SCount dups)
    /\ field "Null Percentage"
         (data_tools.quality_record "status" "object" 3 3 0 (Some (0 # 3)) 2 1)
       = Some (SPercent pct)
    /\ field "Completeness"
         (data_tools.quality_record "status" "object" 3 3 0 (Some (0 # 3)) 2 1)
       = Some (SPercent comp)
    /\ (non_null + nulls = len orders)%nat
    /\ (uniq <= non_null)%nat
    /\ (uniq + dups <= len orders)%nat
    /\ (nulls = 0%nat -> (uniq + dups = len orders)%nat)
    /\ (pct = None <-> len orders = 0%nat)
    /\ (comp = None <-> len orders = 0%nat).
Proof.
  apply (quality_record_consistent orders "status").
  left. reflexivity.
Defined.

(* ================================================================== *)
(** ** Further properties of the query parser *)

Lemma first_known_column_known (patterns : list Re.regex) (q : string) (df : DataFrame)
      (c : string) :
  no_upper q = true ->
  advanced_data_tools.first_known_column patterns q df = Some c ->
  has_column c df = true /\ no_upper c = true.
Proof.
  intros Hq. induction patterns as [| pattern rest IH]; simpl; [discriminate |].
  destruct (Re.search pattern q) as [m |] eqn:Hm; [| assumption].
  destruct (Re.group 1 m) as [col |] eqn:Hcol; [| assumption].
  destruct (has_column col df) eqn:Hc; [| assumption].
  intros [= <-]. split; [assumption |].
  apply (group_no_upper 1 m); [| assumption].
  now apply (search_no_upper pattern q).
Qed.

Lemma number_condition_column (op : string) (col num : option string) (c : Condition) :
  advanced_data_tools.number_condition op col num = Ok c -> col = Some (Cond.column c).
Proof.
  unfold advanced_data_tools.number_condition.
  destruct col as [x |], num as [n |]; try discriminate.
  intros H. apply bind_ok_inv in H as (v & _ & H). now injection H as <-.
Qed.

Lemma where_patterns_lower (phrasing : Re.regex * (Re.captures -> result Condition))
      (q : string) (m : Re.captures) (c : Condition) :
  In phrasing advanced_data_tools.where_patterns ->
  no_upper q = true ->
  Re.search (fst phrasing) q = Some m ->
  snd phrasing m = Ok c ->
  no_upper (Cond.column c) = true.
Proof.
  intros Hin Hq Hm Hc.
  pose proof (search_no_upper _ _ _ Hq Hm) as Hcaps.
  assert (G : Re.group 1 m = Some (Cond.column c)).
  { unfold advanced_data_tools.where_patterns in Hin.
    destruct Hin as [<- | [<- | [<- | [<- | []]]]]; simpl in Hc.
    - destruct (Re.group 2 m); [| discriminate].
      now apply number_condition_column in Hc.
    - destruct (Re.group 1 m) as [x |], (Re.group 2 m) as [v |]; try discriminate.
      now injection Hc as <-.
    - now apply number_condition_column in Hc.
    - now apply number_condition_column in Hc. }
  now apply (group_no_upper 1 m).
Qed.

Lemma collect_where_columns (patterns : list (Re.regex * (Re.captures -> result Condition)))
      (q : string) (df : DataFrame) (cs : list Condition) :
  (forall phrasing, In phrasing patterns -> In phrasing advanced_data_tools.where_patterns) ->
  no_upper q = true ->
  advanced_data_tools.collect_where patterns q df = Ok cs ->
  Forall (fun c => has_column (Cond.column c) df = true /\ no_upper (Cond.column c) = true) cs.
Proof.
  intros Hsub Hq. revert cs.
  induction patterns as [| [pattern extractor] rest IH]; simpl; intros cs H.
  - injection H as <-. constructor.
  - assert (Hrest : forall phrasing, In phrasing rest ->
                                     In phrasing advanced_data_tools.where_patterns)
      by (intros ph Hph; apply Hsub; now right).
    destruct (Re.search pattern q) as [m |] eqn:Hm; [| now apply IH].
    apply bind_ok_inv in H as (c & Hc & H).
    apply bind_ok_inv in H as (others & Ho & H). injection H as <-.
    specialize (IH Hrest _ Ho).
    destruct (has_column (Cond.column c) df) eqn:Hcol; [| assumption].
    constructor; [| assumption]. split; [assumption |].
    apply (where_patterns_lower (pattern, extractor) q m); auto.
    apply Hsub. now left.
Qed.

Lemma parse_natural_language_query_fields
      (query : string) (df : DataFrame) (op : advanced_data_tools.Operation) :
  advanced_data_tools.parse_natural_language_query query df = Ok op ->
  advanced_data_tools.order_by op
  = advanced_data_tools.first_known_column advanced_data_tools.order_patterns
      (PyStr.lower query) df
  /\ advanced_data_tools.group_by op
     = advanced_data_tools.first_known_column advanced_data_tools.group_patterns
         (PyStr.lower query) df
  /\ advanced_data_tools.collect_where advanced_data_tools.where_patterns
       (PyStr.lower query) df
     = Ok (advanced_data_tools.where_conditions op)
  /\ advanced_data_tools.parse_limit (PyStr.lower query)
     = Ok (advanced_data_tools.limit op)
  /\ (advanced_data_tools.order_direction op = "asc"
      \/ (advanced_data_tools.order_direction op = "desc"
          /\ advanced_data_tools.order_by op <> None))
  /\ advanced_data_tools.select_columns op = None
  /\ advanced_data_tools.aggregate op = None.
Proof.
  unfold advanced_data_tools.parse_natural_language_query. cbv zeta. intros H.
  apply bind_ok_inv in H as (cs & Hcs & H).
  apply bind_ok_inv in H as (lim & Hlim & H). injection H as <-.
  split; [reflexivity |]. split; [reflexivity |]. split; [exact Hcs |].
  split; [exact Hlim |]. split; [| split; reflexivity].
  assert (D : forall (o : option string) (b : bool),
             let direction := match o with
                              | Some _ => if b then "desc" else "asc"
                              | None => "asc"
                              end in
             direction = "asc" \/ (direction = "desc" /\ o <> None)).
  { intros [c |] []; cbn; auto. right. split; [reflexivity | discriminate]. }
  exact (D (advanced_data_tools.first_known_column
              advanced_data_tools.order_patterns (PyStr.lower query) df)
           (PyStr.contains "desc" (PyStr.lower query)
            || PyStr.contains "descending" (PyStr.lower query))).
Qed.

(** X13.  Every operation [parse_natural_language_query] returns is well
    formed for the table it was parsed against: the sort column, the group
    column and the column of every condition are columns of the table and
    consist of lower-case text (a column with an upper-case letter is never
    referred to); the direction is [asc], or [desc] with a sort column
    present; the limit is not negative; no column selection and no
    aggregate are ever set. *)
Theorem parse_natural_language_query_well_formed
        (query : string) (df : DataFrame) (op : advanced_data_tools.Operation) :
  advanced_data_tools.parse_natural_language_query query df = Ok op ->
  (forall c, advanced_data_tools.order_by op = Some c ->
             has_column c df = true /\ no_upper c = true)
  /\ (forall c, advanced_data_tools.group_by op = Some c ->
                has_column c df = true /\ no_upper c = true)
  /\ Forall (fun c => has_column (Cond.column c) df = true
                      /\ no_upper (Cond.column c) = true)
            (advanced_data_tools.where_conditions op)
  /\ (advanced_data_tools.order_direction op = "asc"
      \/ (advanced_data_tools.order_direction op = "desc"
          /\ advanced_data_tools.order_by op <> None))
  /\ (forall n, advanced_data_tools.limit op = Some n -> (0 <= n)%Z)
  /\ advanced_data_tools.select_columns op = None
  /\ advanced_data_tools.aggregate op = None.
Proof.
  intros H.
  destruct (parse_natural_language_query_fields _ _ _ H)
    as (Ho & Hg & Hw & Hl & Hd & Hs & Ha).
  pose proof (lower_no_upper query) as Hq.
  split; [| split; [| split; [| split; [| split; [| split]]]]]; try assumption.
  - intros c Hc. rewrite Ho in Hc.
    now apply (first_known_column_known _ _ _ _ Hq Hc).
  - intros c Hc. rewrite Hg in Hc.
    now apply (first_known_column_known _ _ _ _ Hq Hc).
  - apply (collect_where_columns advanced_data_tools.where_patterns
             (PyStr.lower query) df); auto.
  - intros n Hn. rewrite Hn in Hl. unfold advanced_data_tools.parse_limit in Hl.
    destruct (Re.search _ _) as [m |]; [| discriminate].
    destruct (Re.group_or m _) as [digits |]; [| discriminate].
    apply bind_ok_inv in Hl as (k & Hk & [= <-]). now apply parse_int_nonneg in Hk.
Qed.

(** X13 at work: the command with two phrasings on the three orders. *)
Lemma parse_natural_language_query_well_formed_on_orders :
  (forall c, advanced_data_tools.order_by two_phrasings = Some c ->
             has_column c orders = true /\ no_upper c = true)
  /\ (forall c, advanced_data_tools.group_by two_phrasings = Some c ->
                has_column c orders = true /\ no_upper c = true)
  /\ Forall (fun c => has_column (Cond.column c) orders = true
                      /\ no_upper (Cond.column c) = true)
            (advanced_data_tools.where_conditions two_phrasings)
  /\ (advanced_data_tools.order_direction two_phrasings = "asc"
      \/ (advanced_data_tools.order_direction two_phrasings = "desc"
          /\ advanced_data_tools.order_by two_phrasings <> None))
  /\ (forall n, advanced_data_tools.limit two_phrasings = Some n -> (0 <= n)%Z)
  /\ advanced_data_tools.select_columns two_phrasings = None
  /\ advanced_data_tools.aggregate two_phrasings = None.
Proof.
  apply (parse_natural_language_query_well_formed
           "where amount > 1 where status is open" orders).
  reflexivity.
Defined.

(* ================================================================== *)
(** ** Further properties of the second executor *)

Section SqlLike.
Variable sc : pyval -> result (value -> bool).
Variable df : DataFrame.

Lemma where_step_mask (c : Condition) (m mask : list bool) :
  data_tools.condition_mask sc df c = Ok (Some m) ->
  advanced_data_tools.where_step sc df mask c = Ok (mask_and mask m).
Proof.
  unfold data_tools.condition_mask, advanced_data_tools.where_step. cbv zeta.
  destruct (has_column (Cond.column c) df) eqn:Hc; simpl negb; cbv iota;
    [| discriminate].
  destruct (get_column_has _ _ Hc) as (j & _ & ->). simpl bind.
  repeat match goal with
         | |- (if String.eqb ?a ?b then _ else _) = _ -> _ =>
             destruct (String.eqb a b) eqn:?;
             [ intros H; apply bind_ok_inv in H as (m' & Hm & H);
               injection H as ->; now rewrite Hm | ]
         end.
  destruct (String.eqb (Cond.operator c) "contains") eqn:E; [| discriminate].
  apply String.eqb_eq in E. rewrite E. simpl String.eqb. cbv iota.
  intros H. apply bind_ok_inv in H as (m' & Hm & H). injection H as ->.
  now rewrite Hm.
Qed.

Lemma where_loop_masks (cs : list Condition) (masks : list (list bool)) :
  Forall2 (fun c m => data_tools.condition_mask sc df c = Ok (Some m)) cs masks ->
  forall mask, advanced_data_tools.where_loop sc df mask cs
               = Ok (fold_left mask_and masks mask).
Proof.
  induction 1 as [| c m cs masks Hc _ IH]; intros mask; simpl; [reflexivity |].
  rewrite (where_step_mask c m mask Hc). simpl. apply IH.
Qed.

Lemma where_loop_app (cs1 cs2 : list Condition) (mask : list bool) :
  advanced_data_tools.where_loop sc df mask (cs1 ++ cs2)
  = bind (advanced_data_tools.where_loop sc df mask cs1)
         (fun mask' => advanced_data_tools.where_loop sc df mask' cs2).
Proof.
  revert mask. induction cs1 as [| c cs1 IH]; intros mask; simpl; [reflexivity |].
  destruct (advanced_data_tools.where_step sc df mask c); simpl; [apply IH | reflexivity].
Qed.

Lemma mask_and_all_true {A : Type} (l : list A) (m : list bool) :
  List.length m = List.length l -> mask_and (map (fun _ => true) l) m = m.
Proof.
  unfold mask_and. revert m. induction l as [| x l IH]; intros [| b m]; simpl;
    try discriminate; [reflexivity |].
  intros H. f_equal. apply IH. lia.
Qed.

(** X15.  [execute_sql_like_query] is strict about the columns of its
    conditions: when the conditions before it evaluate, a condition naming
    a column the table lacks makes the query fail with the
    column-not-found error, whatever the other clauses are. *)
Theorem execute_sql_like_query_unknown_column
        (cs1 cs2 : list Condition) (c : Condition) (masks : list (list bool))
        (select_columns : option (list string)) (group_by order_by : option string)
        (direction : string) (limit : option Z) :
  Forall2 (fun c1 m => data_tools.condition_mask sc df c1 = Ok (Some m)) cs1 masks ->
  has_column (Cond.column c) df = false ->
  advanced_data_tools.execute_sql_like_query sc df select_columns (cs1 ++ c :: cs2)
    group_by order_by direction limit
  = Err (ColumnNotFound (Cond.column c)).
Proof.
  intros HF Hc. unfold advanced_data_tools.execute_sql_like_query. cbv zeta.
  assert (Hloop : forall mask, advanced_data_tools.where_loop sc df mask (cs1 ++ c :: cs2)
                               = Err (ColumnNotFound (Cond.column c))).
  { intros mask. rewrite where_loop_app, (where_loop_masks cs1 masks HF). simpl.
    unfold advanced_data_tools.where_step. cbv zeta. now rewrite Hc. }
  destruct (cs1 ++ c :: cs2) eqn:E; [now destruct cs1 |].
  now rewrite Hloop.
Qed.

End SqlLike.

(** X15 at work: a condition on the absent column [region] after one that
    evaluates. *)
Lemma execute_sql_like_query_unknown_column_on_orders :
  advanced_data_tools.execute_sql_like_query literal_contains orders None
    ([Cond.mk "amount" ">" (Scalar (SNum 20))]
       ++ Cond.mk "region" "==" (Scalar (SStr "north")) :: [])
    None (Some "amount") "desc" (Some 1%Z)
  = Err (ColumnNotFound (Cond.column (Cond.mk "region" "==" (Scalar (SStr "north"))))).
Proof.
  apply (execute_sql_like_query_unknown_column literal_contains orders
           [Cond.mk "amount" ">" (Scalar (SNum 20))] []
           (Cond.mk "region" "==" (Scalar (SStr "north"))) [[false; true; true]]).
  - repeat constructor.
  - reflexivity.
Defined.

(** *** The errors of [complex_query] *)

Section ComplexQuery.
Variable sc : pyval -> result (value -> bool).
Hypothesis sc_errors : forall v e, sc v = Err e -> forall x, e <> ColumnNotFound x.

Lemma type_or_value_not_missing (e : error) :
  e = PyTypeError \/ e = PyValueError -> forall x, e <> ColumnNotFound x.
Proof. intros [-> | ->] x; discriminate. Qed.

Lemma where_step_checked (df : DataFrame) (mask : list bool) (c : Condition) (e : error) :
  has_column (Cond.column c) df = true ->
  advanced_data_tools.where_step sc df mask c = Err e ->
  forall x, e <> ColumnNotFound x.
Proof.
  intros Hc. unfold advanced_data_tools.where_step. cbv zeta. rewrite Hc.
  simpl negb. cbv iota.
  destruct (get_column_has _ _ Hc) as (j & _ & ->). simpl bind.
  repeat match goal with
         | |- (if String.eqb ?a ?b then _ else _) = _ -> _ =>
             destruct (String.eqb a b);
             [ intros H; apply bind_err_inv in H as [H | (m' & _ & H)];
               [| discriminate] | ]
         end;
    try (apply type_or_value_not_missing; now apply series_compare_err in H).
  - apply type_or_value_not_missing. unfold advanced_data_tools.series_isin in H.
    destruct (Cond.value c); [| discriminate]. injection H as <-. now left.
  - unfold data_tools.series_contains in H.
    apply bind_err_inv in H as [H | (f & _ & H)]; [| discriminate].
    now apply (sc_errors _ _ H).
  - destruct (String.eqb (Cond.operator c) "between"); [| discriminate].
    destruct (Cond.value c) as [y | [| lo [| hi [| z l]]]]; try discriminate.
    intros H. apply type_or_value_not_missing. left.
    apply bind_err_inv in H as [H | (m1 & _ & H)].
    { apply mapM_err in H as (x0 & _ & H). now apply compare_value_err in H. }
    apply bind_err_inv in H as [H | (m2 & _ & H)]; [| discriminate].
    apply mapM_err in H as (x0 & _ & H). now apply compare_value_err in H.
Qed.

Lemma where_loop_checked (df : DataFrame) (cs : list Condition) :
  Forall (fun c => has_column (Cond.column c) df = true) cs ->
  forall mask e, advanced_data_tools.where_loop sc df mask cs = Err e ->
                 forall x, e <> ColumnNotFound x.
Proof.
  induction 1 as [| c cs Hc _ IH]; intros mask e; simpl; [discriminate |].
  intros H. apply bind_err_inv in H as [H | (mask' & _ & H)].
  - now apply (where_step_checked df mask c).
  - now apply (IH mask').
Qed.

Lemma execute_sql_like_query_checked
      (df : DataFrame) (cs : list Condition) (group_by order_by : option string)
      (direction : string) (limit : option Z) :
  Forall (fun c => has_column (Cond.column c) df = true) cs ->
  (forall g, group_by = Some g -> has_column g df = true) ->
  (forall o, order_by = Some o -> has_column o df = true) ->
  match advanced_data_tools.execute_sql_like_query sc df None cs group_by order_by
          direction limit with
  | Ok out => schema out = schema df
  | Err e => forall x, e <> ColumnNotFound x
  end.
Proof.
  intros Hcs Hg Ho. unfold advanced_data_tools.execute_sql_like_query. cbv zeta.
  assert (W : match (match cs with
                     | [] => Ok df
                     | _ => mask <- advanced_data_tools.where_loop sc df
                                      (map (fun _ => true) (rows df)) cs ;;
                            Ok (select mask df)
                     end) with
              | Ok r => schema r = schema df
              | Err e => forall x, e <> ColumnNotFound x
              end).
  { destruct cs as [| c cs]; [reflexivity |].
    destruct (advanced_data_tools.where_loop sc df _ (c :: cs)) as [mask | e] eqn:E;
      simpl; [reflexivity |].
    exact (where_loop_checked df (c :: cs) Hcs _ e E). }
  destruct (match cs with [] => _ | _ => _ end) as [r1 | e]; simpl bind; [| exact W].
  assert (G : match group_by with
              | Some g => if PyStr.truthy g && negb (has_column g r1)
                          then Err (ColumnNotFound g) else Ok tt
              | None => Ok tt
              end = Ok tt).
  { destruct group_by as [g |]; [| reflexivity].
    rewrite (has_column_same_schema g r1 df W), (Hg g eq_refl).
    now rewrite andb_false_r. }
  rewrite G. simpl bind.
  destruct order_by as [o |].
  - destruct (PyStr.truthy o).
    + rewrite (has_column_same_schema o r1 df W), (Ho o eq_refl). simpl negb. cbv iota.
      destruct (sort_values o _ r1) as [r2 | e] eqn:E; simpl bind.
      * apply sort_values_schema in E.
        destruct limit as [n |]; [destruct (Z.eqb n 0) |]; simpl; congruence.
      * cbv beta iota. apply type_or_value_not_missing. left.
        eapply sort_values_err; [| exact E].
        now rewrite (has_column_same_schema o r1 df W), (Ho o eq_refl).
    + simpl bind. destruct limit as [n |]; [destruct (Z.eqb n 0) |]; simpl; congruence.
  - simpl bind. destruct limit as [n |]; [destruct (Z.eqb n 0) |]; simpl; congruence.
Qed.

Lemma where_patterns_errors (phrasing : Re.regex * (Re.captures -> result Condition))
      (m : Re.captures) (e : error) :
  In phrasing advanced_data_tools.where_patterns ->
  snd phrasing m = Err e -> e = PyTypeError \/ e = PyValueError.
Proof.
  assert (N : forall op col num, advanced_data_tools.number_condition op col num = Err e ->
                                 e = PyTypeError \/ e = PyValueError).
  { intros op [c |] [n |]; simpl; try (intros [= <-]; now left).
    intros H. apply bind_err_inv in H as [H | (v & _ & H)]; [| discriminate].
    right. now apply parse_float_err in H. }
  unfold advanced_data_tools.where_patterns.
  intros [<- | [<- | [<- | [<- | []]]]]; simpl; intros H.
  - destruct (Re.group 2 m); [now apply N in H | injection H as <-; now left].
  - destruct (Re.group 1 m), (Re.group 2 m); try discriminate; injection H as <-; now left.
  - now apply N in H.
  - now apply N in H.
Qed.

Lemma collect_where_errors (patterns : list (Re.regex * (Re.captures -> result Condition)))
      (q : string) (df : DataFrame) (e : error) :
  (forall phrasing, In phrasing patterns -> In phrasing advanced_data_tools.where_patterns) ->
  advanced_data_tools.collect_where patterns q df = Err e ->
  e = PyTypeError \/ e = PyValueError.
Proof.
  induction patterns as [| [pattern extractor] rest IH]; simpl; intros Hsub H;
    [discriminate |].
  assert (Hrest : forall phrasing, In phrasing rest ->
                                   In phrasing advanced_data_tools.where_patterns)
    by (intros ph Hph; apply Hsub; now right).
  destruct (Re.search pattern q) as [m |]; [| now apply IH].
  apply bind_err_inv in H as [H | (c & _ & H)].
  - apply (where_patterns_errors (pattern, extractor) m); [apply Hsub; now left | exact H].
  - apply bind_err_inv in H as [H | (others & _ & H)]; [now apply IH | discriminate].
Qed.

Lemma parse_natural_language_query_errors (query : string) (df : DataFrame) (e : error) :
  advanced_data_tools.parse_natural_language_query query df = Err e ->
  e = PyTypeError \/ e = PyValueError.
Proof.
  unfold advanced_data_tools.parse_natural_language_query. cbv zeta. intros H.
  apply bind_err_inv in H as [H | (cs & _ & H)].
  - now apply (collect_where_errors advanced_data_tools.where_patterns) in H.
  - apply bind_err_inv in H as [H | (lim & _ & H)]; [| discriminate].
    unfold advanced_data_tools.parse_limit in H.
    destruct (Re.search _ _) as [m |]; [| discriminate].
    destruct (Re.group_or m _) as [digits |]; [| injection H as <-; now left].
    apply bind_err_inv in H as [H | (n & _ & H)]; [| discriminate].
    right. now apply parse_int_err in H.
Qed.

(** X16.  [complex_query] never fails because of an unknown column: the
    parser keeps only clauses whose column the table has, so the strict
    executor behind it finds every column it looks up, and so does the
    final grouping.  (The pattern matcher of [contains] is assumed not to
    raise that error itself.) *)
Theorem complex_query_never_misses_a_column
        (df : DataFrame) (query : string) (e : error) :
  advanced_data_tools.complex_query sc df query = Err e ->
  forall x, e <> ColumnNotFound x.
Proof.
  unfold advanced_data_tools.complex_query. intros H.
  apply bind_err_inv in H as [H | (op & Hop & H)].
  { apply type_or_value_not_missing. now apply parse_natural_language_query_errors in H. }
  destruct (parse_natural_language_query_fields _ _ _ Hop)
    as (Ho & Hg & Hw & _ & _ & Hs & _).
  pose proof (lower_no_upper query) as Hq.
  assert (Hcs : Forall (fun c => has_column (Cond.column c) df = true)
                       (advanced_data_tools.where_conditions op)).
  { apply (collect_where_columns advanced_data_tools.where_patterns
             (PyStr.lower query) df) in Hw; auto.
    eapply Forall_impl; [| exact Hw]. now intros c [Hc _]. }
  assert (Hgroup : forall g, advanced_data_tools.group_by op = Some g ->
                             has_column g df = true).
  { intros g Hgg. rewrite Hg in Hgg.
    now apply (first_known_column_known _ _ _ _ Hq Hgg). }
  assert (Horder : forall o, advanced_data_tools.order_by op = Some o ->
                             has_column o df = true).
  { intros o Hoo. rewrite Ho in Hoo.
    now apply (first_known_column_known _ _ _ _ Hq Hoo). }
  pose proof (execute_sql_like_query_checked df _ _ _
                (advanced_data_tools.order_direction op)
                (advanced_data_tools.limit op) Hcs Hgroup Horder) as Hexec.
  rewrite Hs in H.
  apply bind_err_inv in H as [H | (res & Hres & H)].
  - now rewrite H in Hexec.
  - rewrite Hres in Hexec.
    destruct (advanced_data_tools.group_by op) as [g |]; [| discriminate].
    destruct (PyStr.truthy g); [| discriminate].
    apply type_or_value_not_missing. right.
    apply (groupby_size_err g "count" res); [| exact H].
    now rewrite (has_column_same_schema g res df Hexec), (Hgroup g eq_refl).
Qed.

End ComplexQuery.

(** X16 at work: comparing the texts of [status] with a number fails, but
    not for a missing column. *)
Lemma complex_query_never_misses_a_column_on_orders :
  advanced_data_tools.complex_query literal_contains orders
    "where status > 5 order by region" = Err PyTypeError
  /\ forall x, PyTypeError <> ColumnNotFound x.
Proof.
  split; [reflexivity |].
  apply (complex_query_never_misses_a_column literal_contains) with
    (df := orders) (query := "where status > 5 order by region").
  - intros [[q | t] | ys] e H x; simpl in H; congruence.
  - reflexivity.
Defined.

(* ================================================================== *)
(** ** Further properties of the pipe-table strategy *)

Lemma keep_by_length {A : Type} (mask : list bool) (l : list A) :
  List.length l = List.length mask ->
  List.length (data_insights.keep_by mask l) = List.length (filter (fun b => b) mask).
Proof.
  revert l. induction mask as [| b mask IH]; intros [| x l]; simpl; try discriminate;
    [reflexivity |].
  intros H. destruct b; simpl; rewrite IH; auto.
Qed.

Lemma keep_by_nth {A : Type} (d : A) (mask : list bool) (l : list A) (k : nat) :
  List.length l = List.length mask ->
  (k < List.length (filter (fun b => b) mask))%nat ->
  nth k (data_insights.keep_by mask l) d = nth (kth_true mask k) l d
  /\ nth (kth_true mask k) mask false = true
  /\ (kth_true mask k < List.length mask)%nat.
Proof.
  revert l k. induction mask as [| b mask IH]; intros [| x l] k; simpl;
    try discriminate; try lia.
  intros Hl Hk. destruct b; simpl in *.
  - destruct k as [| k]; [repeat split; lia |].
    destruct (IH l k) as (H1 & H2 & H3); [lia | lia |]. repeat split; auto; lia.
  - destruct (IH l k) as (H1 & H2 & H3); [lia | lia |]. repeat split; auto; lia.
Qed.

Lemma keep_by_Forall {A : Type} (P : A -> Prop) (mask : list bool) (l : list A) :
  Forall P l -> Forall P (data_insights.keep_by mask l).
Proof.
  intros H. revert mask. induction H as [| x l Hx _ IH]; intros [| b mask]; simpl;
    try constructor.
  destruct b; [constructor |]; auto.
Qed.

Lemma nth_map_seq {A : Type} (f : nat -> A) (d : A) (n j : nat) :
  (j < n)%nat -> nth j (map f (seq 0 n)) d = f j.
Proof.
  intros H. rewrite (nth_indep _ d (f 0%nat)) by now rewrite length_map, length_seq.
  rewrite map_nth, seq_nth; auto.
Qed.

Lemma drop_empty_columns_well_formed (df : DataFrame) :
  (forall r, In r (rows df) -> List.length r = List.length (schema df)) ->
  Forall (fun r => List.length r
                   = List.length (schema (data_insights.drop_empty_columns df)))
         (rows (data_insights.drop_empty_columns df))
  /\ forall k, (k < List.length (schema (data_insights.drop_empty_columns df)))%nat ->
                exists r, In r (rows (data_insights.drop_empty_columns df))
                          /\ cell k r <> VStr EmptyString.
Proof.
  intros Hrect. unfold data_insights.drop_empty_columns. cbv zeta.
  cbn [schema rows].
  set (width := List.length (schema df)) in *.
  set (f := fun j : nat =>
              existsb (fun r => negb (value_eqb (cell j r) (VStr EmptyString))) (rows df)).
  set (keep := map f (seq 0 width)).
  assert (Hk : List.length keep = width)
    by (unfold keep; now rewrite length_map, length_seq).
  assert (Hcols : List.length (data_insights.keep_by keep (schema df))
                  = List.length (filter (fun b => b) keep))
    by (apply keep_by_length; now rewrite Hk).
  split.
  - apply Forall_forall. intros r Hr. apply in_map_iff in Hr as (r' & <- & Hr').
    rewrite Hcols. apply keep_by_length. rewrite Hk. now apply Hrect.
  - intros k Hlt. rewrite Hcols in Hlt.
    destruct (keep_by_nth false keep keep k eq_refl Hlt) as (_ & Htrue & Hpos).
    rewrite Hk in Hpos. unfold keep at 2 in Htrue.
    rewrite (nth_map_seq f false width _ Hpos) in Htrue.
    unfold f in Htrue.
    apply existsb_exists in Htrue as (r & Hr & Hnb).
    exists (data_insights.keep_by keep r). split; [now apply in_map |].
    assert (Hrk : List.length r = List.length keep) by (rewrite Hk; now apply Hrect).
    unfold cell in *.
    destruct (keep_by_nth VNull keep r k Hrk Hlt) as (-> & _ & _).
    intros E. rewrite E in Hnb. discriminate.
Qed.

Lemma drop_empty_columns_kinds (df : DataFrame) :
  Forall (fun cd => snd cd = Object) (schema df) ->
  Forall (Forall is_text) (rows df) ->
  Forall (fun cd => snd cd = Object) (schema (data_insights.drop_empty_columns df))
  /\ Forall (Forall is_text) (rows (data_insights.drop_empty_columns df)).
Proof.
  intros Hs Hr. unfold data_insights.drop_empty_columns. cbv zeta. cbn [schema rows].
  split; [now apply keep_by_Forall |].
  apply Forall_forall. intros r Hin. apply in_map_iff in Hin as (r' & <- & Hr').
  apply keep_by_Forall. rewrite Forall_forall in Hr. now apply Hr.
Qed.

Lemma DataFrame_of_rows_well_formed (padded : list (list string))
      (headers : list string) (df : DataFrame) :
  data_insights.DataFrame_of_rows padded headers = Ok df ->
  (forall r, In r (rows df) -> List.length r = List.length (schema df))
  /\ Forall (fun cd => snd cd = Object) (schema df)
  /\ Forall (Forall is_text) (rows df).
Proof.
  unfold data_insights.DataFrame_of_rows.
  destruct (forallb _ _) eqn:Hlen; [| discriminate]. intros [= <-].
  rewrite forallb_forall in Hlen. cbn [schema rows].
  split; [| split].
  - intros r Hr. apply in_map_iff in Hr as (p & <- & Hp).
    rewrite !length_map. apply Nat.eqb_eq. now apply Hlen.
  - apply Forall_forall. intros cd Hcd.
    apply in_map_iff in Hcd as (h0 & <- & _). reflexivity.
  - apply Forall_forall. intros r Hr. apply in_map_iff in Hr as (p & <- & _).
    apply Forall_forall. intros v Hv. apply in_map_iff in Hv as (t & <- & _). exact I.
Qed.

Lemma not_empty_has_cells (df : DataFrame) :
  empty df = false -> rows df <> [] /\ schema df <> [].
Proof.
  unfold empty. destruct df as [sch rs]. cbn [schema rows].
  destruct rs, sch; simpl; intros H; try discriminate; split; discriminate.
Qed.

(** X17.  Every table the pipe strategy returns is well formed: it has at
    least one row and one column; every row has as many cells as there are
    columns; every column is a text column and every cell a text; and no
    column is blank in all rows. *)
Theorem parse_pipe_table_well_formed (text : string) (df : DataFrame) :
  data_insights.parse_pipe_table text = Some df ->
  rows df <> []
  /\ schema df <> []
  /\ Forall (fun r => List.length r = List.length (schema df)) (rows df)
  /\ Forall (fun cd => snd cd = Object) (schema df)
  /\ Forall (Forall is_text) (rows df)
  /\ forall k, (k < List.length (schema df))%nat ->
                exists r, In r (rows df) /\ cell k r <> VStr EmptyString.
Proof.
  unfold data_insights.parse_pipe_table. cbv zeta.
  destruct (data_insights.gather_table_lines _ _) as [| l0 ls]; [discriminate |].
  destruct (data_insights.clean_lines _) as [| headers [| d0 ds]]; try discriminate.
  destruct headers as [| h hs]; [discriminate |].
  destruct (filter data_insights.any_text (d0 :: ds)) as [| r0 rs] eqn:Hrows;
    [discriminate |].
  destruct (data_insights.DataFrame_of_rows _ _) as [full | e] eqn:Hfull;
    [| discriminate].
  destruct (empty (data_insights.drop_empty_columns full)) eqn:He; [discriminate |].
  intros [= <-].
  apply DataFrame_of_rows_well_formed in Hfull as (Hrect & Hobj & Htext).
  destruct (not_empty_has_cells _ He) as (Hr & Hs).
  destruct (drop_empty_columns_well_formed full Hrect) as (Hlen & Hblank).
  destruct (drop_empty_columns_kinds full Hobj Htext) as (Hobj' & Htext').
  repeat split; auto.
Qed.

(** X17 at work: the text of the table A, B. *)
Lemma parse_pipe_table_well_formed_on_pipe_text :
  rows (mkDataFrame [("A", Object); ("B", Object)]
          [[VStr "---"; VStr "---"]; [VStr "1"; VStr "2"]; [VStr "3"; VStr "4"]]) <> []
  /\ schema (mkDataFrame [("A", Object); ("B", Object)]
               [[VStr "---"; VStr "---"]; [VStr "1"; VStr "2"]; [VStr "3"; VStr "4"]]) <> []
  /\ Forall (fun r => List.length r = 2%nat)
            [[VStr "---"; VStr "---"]; [VStr "1"; VStr "2"]; [VStr "3"; VStr "4"]]
  /\ Forall (fun cd : string * dtype => snd cd = Object) [("A", Object); ("B", Object)]
  /\ Forall (Forall is_text)
            [[VStr "---"; VStr "---"]; [VStr "1"; VStr "2"]; [VStr "3"; VStr "4"]]
  /\ forall k, (k < 2)%nat ->
                exists r, In r [[VStr "---"; VStr "---"]; [VStr "1"; VStr "2"];
                                [VStr "3"; VStr "4"]]
                          /\ cell k r <> VStr EmptyString.
Proof.
  apply (parse_pipe_table_well_formed pipe_text
           (mkDataFrame [("A", Object); ("B", Object)]
              [[VStr "---"; VStr "---"]; [VStr "1"; VStr "2"]; [VStr "3"; VStr "4"]])).
  reflexivity.
Defined.

Lemma gather_nothing (lines : list string) :
  (forall line, In line lines ->
                PyStr.startswith data_insights.bar (PyStr.strip line) = false) ->
  data_insights.gather_table_lines false lines = [].
Proof.
  induction lines as [| line rest IH]; simpl; intros H; [reflexivity |].
  rewrite (H line) by now left. rewrite andb_false_r. cbn [andb].
  apply IH. intros l Hl. apply H. now right.
Qed.

(** X18.  A text none of whose lines starts with a bar (after leading
    white space) gives no pipe table, whatever else it contains: the
    strategy passes the text on to the later ones. *)
Theorem parse_pipe_table_needs_a_bar_line (text : string) :
  (forall line, In line (PyStr.split PyStr.newline text) ->
                PyStr.startswith data_insights.bar (PyStr.strip line) = false) ->
  data_insights.parse_pipe_table text = None.
Proof.
  intros H. unfold data_insights.parse_pipe_table. cbv zeta.
  now rewrite (gather_nothing _ H).
Qed.

(** X18 at work: a sentence that mentions a bar in its middle. *)
Lemma parse_pipe_table_needs_a_bar_line_on_a_sentence :
  data_insights.parse_pipe_table "amount | status" = None.
Proof.
  apply parse_pipe_table_needs_a_bar_line.
  intros line [<- | []]. reflexivity.
Defined.

(* ================================================================== *)
(** ** The [multi_filter] tool *)

Lemma has_char_cons (c a : ascii) (s : string) :
  has_char c (String a s) = Ascii.eqb c a || has_char c s.
Proof. unfold has_char. simpl. now rewrite andb_true_r. Qed.

Lemma split_no_char (c : ascii) (s : string) :
  has_char c s = false -> PyStr.split c s = [s].
Proof.
  induction s as [| a s IH]; [reflexivity |].
  rewrite has_char_cons. intros H. apply orb_false_iff in H as (Ha & Hs).
  simpl. rewrite Ascii.eqb_sym, Ha, (IH Hs). reflexivity.
Qed.

Lemma split_at_first (c : ascii) (a b : string) :
  has_char c a = false ->
  PyStr.split c (a ++ String c b) = a :: PyStr.split c b.
Proof.
  induction a as [| x a IH]; simpl.
  - now rewrite Ascii.eqb_refl.
  - rewrite has_char_cons. intros H. apply orb_false_iff in H as (Hx & Ha).
    rewrite Ascii.eqb_sym, Hx, (IH Ha). reflexivity.
Qed.

Lemma split_head (c a : ascii) (s : string) :
  Ascii.eqb a c = false ->
  exists w ws, PyStr.split c (String a s) = String a w :: ws.
Proof.
  intros H. simpl. rewrite H. destruct (PyStr.split c s); eauto.
Qed.

Lemma strip_keeps_first (c : ascii) (s : string) :
  PyStr.is_space c = false -> exists t, PyStr.strip (String c s) = String c t.
Proof.
  intros H. unfold PyStr.strip. cbn [PyStr.lstrip_by]. rewrite H.
  cbn [PyStr.rstrip_by]. destruct (PyStr.rstrip_by _ s); rewrite ?H; eauto.
Qed.

Lemma has_char_lstrip (c : ascii) (f : ascii -> bool) (s : string) :
  has_char c s = false -> has_char c (PyStr.lstrip_by f s) = false.
Proof.
  induction s as [| a s IH]; [auto |]. intros H. cbn [PyStr.lstrip_by].
  destruct (f a); [| exact H].
  rewrite has_char_cons in H. apply orb_false_iff in H as (_ & Hs). auto.
Qed.

Lemma has_char_rstrip (c : ascii) (f : ascii -> bool) (s : string) :
  has_char c s = false -> has_char c (PyStr.rstrip_by f s) = false.
Proof.
  induction s as [| a s IH]; [auto |]. intros H. cbn [PyStr.rstrip_by].
  rewrite has_char_cons in H. apply orb_false_iff in H as (Ha & Hs).
  specialize (IH Hs). destruct (PyStr.rstrip_by f s) as [| b t].
  - destruct (f a); [reflexivity |]. now rewrite has_char_cons, Ha.
  - now rewrite has_char_cons, Ha.
Qed.

Lemma has_char_strip (c : ascii) (s : string) :
  has_char c s = false -> has_char c (PyStr.strip s) = false.
Proof. intros H. unfold PyStr.strip. now apply has_char_rstrip, has_char_lstrip. Qed.

Lemma has_char_app (c : ascii) (a b : string) :
  has_char c (a ++ String c b) = true.
Proof.
  induction a as [| x a IH]; simpl; rewrite has_char_cons.
  - now rewrite Ascii.eqb_refl.
  - rewrite IH. apply orb_true_r.
Qed.

Lemma mapM_fails {A B : Type} (f : A -> result B) (l : list A) (x : A) (e : error) :
  In x l -> f x = Err e -> exists e', mapM f l = Err e'.
Proof.
  induction l as [| y l IH]; [intros [] |]. intros [<- | Hin] Hx; simpl.
  - rewrite Hx. simpl. eauto.
  - destruct (f y); simpl; [| eauto].
    destruct (IH Hin Hx) as (e' & ->). simpl. eauto.
Qed.

Lemma plain_float_rejects_equals (s : string) :
  exists e, plain_float (String "=" s) = Err e.
Proof.
  unfold plain_float, PyNum.parse_float.
  destruct (split_head "." "=" s eq_refl) as (w & ws & ->).
  destruct ws as [| f [| g ws]]; simpl; eauto.
Qed.

Section MultiFilter.

Variable str_contains : pyval -> result (value -> bool).
Variable py_float : string -> result Q.

Lemma parse_fragment_shape (frag : string) (c : Condition) :
  data_insights.parse_fragment py_float frag = Ok (Some c) -> simple_condition c.
Proof.
  unfold data_insights.parse_fragment, simple_condition.
  set (rest := if PyStr.contains "<" frag then _ else _).
  assert (Hrest : rest = Ok (Some c) ->
                  ((Cond.operator c = ">" \/ Cond.operator c = "<")
                   /\ exists x, Cond.value c = Scalar (SNum x))
                  \/ (Cond.operator c = "==" /\ exists y, Cond.value c = Scalar y)).
  { unfold rest. destruct (PyStr.contains "<" frag).
    - destruct (PyStr.split "<" frag) as [| c1 [| v1 more]]; try discriminate.
      intros H. apply bind_ok_inv in H as (x & _ & [= <-]). left. simpl. eauto.
    - destruct (PyStr.contains "==" frag); [| discriminate].
      destruct (PyStr.split_str "==" frag) as [| c1 [| v1 more]]; try discriminate.
      intros [= <-]. right. simpl. eauto. }
  destruct (PyStr.split ">" (PyStr.strip frag)) as [| c0 [| v0 [| x0 xs]]]; auto.
  intros H. apply bind_ok_inv in H as (x & _ & [= <-]). left. simpl. eauto.
Qed.

Lemma parse_fragment_or_equal (frag : string) :
  (forall t, exists e, py_float (String "=" t) = Err e) ->
  or_equal_fragment frag ->
  exists e, data_insights.parse_fragment py_float frag = Err e.
Proof.
  intros Hf [(col & v & Hfrag & Hcol & Hv) | (col & v & Hfrag & Hgt & Hcol)];
    unfold data_insights.parse_fragment.
  - rewrite Hfrag. cbn [String.append].
    rewrite (split_at_first ">" col _ Hcol).
    rewrite split_no_char by (rewrite has_char_cons; now rewrite Hv).
    destruct (strip_keeps_first "=" v eq_refl) as (t & ->).
    destruct (Hf t) as (e & ->). simpl. eauto.
  - rewrite (split_no_char ">" _ (has_char_strip _ _ Hgt)).
    rewrite Hfrag. cbn [String.append].
    change (PyStr.contains "<" (col ++ String "<" (String "=" v)))
      with (has_char "<" (col ++ String "<" (String "=" v))).
    rewrite has_char_app, (split_at_first "<" col _ Hcol).
    destruct (split_head "<" "=" v eq_refl) as (w & ws & ->).
    destruct (strip_keeps_first "=" w eq_refl) as (t & ->).
    destruct (Hf t) as (e & ->). simpl. eauto.
Qed.

Lemma parse_fragment_no_operator (frag : string) :
  names_no_operator frag -> data_insights.parse_fragment py_float frag = Ok None.
Proof.
  intros (Hgt & Hlt & Heq). unfold data_insights.parse_fragment.
  rewrite (split_no_char ">" _ (has_char_strip _ _ Hgt)).
  change (PyStr.contains "<" frag) with (has_char "<" frag).
  now rewrite Hlt, Heq.
Qed.

(** X19.  Whatever text [multi_filter] is given, the conditions it builds
    use only the operators [>], [<] and [==]; those with [>] or [<] carry a
    number, those with [==] a number or a text; and there are at most as
    many of them as the text has comma-separated fragments. *)
Theorem multi_filter_builds_simple_conditions (conditions : string)
        (conds : list Condition) :
  data_insights.cond_list py_float conditions = Ok conds ->
  Forall simple_condition conds
  /\ (List.length conds <= List.length (PyStr.split "," conditions))%nat.
Proof.
  unfold data_insights.cond_list.
  generalize (PyStr.split "," conditions) as frags.
  intros frags H. apply bind_ok_inv in H as (parsed & Hparsed & [= <-]).
  revert parsed Hparsed. induction frags as [| frag frags IH]; simpl; intros parsed H.
  - injection H as <-. split; [constructor | simpl; lia].
  - apply bind_ok_inv in H as (c & Hc & H).
    apply bind_ok_inv in H as (cs & Hcs & [= <-]).
    destruct (IH cs Hcs) as (Hall & Hlen). simpl.
    destruct c as [c |]; simpl; split; auto; try lia.
    constructor; [exact (parse_fragment_shape frag c Hc) | exact Hall].
Qed.

(** X20.  A fragment of the form [col>=v] with no other [>] in it, or of
    the form [col<=v] with no [>] in it and no [<] in [col], makes
    [multi_filter] answer with an error, wherever it stands in the text:
    the tool splits at the [>] or [<] and reads the [=] as the start of
    the number.  (With a further [>] the fragment is split elsewhere and
    the tool may filter or skip it instead.) *)
Theorem multi_filter_or_equal_fails (dataframe : DataFrame)
        (conditions logic frag : string) :
  (forall t, exists e, py_float (String "=" t) = Err e) ->
  In frag (PyStr.split "," conditions) ->
  or_equal_fragment frag ->
  data_insights.multi_filter str_contains py_float dataframe conditions logic
  = data_insights.ToolError.
Proof.
  intros Hf Hin Hfrag. unfold data_insights.multi_filter, data_insights.cond_list.
  destruct (parse_fragment_or_equal frag Hf Hfrag) as (e & He).
  destruct (mapM_fails _ _ _ _ Hin He) as (e' & ->). reflexivity.
Qed.

(** X21.  When no fragment of the text holds [>], [<] or [==] (conditions
    written with [!=] or [contains], say), [multi_filter] builds no
    condition and answers that none is valid, without looking at the table. *)
Theorem multi_filter_without_operator (dataframe : DataFrame)
        (conditions logic : string) :
  (forall frag, In frag (PyStr.split "," conditions) -> names_no_operator frag) ->
  data_insights.multi_filter str_contains py_float dataframe conditions logic
  = data_insights.NoValidConditions.
Proof.
  intros H. unfold data_insights.multi_filter, data_insights.cond_list.
  rewrite (mapM_total _ (fun _ => None)).
  - simpl. generalize (PyStr.split "," conditions) as frags.
    induction frags as [| f frags IH]; simpl; auto.
  - intros frag Hin. apply parse_fragment_no_operator. auto.
Qed.

End MultiFilter.

(** X19 at work: two conditions from two fragments. *)
Lemma multi_filter_builds_simple_conditions_on_two_fragments :
  Forall simple_condition
    [Cond.mk "amount" ">" (Scalar (SNum 20)); Cond.mk "status" "==" (Scalar (SStr "A"))]
  /\ (2 <= 2)%nat.
Proof.
  apply (multi_filter_builds_simple_conditions plain_float "amount>20,status==A").
  reflexivity.
Defined.

(** X20 at work: [amount>=20] after a well-formed fragment. *)
Lemma multi_filter_or_equal_fails_on_orders :
  data_insights.multi_filter literal_contains plain_float orders
    "status==A,amount>=20" "AND"
  = data_insights.ToolError.
Proof.
  apply (multi_filter_or_equal_fails literal_contains plain_float orders
           "status==A,amount>=20" "AND" "amount>=20").
  - exact plain_float_rejects_equals.
  - simpl. auto.
  - left. exists "amount", "20". repeat split.
Defined.

(** X21 at work: a condition written with [!=]. *)
Lemma multi_filter_without_operator_on_orders :
  data_insights.multi_filter literal_contains plain_float orders "status!=A" "AND"
  = data_insights.NoValidConditions.
Proof.
  apply multi_filter_without_operator.
  intros frag [<- | []]. repeat split.
Defined.

(* ================================================================== *)
(** ** Labels of the statistical tools *)

From Stdlib Require Import Lqa.

Lemma Qle_bool_false (x y : Q) : Qle_bool x y = false -> y < x.
Proof.
  intros H. apply Qnot_le_lt. intros Hle. apply Qle_bool_iff in Hle. congruence.
Qed.

Ltac by_bounds :=
  repeat match goal with
         | |- context [Qle_bool ?x ?y] => destruct (Qle_bool x y) eqn:?
         end;
  repeat match goal with
         | H : Qle_bool _ _ = true |- _ => apply Qle_bool_iff in H
         | H : Qle_bool _ _ = false |- _ => apply Qle_bool_false in H
         end.

(** X22.  The strength label never goes down when the absolute correlation
    goes up, and the labelling functions of the statistical tools and of
    the formatting tools give the same label for every input, NaN
    included. *)
Theorem correlation_strength_monotone (a b : Q) :
  a <= b ->
  (strength_rank (statistical_tools._correlation_strength (Some a))
   <= strength_rank (statistical_tools._correlation_strength (Some b)))%nat
  /\ forall x, formatting_tools._correlation_strength_label x
               = statistical_tools._correlation_strength x.
Proof.
  intros Hab. split; [| reflexivity].
  unfold statistical_tools._correlation_strength, PyFloat.ge.
  by_bounds; cbn; try lia; exfalso; lra.
Qed.

(** X22 at work: correlations 0.5 and 0.95. *)
Lemma correlation_strength_monotone_on_two_values :
  (2 <= 4)%nat
  /\ forall x, formatting_tools._correlation_strength_label x
               = statistical_tools._correlation_strength x.
Proof.
  apply (correlation_strength_monotone (1 # 2) (95 # 100)).
  discriminate.
Defined.

(** X23.  [distribution_analysis] names a distribution left-skewed exactly
    when its skewness is NaN, is at most -0.5, or equals 0.5: a skewness of
    exactly 0.5 is neither approximately normal nor right-skewed for it. *)
Theorem distribution_type_left_skewed (skewness : PyFloat.t) :
  statistical_tools.distribution_type skewness = "Left-Skewed (Negative)"
  <-> match skewness with
      | None => True
      | Some q => q <= - (1 # 2) \/ q == 1 # 2
      end.
Proof.
  unfold statistical_tools.distribution_type, PyFloat.lt, PyFloat.gt, PyFloat.abs.
  destruct skewness as [q |]; cbn [option_map]; [| split; auto].
  destruct (Qle_bool (5 # 10) (Qabs q)) eqn:Habs;
    destruct (Qle_bool q (5 # 10)) eqn:Hq; cbn [negb];
    [ apply Qle_bool_iff in Habs | apply Qle_bool_iff in Habs
    | apply Qle_bool_false in Habs | apply Qle_bool_false in Habs ];
    [ apply Qle_bool_iff in Hq | apply Qle_bool_false in Hq
    | apply Qle_bool_iff in Hq | apply Qle_bool_false in Hq ];
    (split; [intros E; try discriminate E | intros H]).
  - revert Habs. apply Qabs_case; intros; lra.
  - reflexivity.
  - exfalso. lra.
  - exfalso. revert Habs. apply Qabs_case; intros; lra.
  - exfalso. revert Habs. apply Qabs_case; intros; lra.
Qed.

(* ================================================================== *)
(** ** The shape of an aggregated table *)

Lemma mapM_Forall2 {A B : Type} (f : A -> result B) (l : list A) (out : list B) :
  mapM f l = Ok out -> Forall2 (fun x y => f x = Ok y) l out.
Proof.
  revert out. induction l as [| x l IH]; simpl; intros out H.
  - injection H as <-. constructor.
  - apply bind_ok_inv in H as (y & Hy & H).
    apply bind_ok_inv in H as (ys & Hys & [= <-]).
    constructor; auto.
Qed.

Lemma grouped_agg_shape (float_sqrt : Q -> Q) (df : DataFrame) (g : string)
      (cols : list string) (f : data_tools.agg_fn) (out : DataFrame) :
  data_tools.grouped_agg float_sqrt df g cols f = Ok out ->
  exists dt rest,
    schema out = (g, dt) :: rest
    /\ map fst rest = cols
    /\ ~ In g cols
    /\ (forall c, In c cols -> has_column c df = true)
    /\ map (cell 0) (rows out) = group_keys (column_cells g df)
    /\ Forall (fun r => List.length r = List.length (schema out)) (rows out).
Proof.
  unfold data_tools.grouped_agg. intros H.
  apply bind_ok_inv in H as (key & Hkey & H).
  apply bind_ok_inv in H as (selected & Hsel & H).
  destruct (index_of g (columns df)) as [gi |] eqn:Hg; [| discriminate].
  apply bind_ok_inv in H as (body & Hbody & H).
  destruct (data_tools.str_in g cols) eqn:Hin; [discriminate |].
  injection H as <-. cbn [schema rows].
  apply mapM_Forall2 in Hsel. apply mapM_Forall2 in Hbody.
  assert (Hnames : map fst (map (fun '(c, _, dt) =>
                                   (c, data_tools.agg_dtype f dt)) selected) = cols
                   /\ forall c, In c cols -> has_column c df = true).
  { clear Hbody Hin. induction Hsel as [| c [[c' j] dt] cols' sel Hc _ IH]; simpl.
    - split; [reflexivity | intros c []].
    - apply bind_ok_inv in Hc as (sr & Hsr & Hc).
      destruct (index_of c (columns df)) as [j' |] eqn:Hj; [| discriminate].
      injection Hc as <- <- <-. destruct IH as (IH1 & IH2). split.
      + now rewrite IH1.
      + intros x [<- | Hx]; [now apply (index_has_column _ _ j') | auto]. }
  destruct Hnames as (Hnames & Hknown).
  exists (s_dtype key), (map (fun '(c, _, dt) => (c, data_tools.agg_dtype f dt)) selected).
  repeat split; auto.
  - intros Hg'. unfold data_tools.str_in in Hin.
    assert (existsb (String.eqb g) cols = true); [| congruence].
    apply existsb_exists. exists g. split; [assumption | apply String.eqb_refl].
  - unfold column_cells. rewrite Hkey.
    induction Hbody as [| k r ks rs Hk _ IH]; simpl; [reflexivity |].
    apply bind_ok_inv in Hk as (cells & _ & [= <-]). now rewrite IH.
  - apply Forall_forall. intros r Hr.
    assert (Hrow : Forall (fun r => List.length r = S (List.length selected)) body).
    { clear Hr. induction Hbody as [| k r' ks rs Hk _ IH]; constructor; auto.
      apply bind_ok_inv in Hk as (cells & Hcells & [= <-]).
      apply mapM_length in Hcells. simpl. now rewrite Hcells. }
    rewrite Forall_forall in Hrow. rewrite (Hrow r Hr). simpl.
    now rewrite length_map.
Qed.

(** X24.  For the function names whose aggregate the function computes
    itself (sum, mean, average, count, max, min, std when no aggregate
    column applies; any name it accepts when the aggregate column is a
    column of the table), whenever [group_by_aggregate] returns, the table
    has the shape of a grouped result: its first column is the grouping
    column and holds the distinct non-null keys of the input in ascending
    order, one row per key; the other columns are columns of the input,
    none of them the grouping column; and every row has one cell per
    column.  (Names that only pandas resolves, such as [size], are left
    out: their result need not have that shape.) *)
Theorem group_by_aggregate_shape (float_sqrt : Q -> Q)
        (pandas_agg : DataFrame -> string -> list string -> string -> result DataFrame)
        (df : DataFrame) (group_by agg_function : string) (agg_column : option string)
        (out : DataFrame) :
  data_tools.all_numeric_fn agg_function <> None
  \/ (exists c, agg_column = Some c /\ c <> "" /\ has_column c df = true) ->
  data_tools.group_by_aggregate float_sqrt pandas_agg df group_by agg_function agg_column
  = Ok out ->
  exists dt rest,
    schema out = (group_by, dt) :: rest
    /\ ~ In group_by (map fst rest)
    /\ (forall c, In c (map fst rest) -> has_column c df = true)
    /\ map (cell 0) (rows out) = group_keys (column_cells group_by df)
    /\ Forall (fun r => List.length r = List.length (schema out)) (rows out).
Proof.
  intros Hname. unfold data_tools.group_by_aggregate.
  destruct (has_column group_by df); [| discriminate]. cbn [negb].
  intros H. apply try_wrap_ok in H.
  assert (Hshape : forall cols f,
             data_tools.grouped_agg float_sqrt df group_by cols f = Ok out ->
             exists dt rest,
               schema out = (group_by, dt) :: rest
               /\ ~ In group_by (map fst rest)
               /\ (forall c, In c (map fst rest) -> has_column c df = true)
               /\ map (cell 0) (rows out) = group_keys (column_cells group_by df)
               /\ Forall (fun r => List.length r = List.length (schema out)) (rows out)).
  { intros cols f Hagg.
    destruct (grouped_agg_shape _ _ _ _ _ _ Hagg)
      as (dt & rest & Hs & Hn & Hnot & Hknown & Hkeys & Hlen).
    exists dt, rest. rewrite Hn. auto. }
  cbv zeta in H.
  assert (Hall : data_tools.all_numeric_fn agg_function <> None ->
                 match data_tools.all_numeric_fn agg_function with
                 | Some f =>
                     data_tools.grouped_agg float_sqrt df group_by
                       (data_tools.numeric_columns df) f
                 | None =>
                     pandas_agg df group_by (data_tools.numeric_columns df) agg_function
                 end = Ok out ->
                 exists dt rest,
                   schema out = (group_by, dt) :: rest
                   /\ ~ In group_by (map fst rest)
                   /\ (forall c, In c (map fst rest) -> has_column c df = true)
                   /\ map (cell 0) (rows out) = group_keys (column_cells group_by df)
                   /\ Forall (fun r => List.length r = List.length (schema out))
                             (rows out)).
  { destruct (data_tools.all_numeric_fn agg_function); [eauto | congruence]. }
  destruct agg_column as [c |].
  - destruct (PyStr.truthy c && has_column c df) eqn:Hc.
    + destruct (data_tools.single_column_fn agg_function); [eauto | discriminate].
    + destruct Hname as [Hname | (c' & [= <-] & Hne & Hcol)]; [auto |].
      rewrite Hcol in Hc. destruct c; [congruence | discriminate].
  - destruct Hname as [Hname | (c' & Hc' & _)]; [auto | discriminate].
Qed.

(** X24 at work: the sums of the numeric columns of the stock, by status. *)
Lemma group_by_aggregate_shape_on_stock :
  exists dt rest,
    schema stock_sums = ("status", dt) :: rest
    /\ ~ In "status" (map fst rest)
    /\ (forall c, In c (map fst rest) -> has_column c stock = true)
    /\ map (cell 0) (rows stock_sums) = group_keys (column_cells "status" stock)
    /\ Forall (fun r => List.length r = List.length (schema stock_sums))
              (rows stock_sums).
Proof.
  apply (group_by_aggregate_shape newton_sqrt no_further_aggregate stock "status" "sum"
           None stock_sums).
  - left. discriminate.
  - reflexivity.
Defined.

(* ================================================================== *)
(** ** Aggregation engine: the aggregate column *)




(* ================================================================== *)
(** ** Condition evaluator: the combination of the conditions *)

Lemma filter_map_shift {A B : Type} (f : A -> B) (p : B -> bool) (l : list A) :
  filter p (map f l) = map f (filter (fun x => p (f x)) l).
Proof.
  induction l as [| x l IH]; simpl; [reflexivity |].
  destruct (p (f x)); simpl; now rewrite IH.
Qed.

Lemma select_rows_positions (mask : list bool) (rs : list (list value)) :
  select_rows mask rs
  = map (fun i => nth i rs []) (filter (marked mask) (seq 0 (List.length rs))).
Proof.
  revert mask. induction rs as [| r rs IH]; intros mask.
  - now destruct mask.
  - cbn [List.length]. rewrite <- cons_seq, <- seq_shift.
    destruct mask as [| b mask].
    + simpl select_rows. cbn [filter]. unfold marked at 1. cbn [nth map].
      rewrite filter_map_shift, map_map.
      assert (E : filter (fun x => marked [] (S x)) (seq 0 (List.length rs)) = []).
      { clear IH. induction (seq 0 (List.length rs)) as [| i l IHl]; simpl; auto. }
      now rewrite E.
    + cbn [select_rows filter]. unfold marked at 1. cbn [nth].
      rewrite filter_map_shift. rewrite (IH mask).
      destruct b; cbn [map]; rewrite map_map; reflexivity.
Qed.

Lemma select_rows_where (mask : list bool) (df : DataFrame) :
  select mask df = rows_where (marked mask) df.
Proof. unfold select, rows_where, len. now rewrite select_rows_positions. Qed.

Lemma rows_where_ext (keep1 keep2 : nat -> bool) (df : DataFrame) :
  (forall i, (i < len df)%nat -> keep1 i = keep2 i) ->
  rows_where keep1 df = rows_where keep2 df.
Proof.
  intros H. unfold rows_where. f_equal. f_equal.
  apply filter_ext_in. intros i Hi. apply in_seq in Hi. apply H. lia.
Qed.

Lemma rows_where_all (df : DataFrame) : rows_where (fun _ => true) df = df.
Proof.
  rewrite <- (select_all df) at 2. rewrite select_rows_where.
  apply rows_where_ext. intros i Hi. unfold marked. symmetry.
  apply nth_all_true. exact Hi.
Qed.

Lemma condition_mask_other_operator
      (sc : pyval -> result (value -> bool)) (df : DataFrame) (c : Condition) :
  has_column (Cond.column c) df = false
  \/ data_tools.str_in (Cond.operator c) chain_operators = false ->
  data_tools.condition_mask sc df c = Ok None.
Proof.
  intros [Hc | Hop]; [now apply condition_mask_unknown_column |].
  unfold data_tools.condition_mask. cbv zeta.
  destruct (has_column (Cond.column c) df) eqn:Hc; [| reflexivity].
  destruct (get_column_has _ _ Hc) as (j & _ & ->). simpl bind. cbn [negb].
  unfold data_tools.str_in, chain_operators in Hop. cbn [existsb] in Hop.
  repeat (apply orb_false_iff in Hop as (?E & Hop)).
  now rewrite E, E0, E1, E2, E3, E4, E5.
Qed.

Lemma multi_condition_filter_and_mask
      (sc : pyval -> result (value -> bool)) (df : DataFrame)
      (cs : list Condition) (masks : list (list bool)) (logic : string) :
  Forall2 (fun c m => data_tools.condition_mask sc df c = Ok (Some m)) cs masks ->
  PyStr.upper logic = "AND" ->
  exists keep,
    data_tools.multi_condition_filter sc df cs logic = Ok (select keep df)
    /\ forall i, nth i keep false = true
                 <-> (i < len df)%nat /\ forall m, In m masks -> nth i m false = true.
Proof.
  intros HF Hand.
  assert (Hlen : forall m, In m masks -> List.length m = len df).
  { clear -HF. induction HF as [| c m cs masks Hc _ IH]; intros m' []; subst.
    - now apply condition_mask_length in Hc.
    - now apply IH. }
  rewrite multi_condition_filter_masks, (collect_masks_all sc df _ _ HF). simpl.
  destruct masks as [| first others].
  - exists (map (fun _ => true) (rows df)). split; [now rewrite select_all |].
    intros i. rewrite nth_all_true. unfold len. intuition.
  - eexists. split; [reflexivity |].
    intros i. unfold data_tools.combine_masks.
    apply String.eqb_eq in Hand. rewrite Hand. rewrite fold_and_nth. split.
    + intros [H1 H2]. split.
      * rewrite <- (Hlen first) by now left.
        destruct (Nat.lt_ge_cases i (List.length first)) as [Hi | Hi];
          [assumption |].
        rewrite nth_overflow in H1 by assumption. discriminate.
      * intros m [<- | H]; auto.
    + intros [_ H]. split; [apply H; now left |].
      intros m Hm. apply H. now right.
Qed.

Lemma multi_condition_filter_or_mask
      (sc : pyval -> result (value -> bool)) (df : DataFrame)
      (cs : list Condition) (masks : list (list bool)) (logic : string) :
  Forall2 (fun c m => data_tools.condition_mask sc df c = Ok (Some m)) cs masks ->
  PyStr.upper logic <> "AND" -> cs <> [] ->
  exists keep,
    data_tools.multi_condition_filter sc df cs logic = Ok (select keep df)
    /\ forall i, nth i keep false = true
                 <-> exists m, In m masks /\ nth i m false = true.
Proof.
  intros HF Hor Hcs.
  assert (Hlen : forall m, In m masks -> List.length m = len df).
  { clear -HF. induction HF as [| c m cs masks Hc _ IH]; intros m' []; subst.
    - now apply condition_mask_length in Hc.
    - now apply IH. }
  rewrite multi_condition_filter_masks, (collect_masks_all sc df _ _ HF). simpl.
  destruct masks as [| first others].
  - inversion HF; subst. contradiction.
  - eexists. split; [reflexivity |].
    intros i. unfold data_tools.combine_masks.
    apply String.eqb_neq in Hor. rewrite Hor. rewrite fold_or_nth.
    + split.
      * intros [H | (m & H1 & H2)]; [exists first | exists m]; split; auto;
          [now left | now right].
      * intros (m & [<- | H1] & H2); [now left | right; eauto].
    + intros m Hm. rewrite (Hlen m) by now right.
      symmetry. apply Hlen. now left.
Qed.

(** C7 (the claim as written fails).  A condition on a known column whose
    operator the filter does not evaluate is left out, so the result is not
    the union (nor the intersection) of the per-condition row sets.  On the
    three orders, [amount > 40] holds of the row 50 and [amount between 10
    and 30] of the rows 10 and 30 (as the strict single filter computes
    it; the multi-condition filter given that condition alone returns all
    three rows).  Under OR the filter returns the row 50 only, which is
    the union under neither reading; under AND it returns the row 50
    although no row satisfies both conditions. *)
Lemma C7_between_is_left_out :
  has_column "amount" orders = true
  /\ data_tools.filter_dataframe literal_contains "amount" "between"
       (PyList [SNum 10; SNum 30]) orders
     = Ok (mkDataFrame (schema orders) [[VNum 10; VStr "A"]; [VNum 30; VStr "A"]])
  /\ data_tools.multi_condition_filter literal_contains orders
       [Cond.mk "amount" "between" (PyList [SNum 10; SNum 30])] "OR"
     = Ok orders
  /\ data_tools.multi_condition_filter literal_contains orders
       [Cond.mk "amount" ">" (Scalar (SNum 40))] "OR"
     = Ok (mkDataFrame (schema orders) [[VNum 50; VStr "B"]])
  /\ data_tools.multi_condition_filter literal_contains orders
       [Cond.mk "amount" ">" (Scalar (SNum 40));
        Cond.mk "amount" "between" (PyList [SNum 10; SNum 30])] "OR"
     = Ok (mkDataFrame (schema orders) [[VNum 50; VStr "B"]])
  /\ data_tools.multi_condition_filter literal_contains orders
       [Cond.mk "amount" ">" (Scalar (SNum 40));
        Cond.mk "amount" "between" (PyList [SNum 10; SNum 30])] "AND"
     = Ok (mkDataFrame (schema orders) [[VNum 50; VStr "B"]]).
Proof. repeat split. Qed.

(** C7 (amended).  The filter takes into account the conditions that name
    a column of the table and one of the operators [>], [>=], [<], [<=],
    [==], [!=], [contains]; any other condition (unknown column, or an
    operator such as [between] or [in]) is left out without an error,
    wherever it stands in the list.  Given conditions that each evaluate to
    a mask, and rows identified by their position: the filter by one
    condition returns the rows its mask marks; with AND logic the filter
    returns exactly the rows that every mask marks, with any other logic
    (OR) exactly the rows that some mask marks, in their order and under
    the schema of the input; an empty condition list returns the table
    itself. *)
Theorem C7_and_intersects_or_unites
        (sc : pyval -> result (value -> bool)) (df : DataFrame)
        (cs : list Condition) (masks : list (list bool)) :
  Forall2 (fun c m => data_tools.condition_mask sc df c = Ok (Some m)) cs masks ->
  (forall logic, data_tools.multi_condition_filter sc df [] logic = Ok df)
  /\ Forall2 (fun c m => forall logic,
                 data_tools.multi_condition_filter sc df [c] logic
                 = Ok (rows_where (marked m) df))
             cs masks
  /\ (forall logic, PyStr.upper logic = "AND" ->
        data_tools.multi_condition_filter sc df cs logic
        = Ok (rows_where (fun i => forallb (fun m => marked m i) masks) df))
  /\ (forall logic, PyStr.upper logic <> "AND" -> cs <> [] ->
        data_tools.multi_condition_filter sc df cs logic
        = Ok (rows_where (fun i => existsb (fun m => marked m i) masks) df))
  /\ (forall c cs1 cs2 logic,
        has_column (Cond.column c) df = false
        \/ data_tools.str_in (Cond.operator c) chain_operators = false ->
        data_tools.multi_condition_filter sc df (cs1 ++ c :: cs2) logic
        = data_tools.multi_condition_filter sc df (cs1 ++ cs2) logic).
Proof.
  intros HF.
  split; [reflexivity |]. split; [| split; [| split]].
  - induction HF as [| c m cs masks Hc _ IH]; constructor; [| assumption].
    intros logic. rewrite multi_condition_filter_masks. simpl. rewrite Hc. simpl.
    rewrite <- select_rows_where.
    unfold data_tools.combine_masks. now destruct (String.eqb _ _).
  - intros logic Hand.
    destruct (multi_condition_filter_and_mask sc df cs masks logic HF Hand)
      as (keep & -> & Hkeep).
    f_equal. rewrite select_rows_where. apply rows_where_ext. intros i Hi.
    apply bool_eq_iff. unfold marked at 1. rewrite Hkeep, forallb_forall.
    unfold marked. intuition.
  - intros logic Hor Hcs.
    destruct (multi_condition_filter_or_mask sc df cs masks logic HF Hor Hcs)
      as (keep & -> & Hkeep).
    f_equal. rewrite select_rows_where. apply rows_where_ext. intros i Hi.
    apply bool_eq_iff. unfold marked at 1. rewrite Hkeep, existsb_exists.
    unfold marked. reflexivity.
  - intros c cs1 cs2 logic Hc.
    apply multi_condition_filter_skip. now apply condition_mask_other_operator.
Qed.

(** C7 at work: [amount > 20] and [status == 'A'] on the three orders. *)
Lemma C7_amount_and_status_on_orders :
  (forall logic, data_tools.multi_condition_filter literal_contains orders [] logic = Ok orders)
  /\ Forall2 (fun c m => forall logic,
                data_tools.multi_condition_filter literal_contains orders [c] logic
                = Ok (rows_where (marked m) orders))
             large_or_settled [[false; true; true]; [true; false; true]]
  /\ (forall logic, PyStr.upper logic = "AND" ->
        data_tools.multi_condition_filter literal_contains orders large_or_settled logic
        = Ok (rows_where
                (fun i => forallb (fun m => marked m i)
                            [[false; true; true]; [true; false; true]]) orders))
  /\ (forall logic, PyStr.upper logic <> "AND" -> large_or_settled <> [] ->
        data_tools.multi_condition_filter literal_contains orders large_or_settled logic
        = Ok (rows_where
                (fun i => existsb (fun m => marked m i)
                            [[false; true; true]; [true; false; true]]) orders))
  /\ (forall c cs1 cs2 logic,
        has_column (Cond.column c) orders = false
        \/ data_tools.str_in (Cond.operator c) chain_operators = false ->
        data_tools.multi_condition_filter literal_contains orders (cs1 ++ c :: cs2) logic
        = data_tools.multi_condition_filter literal_contains orders (cs1 ++ cs2) logic).
Proof.
  apply (C7_and_intersects_or_unites literal_contains orders large_or_settled
           [[false; true; true]; [true; false; true]]).
  repeat constructor.
Defined.

(* ================================================================== *)
(** ** Query executor: the GROUP BY step *)










